(** * Interoperability blockchain prototypes: ledger, mem-pool, miner and
      ledger reconciliation

    Shallow embedding of
      - [src/mpi/multiblockchainDP.py]            (module [MPI]),
      - [src/single_node/basicBlockchain.py]      (module [Basic]),
      - [src/single_node/blockchainDynamicPersist.py] (module [Dynamic]),
    followed by the properties of the design document that can be stated
    over it.

    Python objects are mutable and shared by reference, and the programs
    call the builtin [hash] on [Block] objects, a class that defines neither
    [__hash__] nor [__eq__]: the value is derived from the identity of the
    object.  Blocks therefore live in an object store indexed by their
    identity ([id(obj)]), and a chain is a list of references. *)

From Stdlib Require Import ZArith List String Ascii Bool Lia DecimalString.
From stdpp Require Import base option list gmap.

Local Open Scope string_scope.
Local Open Scope Z_scope.
Local Open Scope list_scope.

(* ===================================================================== *)
(** ** Python strings and values *)
(* ===================================================================== *)

Module Py.

(** A value that the programs store in [previous_block_hash],
    [latest_block_hash] and [nonce]: the initial [""], the int returned by
    [hash], the hex digest returned by the miner, or [None]. *)
Inductive value : Type :=
| Str (s : string)
| Int (z : Z)
| None_.

(** [a == b] on these values: an int never equals a str or [None]. *)
Definition eqb (a b : value) : bool :=
  match a, b with
  | Str s, Str t => String.eqb s t
  | Int x, Int y => Z.eqb x y
  | None_, None_ => true
  | _, _ => false
  end.

(** [str(n)] for an int. *)
Definition str (n : Z) : string := NilZero.string_of_int (Z.to_int n).

(** [c * n] for a one-character string [c]; empty when [n <= 0]. *)
Fixpoint replicate_char (n : nat) (c : ascii) : string :=
  match n with
  | O => EmptyString
  | S k => String c (replicate_char k c)
  end.

Definition repeat_str (c : ascii) (n : Z) : string :=
  replicate_char (Z.to_nat n) c.

(** [s.startswith(p)]. *)
Fixpoint startswith (s p : string) : bool :=
  match p with
  | EmptyString => true
  | String c p' =>
      match s with
      | EmptyString => false
      | String d s' => Ascii.eqb c d && startswith s' p'
      end
  end.

(** Number of leading ['0'] characters of a string. *)
Fixpoint leading_zeros (s : string) : nat :=
  match s with
  | String c s' => if Ascii.eqb c "0" then S (leading_zeros s') else O
  | EmptyString => O
  end.

(** Exceptions the modelled code can raise. *)
Inductive exn : Type :=
| IndexError
| AssertionError (msg : string)
| ZeroDivisionError
| ValueError.

(** Outcome of running a piece of code: a value, an exception, or no
    outcome within the granted number of loop iterations ([Diverge]), or a
    blocking call on the group that never returns ([Stall]): a receive that
    is never matched, a send that is neither buffered nor received, a
    barrier that some member never enters. *)
Inductive result (A : Type) : Type :=
| Ok (a : A)
| Raise (e : exn)
| Diverge
| Stall.
Arguments Ok {A} a.
Arguments Raise {A} e.
Arguments Diverge {A}.
Arguments Stall {A}.

Definition bind {A B} (k : A -> result B) (m : result A) : result B :=
  match m with
  | Ok a => k a
  | Raise e => Raise e
  | Diverge => Diverge
  | Stall => Stall
  end.

(** [int(s)] for a str of code points below 256, as CPython reads it in
    base 10: white space, an optional sign, decimal digits that single
    underscores may separate, white space; anything else is a
    [ValueError].  White space is what the reader skips (tab to carriage
    return, and the space) and, in a str that is not ASCII, the code points
    that count as spaces (U+0085 and U+00A0 below 256).  [max_str_digits] is
    [sys.get_int_max_str_digits()]: a numeral of more than 640 digits that
    exceeds it is a [ValueError] too, [0] standing for no limit. *)
Definition is_space (c : ascii) : bool :=
  let n := Z.of_nat (nat_of_ascii c) in
  ((9 <=? n) && (n <=? 13)) || (n =? 32) || (n =? 133) || (n =? 160).

Definition digit (c : ascii) : option Z :=
  let n := Z.of_nat (nat_of_ascii c) in
  if (48 <=? n) && (n <=? 57) then Some (n - 48) else None.

Fixpoint lstrip (s : string) : string :=
  match s with
  | String c s' => if is_space c then lstrip s' else s
  | EmptyString => s
  end.

(** The digits of the numeral at the head of [s]: the value read, the
    number of digits, and what follows; [after_digit] tells that the
    character before was a digit, which an underscore and the end of the
    numeral require. *)
Fixpoint numeral (s : string) (acc : Z) (count : nat) (after_digit : bool)
  : option (Z * nat * string) :=
  match s with
  | String c s' =>
      match digit c with
      | Some d => numeral s' (10 * acc + d) (S count) true
      | None =>
          if Ascii.eqb c "_" then
            if after_digit then
              match s' with
              | String c' _ =>
                  match digit c' with
                  | Some _ => numeral s' acc count false
                  | None => None
                  end
              | EmptyString => None
              end
            else None
          else if after_digit then Some (acc, count, s) else None
      end
  | EmptyString => if after_digit then Some (acc, count, s) else None
  end.

Definition int (max_str_digits : nat) (s : string) : result Z :=
  let s1 := lstrip s in
  let '(negative, s2) :=
    match s1 with
    | String c rest =>
        if Ascii.eqb c "+" then (false, rest)
        else if Ascii.eqb c "-" then (true, rest)
        else (false, s1)
    | EmptyString => (false, s1)
    end in
  match numeral s2 0 0 false with
  | Some (n, count, rest) =>
      match lstrip rest with
      | EmptyString =>
          if (640 <? count)%nat && (0 <? max_str_digits)%nat
             && (max_str_digits <? count)%nat
          then Raise ValueError
          else Ok (if negative then - n else n)
      | String _ _ => Raise ValueError
      end
  | None => Raise ValueError
  end.

End Py.

#[global] Instance result_ret : MRet Py.result := @Py.Ok.
#[global] Instance result_bind : MBind Py.result := @Py.bind.
#[global] Instance result_fmap : FMap Py.result :=
  fun A B f m => Py.bind (fun a => Py.Ok (f a)) m.

(* ===================================================================== *)
(** ** hashlib.sha256 (FIPS 180-4), on byte strings *)
(* ===================================================================== *)

Module SHA256.

Definition mask32 : Z := 2 ^ 32 - 1.
Definition w32 (x : Z) : Z := Z.land x mask32.
Definition add32 (x y : Z) : Z := w32 (x + y).
Definition rotr (n x : Z) : Z :=
  Z.lor (Z.shiftr x n) (w32 (Z.shiftl x (32 - n))).
Definition not32 (x : Z) : Z := Z.lxor x mask32.

Definition choose (x y z : Z) : Z :=
  Z.lxor (Z.land x y) (Z.land (not32 x) z).
Definition majority (x y z : Z) : Z :=
  Z.lxor (Z.lxor (Z.land x y) (Z.land x z)) (Z.land y z).
Definition big_sigma0 (x : Z) : Z :=
  Z.lxor (Z.lxor (rotr 2 x) (rotr 13 x)) (rotr 22 x).
Definition big_sigma1 (x : Z) : Z :=
  Z.lxor (Z.lxor (rotr 6 x) (rotr 11 x)) (rotr 25 x).
Definition small_sigma0 (x : Z) : Z :=
  Z.lxor (Z.lxor (rotr 7 x) (rotr 18 x)) (Z.shiftr x 3).
Definition small_sigma1 (x : Z) : Z :=
  Z.lxor (Z.lxor (rotr 17 x) (rotr 19 x)) (Z.shiftr x 10).

(** The round constants are the first 32 bits of the fractional parts of
    the cube roots of the first 64 primes; the initial state comes from
    the square roots of the first 8. *)
Definition primes : list Z :=
  [2; 3; 5; 7; 11; 13; 17; 19; 23; 29; 31; 37; 41; 43; 47; 53; 59; 61; 67;
   71; 73; 79; 83; 89; 97; 101; 103; 107; 109; 113; 127; 131; 137; 139;
   149; 151; 157; 163; 167; 173; 179; 181; 191; 193; 197; 199; 211; 223;
   227; 229; 233; 239; 241; 251; 257; 263; 269; 271; 277; 281; 283; 293;
   307; 311].

(** Integer cube root by bisection on the bits of the result. *)
Fixpoint cube_root_bits (bits : nat) (x acc : Z) : Z :=
  match bits with
  | O => acc
  | S b =>
      let cand := acc + 2 ^ Z.of_nat b in
      cube_root_bits b x (if cand * cand * cand <=? x then cand else acc)
  end.

Definition round_constants : list Z :=
  Eval vm_compute in
    List.map (fun p => w32 (cube_root_bits 36 (p * 2 ^ 96) 0)) primes.

Definition initial_state : list Z :=
  Eval vm_compute in
    List.map (fun p => w32 (Z.sqrt (p * 2 ^ 64))) (firstn 8 primes).

Definition bytes_of_string (s : string) : list Z :=
  List.map (fun c => Z.of_nat (nat_of_ascii c)) (list_ascii_of_string s).

(** Big-endian bytes of [x], [n] of them. *)
Fixpoint be_bytes (n : nat) (x : Z) : list Z :=
  match n with
  | O => []
  | S k => Z.land (Z.shiftr x (8 * Z.of_nat k)) 255 :: be_bytes k x
  end.

Definition pad (msg : list Z) : list Z :=
  let len := Z.of_nat (length msg) in
  let zeros := Z.to_nat ((55 - len) mod 64) in
  msg ++ [128] ++ List.repeat 0 zeros ++ be_bytes 8 (8 * len).

Fixpoint words_of_bytes (fuel : nat) (bs : list Z) : list Z :=
  match fuel, bs with
  | S f, b0 :: b1 :: b2 :: b3 :: rest =>
      (Z.shiftl b0 24 + Z.shiftl b1 16 + Z.shiftl b2 8 + b3)
        :: words_of_bytes f rest
  | _, _ => []
  end.

(** The message schedule, most recent word first. *)
Fixpoint extend (n : nat) (rev_w : list Z) : list Z :=
  match n with
  | O => rev_w
  | S k =>
      let at_ i := nth i rev_w 0 in
      let w := add32 (add32 (small_sigma1 (at_ 1%nat)) (at_ 6%nat))
                     (add32 (small_sigma0 (at_ 14%nat)) (at_ 15%nat)) in
      extend k (w :: rev_w)
  end.

Definition schedule (block : list Z) : list Z :=
  rev (extend 48 (rev block)).

Record regs : Type :=
  Regs { ra : Z; rb : Z; rc : Z; rd : Z; re : Z; rf : Z; rg : Z; rh : Z }.

Definition round (r : regs) (kw : Z * Z) : regs :=
  let t1 := add32 (add32 (add32 (rh r) (big_sigma1 (re r)))
                         (add32 (choose (re r) (rf r) (rg r)) (fst kw)))
                  (snd kw) in
  let t2 := add32 (big_sigma0 (ra r)) (majority (ra r) (rb r) (rc r)) in
  Regs (add32 t1 t2) (ra r) (rb r) (rc r) (add32 (rd r) t1)
       (re r) (rf r) (rg r).

Definition compress (h : regs) (block : list Z) : regs :=
  let r := fold_left round (combine round_constants (schedule block)) h in
  Regs (add32 (ra h) (ra r)) (add32 (rb h) (rb r)) (add32 (rc h) (rc r))
       (add32 (rd h) (rd r)) (add32 (re h) (re r)) (add32 (rf h) (rf r))
       (add32 (rg h) (rg r)) (add32 (rh h) (rh r)).

Fixpoint absorb (fuel : nat) (h : regs) (ws : list Z) : regs :=
  match fuel, ws with
  | S f, _ :: _ => absorb f (compress h (firstn 16 ws)) (skipn 16 ws)
  | _, _ => h
  end.

Definition regs_of_list (l : list Z) : regs :=
  Regs (nth 0 l 0) (nth 1 l 0) (nth 2 l 0) (nth 3 l 0)
       (nth 4 l 0) (nth 5 l 0) (nth 6 l 0) (nth 7 l 0).

Definition hex_digit (x : Z) : ascii :=
  nth (Z.to_nat x) (list_ascii_of_string "0123456789abcdef") "0"%char.

Fixpoint hex_word (nibbles : nat) (x : Z) : string :=
  match nibbles with
  | O => EmptyString
  | S k =>
      String (hex_digit (Z.land (Z.shiftr x (4 * Z.of_nat k)) 15))
             (hex_word k x)
  end.

(** [hashlib.sha256(bytes).hexdigest()]. *)
Definition hexdigest (msg : list Z) : string :=
  let padded := pad msg in
  let ws := words_of_bytes (length padded) padded in
  let r := absorb (length ws) (regs_of_list initial_state) ws in
  (hex_word 8 (ra r) ++ hex_word 8 (rb r) ++ hex_word 8 (rc r)
     ++ hex_word 8 (rd r) ++ hex_word 8 (re r) ++ hex_word 8 (rf r)
     ++ hex_word 8 (rg r) ++ hex_word 8 (rh r))%string.

(** [sha256(message)] of the programs:
    [hashlib.sha256(message.encode('ascii')).hexdigest()]. *)
Definition sha256 (message : string) : string :=
  hexdigest (bytes_of_string message).

End SHA256.

Arguments SHA256.sha256 : simpl never.

(* ===================================================================== *)
(** ** Objects, identities and the platform *)
(* ===================================================================== *)

(** The identity [id(obj)] of an object. *)
Definition addr : Type := Z.

(** What the interpreter decides: the value of the builtin [hash] on an
    object of a class without [__hash__] (a function of the identity of the
    object only), and the identity handed to the [n]-th [Block] object that a
    process creates. *)
Record Platform : Type := {
  object_hash : addr -> Z;
  new_id : nat -> addr
}.

(** CPython on a 64-bit machine hashes an object through its address,
    rotated right by four bits and read as a signed word, with [-1]
    replaced by [-2]. *)
Definition pointer_hash (a : addr) : Z :=
  let y := Z.lor (Z.shiftr a 4) (Z.land (Z.shiftl a 60) (2 ^ 64 - 1)) in
  let x := if y <? 2 ^ 63 then y else y - 2 ^ 64 in
  if x =? -1 then -2 else x.

(** Clients and transactions; the signing material of a client is opaque to
    the ledger code and is left out. *)
Record Client : Type := { name : Z; identity : string }.

(** [value] of a transaction: an int ([randrange], [getrandbits]), or a
    float drawn by [random.random()], which is [k / 2^53] for an integer
    [k]. *)
Inductive tx_value : Type :=
| VInt (n : Z)
| VFloat (k : Z).

Record Transaction : Type := {
  sender : Client;
  recipient : Client;
  value : tx_value;
  time : Z
}.

(** class Block.  The single-node programs spell the last two fields
    [Nonce] and [blockHeight]. *)
Record Block : Type := {
  verified_transactions : list Transaction;
  previous_block_hash : Py.value;
  nonce : Py.value;
  block_height : Z
}.

(** class Blockchain; [chain] holds references to [Block] objects.  The
    single-node programs spell the first field [latestBlockHash]. *)
Record Blockchain : Type := {
  latest_block_hash : Py.value;
  chainLength : Z;
  chain : list addr;
  difficulty : Z
}.

(** A pickled ledger: the [Blockchain] object together with the [Block]
    objects reachable from it. *)
Record pickled_ledger : Type := {
  ledger_root : Blockchain;
  ledger_blocks : gmap addr Block
}.

(** Payload of a point-to-point message. *)
Inductive payload : Type :=
| DigestMsg (digest : Py.value)
| BlockMsg (block : Block)
| LedgerMsg (ledger : pickled_ledger).

(** Calls into the process-group runtime that peers can observe, and
    operator output. *)
Inductive event : Type :=
| Split (color key : Z)
| WorldBarrier
| Barrier
| Allgather
| Gather
| Bcast
| Send (dest : nat) (tag : Z) (msg : payload)
| Recv (tag : option Z)
| Free
| Print (line : string).

(** Message tags of multiblockchainDP.py. *)
Definition BLOCK_TAG : Z := 0.
Definition NONCE_TAG : Z := 1.
Definition BC_TAG : Z := 2.

(** The state of one process: its objects, the module-level [memPool] and
    [blockchain], the file [blockchain_data] ([None] while it does not
    exist), the number of receive-side transport queries made so far, and
    the calls made so far. *)
Record process : Type := {
  objects : gmap addr Block;
  created : nat;
  memPool : list Transaction;
  blockchain : Blockchain;
  blockchain_data : option (list Block);
  clock : nat;
  trace : list event
}.

Definition with_objects (o : gmap addr Block) (st : process) : process :=
  {| objects := o; created := created st; memPool := memPool st;
     blockchain := blockchain st; blockchain_data := blockchain_data st;
     clock := clock st; trace := trace st |}.

Definition with_created (n : nat) (st : process) : process :=
  {| objects := objects st; created := n; memPool := memPool st;
     blockchain := blockchain st; blockchain_data := blockchain_data st;
     clock := clock st; trace := trace st |}.

Definition with_memPool (m : list Transaction) (st : process) : process :=
  {| objects := objects st; created := created st; memPool := m;
     blockchain := blockchain st; blockchain_data := blockchain_data st;
     clock := clock st; trace := trace st |}.

Definition with_blockchain (b : Blockchain) (st : process) : process :=
  {| objects := objects st; created := created st; memPool := memPool st;
     blockchain := b; blockchain_data := blockchain_data st;
     clock := clock st; trace := trace st |}.

Definition with_blockchain_data (f : option (list Block)) (st : process)
  : process :=
  {| objects := objects st; created := created st; memPool := memPool st;
     blockchain := blockchain st; blockchain_data := f;
     clock := clock st; trace := trace st |}.

Definition tick (st : process) : process :=
  {| objects := objects st; created := created st; memPool := memPool st;
     blockchain := blockchain st; blockchain_data := blockchain_data st;
     clock := S (clock st); trace := trace st |}.

Definition emit (es : list event) (st : process) : process :=
  {| objects := objects st; created := created st; memPool := memPool st;
     blockchain := blockchain st; blockchain_data := blockchain_data st;
     clock := clock st; trace := trace st ++ es |}.

(** [Block()]: the attributes set by [__init__]. *)
Definition new_block : Block :=
  {| verified_transactions := []; previous_block_hash := Py.Str "";
     nonce := Py.Str ""; block_height := 0 |}.

(** Attribute read through a reference.  A reference held by a Python
    program always denotes an object; on an identity that denotes none the
    function answers with the attributes of a new block. *)
Definition deref (o : gmap addr Block) (a : addr) : Block :=
  default new_block (o !! a).

(** Creation of a [Block] object with given attributes ([Block()], or an
    object rebuilt by [pickle.load] or by a receive). *)
Definition allocate (P : Platform) (b : Block) (st : process)
  : addr * process :=
  let a := new_id P (created st) in
  (a, with_created (S (created st)) (with_objects (<[a := b]> (objects st)) st)).

(** The initial module-level state of a process. *)
Definition new_blockchain : Blockchain :=
  {| latest_block_hash := Py.Str ""; chainLength := 0; chain := [];
     difficulty := 2 |}.

Definition initial_process (file : option (list Block)) : process :=
  {| objects := ∅; created := O; memPool := []; blockchain := new_blockchain;
     blockchain_data := file; clock := O; trace := [] |}.

(* ===================================================================== *)
(** ** class MemPool *)
(* ===================================================================== *)

Module MemPool.

Definition add_transaction (transaction : Transaction)
  (transactions : list Transaction) : list Transaction :=
  transactions ++ [transaction].

(** [nextTransaction = self.transactions[0]; self.transactions.pop(0)] *)
Definition pull_transaction (transactions : list Transaction)
  : Py.result (Transaction * list Transaction) :=
  match transactions with
  | [] => Py.Raise Py.IndexError
  | nextTransaction :: rest => Py.Ok (nextTransaction, rest)
  end.

Definition get_size (transactions : list Transaction) : Z :=
  Z.of_nat (length transactions).

End MemPool.

(** [memPool.pull_transaction()] on the module-level pool of a process. *)
Definition pull_transaction (st : process) : Py.result (Transaction * process) :=
  '(t, rest) ← MemPool.pull_transaction (memPool st);
  mret (t, with_memPool rest st).

(* ===================================================================== *)
(** ** class Block *)
(* ===================================================================== *)

Module BlockOps.

Definition add_transaction (transaction : Transaction) (b : Block) : Block :=
  {| verified_transactions := verified_transactions b ++ [transaction];
     previous_block_hash := previous_block_hash b;
     nonce := nonce b; block_height := block_height b |}.

Definition set_previous_block_hash (v : Py.value) (b : Block) : Block :=
  {| verified_transactions := verified_transactions b;
     previous_block_hash := v;
     nonce := nonce b; block_height := block_height b |}.

Definition set_nonce (v : Py.value) (b : Block) : Block :=
  {| verified_transactions := verified_transactions b;
     previous_block_hash := previous_block_hash b;
     nonce := v; block_height := block_height b |}.

Definition set_block_height (h : Z) (b : Block) : Block :=
  {| verified_transactions := verified_transactions b;
     previous_block_hash := previous_block_hash b;
     nonce := nonce b; block_height := h |}.

End BlockOps.

(** In-place update of the object behind a reference. *)
Definition mutate (f : Block -> Block) (a : addr) (st : process) : process :=
  with_objects (alter f a (objects st)) st.

(* ===================================================================== *)
(** ** class Blockchain and the persistence helpers *)
(* ===================================================================== *)

(** [persist_block(newBlock)]: appends the pickled block to the data file,
    creating the file when it is missing. *)
Definition persist_block (newBlock : addr) (st : process) : process :=
  with_blockchain_data
    (Some (default [] (blockchain_data st) ++ [deref (objects st) newBlock]))
    st.

Module BlockchainOps.

Definition get_chain_length (bc : Blockchain) : Z := chainLength bc.
Definition get_last_hash (bc : Blockchain) : Py.value := latest_block_hash bc.

(** [add_block(self, newBlock, fromFile)]: the reference is appended, the
    hash of the object recorded, the counter incremented, the height
    written into the appended object, and the block persisted unless it
    came from the file. *)
Definition add_block (P : Platform) (newBlock : addr) (fromFile : bool)
  (st : process) : process :=
  let bc := blockchain st in
  let bc' := {| latest_block_hash := Py.Int (object_hash P newBlock);
                chainLength := chainLength bc + 1;
                chain := chain bc ++ [newBlock];
                difficulty := difficulty bc |} in
  let st1 := with_blockchain bc' st in
  let st2 := mutate (BlockOps.set_block_height (chainLength bc')) newBlock st1 in
  if fromFile then st2 else persist_block newBlock st2.

(** The body of the loop of [verify_chain], over the values of [i]. *)
Fixpoint verify_pairs (P : Platform) (o : gmap addr Block) (c : list addr)
  (indices : list nat) : Py.result bool :=
  match indices with
  | [] => Py.Ok true
  | i :: rest =>
      match c !! i, c !! S i with
      | Some a, Some b =>
          if negb (Py.eqb (Py.Int (object_hash P a))
                          (previous_block_hash (deref o b)))
          then Py.Ok false
          else verify_pairs P o c rest
      | _, _ => Py.Raise Py.IndexError
      end
  end.

(** [verify_chain(self)]: [for i in range(0, self.chainLength-1)]. *)
Definition verify_chain (P : Platform) (st : process) : Py.result bool :=
  let bc := blockchain st in
  verify_pairs P (objects st) (chain bc)
    (seq 0 (Z.to_nat (chainLength bc - 1))).

(** The loop of [read_blockchain]: [i = 0; while i < 5: ...].  The body
    loads one record, leaves the loop at end of file, appends the block
    otherwise; it does not assign [i]. *)
Fixpoint read_records (P : Platform) (i : Z) (records : list Block)
  (st : process) {struct records} : process :=
  if i <? 5 then
    match records with
    | [] => st
    | block :: rest =>
        let '(a, st1) := allocate P block st in
        read_records P i rest (add_block P a true st1)
    end
  else st.

Definition read_blockchain (P : Platform) (st : process) : process :=
  match blockchain_data st with
  | Some records => read_records P 0 records st
  | None => emit [Print "No prior blockchain data found"] st
  end.

(** [persist(self)]: rewrites the data file with every block of the
    chain. *)
Definition persist (st : process) : process :=
  with_blockchain_data
    (Some (List.map (deref (objects st)) (chain (blockchain st)))) st.

End BlockchainOps.

(** [check_cla()]: [len(sys.argv) == 3]. *)
Definition check_cla (argv : list string) : bool :=
  Z.of_nat (length argv) =? 3.

(** [for i in range(forRange): newBlock.add_transaction(memPool.pull_transaction())] *)
Fixpoint fill_block (forRange : nat) (newBlock : addr) (st : process)
  : Py.result process :=
  match forRange with
  | O => Py.Ok st
  | S n =>
      '(t, st1) ← pull_transaction st;
      fill_block n newBlock (mutate (BlockOps.add_transaction t) newBlock st1)
  end.

(** [forRange = 3; if memPool.get_size() < forRange: forRange = memPool.get_size()] *)
Definition block_quota (st : process) : Z :=
  if MemPool.get_size (memPool st) <? 3 then MemPool.get_size (memPool st) else 3.

(* ===================================================================== *)
(** ** single_node/blockchainDynamicPersist.py *)
(* ===================================================================== *)

Module Dynamic.

(** [for i in range(n)] of [Miner.mine], from counter value [i]; falling
    out of the loop returns [None]. *)
Fixpoint mine_for (P : Platform) (n : nat) (message : addr)
  (prefix : string) (i : Z) : Py.value :=
  match n with
  | O => Py.None_
  | S k =>
      let digest := SHA256.sha256 (Py.str (object_hash P message) ++ Py.str i)%string in
      if Py.startswith digest prefix then Py.Str digest
      else mine_for P k message prefix (i + 1)
  end.

Definition mine (P : Platform) (message : addr) (difficulty : Z)
  : Py.result Py.value :=
  if difficulty >=? 1 then
    Py.Ok (mine_for P (Z.to_nat 10000) message (Py.repeat_str "0" difficulty) 0)
  else Py.Raise (Py.AssertionError "Difficulty is invalid").

(** The [while memPool.get_size() > 0] loop of [main], and its body; every
    turn removes at least one transaction, so [budget] turns are enough
    for a pool of [budget] transactions. *)
Definition mining_turn (P : Platform) (st : process) : Py.result process :=
  let '(newBlock, st1) := allocate P new_block st in
  st2 ← fill_block (Z.to_nat (block_quota st1)) newBlock st1;
  digest ← mine P newBlock 2;
  let st3 := mutate (BlockOps.set_nonce digest) newBlock st2 in
  mret (BlockchainOps.add_block P newBlock false st3).

Fixpoint mining_loop (P : Platform) (budget : nat) (st : process)
  : Py.result process :=
  if MemPool.get_size (memPool st) >? 0 then
    match budget with
    | O => Py.Diverge
    | S k => st' ← mining_turn P st; mining_loop P k st'
    end
  else Py.Ok st.

(** What a run takes from outside the program: the limit
    [sys.get_int_max_str_digits()] of the interpreter, the outcomes of the
    calls of [random.choice] in the order they are made ([draw k] is the
    number drawn by call [k], reduced to an index of the list), the key pair
    generated for each client, held as the identity it exports, and the
    readings of the clock by the transactions, in order. *)
Record World : Type := {
  max_str_digits : nat;
  draw : nat -> nat;
  keypair : Z -> string;
  now : nat -> Z
}.

(** [sys.argv[i]], for an argument list that [check_cla] accepted. *)
Definition argument (argv : list string) (i : nat) : string :=
  nth i argv EmptyString.

(** [for x in range(int(numClients)): clientList.append(Client(x))] *)
Definition clients (W : World) (numClients : Z) : list Client :=
  List.map (fun x => {| name := Z.of_nat x; identity := keypair W (Z.of_nat x) |})
           (seq 0 (Z.to_nat numClients)).

(** [random.choice(clientList)], as call number [k]. *)
Definition choice (W : World) (clientList : list Client) (k : nat)
  : Py.result Client :=
  match clientList with
  | [] => Py.Raise Py.IndexError
  | c :: _ => Py.Ok (nth (draw W k mod length clientList) clientList c)
  end.

(** [sender == recipient]: [Client.__eq__] compares the name of the one
    with the other, which answers through its own [__eq__] with the
    comparison of the two names. *)
Definition same_client (a b : Client) : bool := name a =? name b.

(** [while (sender == recipient): recipient = random.choice(clientList)],
    for at most [fuel] draws; returns the recipient and the number of calls
    of [random.choice] made so far. *)
Fixpoint redraw (W : World) (fuel : nat) (clientList : list Client)
  (sender recipient : Client) (k : nat) : Py.result (Client * nat) :=
  if same_client sender recipient then
    match fuel with
    | O => Py.Diverge
    | S f =>
        r ← choice W clientList k;
        redraw W f clientList sender r (S k)
    end
  else Py.Ok (recipient, k).

(** [for x in range(numTransactions)]: the transactions added to the pool,
    in order; [k] calls of [random.choice] and [t] readings of the clock
    were made before. *)
Fixpoint generate (W : World) (fuel : nat) (clientList : list Client)
  (numTransactions : nat) (k t : nat) : Py.result (list Transaction) :=
  match numTransactions with
  | O => Py.Ok []
  | S n =>
      sender ← choice W clientList k;
      recipient ← choice W clientList (S k);
      '(recipient', k') ← redraw W fuel clientList sender recipient (S (S k));
      rest ← generate W fuel clientList n k' (S t);
      mret ({| sender := sender; recipient := recipient';
               value := VInt 1; time := now W t |} :: rest)
  end.

(** [main()]; the export of the ledger to JSON is left out.  [fuel] bounds
    the draws of each search for a recipient. *)
Definition main (P : Platform) (W : World) (fuel : nat) (argv : list string)
  (st : process) : Py.result process :=
  if check_cla argv then
    let st1 := BlockchainOps.read_blockchain P st in
    let numClients := argument argv 1 in
    numTransactions ← Py.int (max_str_digits W) (argument argv 2);
    clientCount ← Py.int (max_str_digits W) numClients;
    generated ← generate W fuel (clients W clientCount)
                  (Z.to_nat numTransactions) 0 0;
    let st2 := with_memPool (memPool st1 ++ generated) st1 in
    st3 ← mining_loop P (length (memPool st2)) st2;
    mret (emit [Print ("Size of blockchain: " ++
                       Py.str (chainLength (blockchain st3)))%string] st3)
  else
    mret (emit [Print "Proper format: python3 BasicBlockchainDynamic.py #clients #transactions"] st).

End Dynamic.

(* ===================================================================== *)
(** ** single_node/basicBlockchain.py *)
(* ===================================================================== *)

Module Basic.

(** [Miner.mine] is the one of blockchainDynamicPersist.py. *)
Definition mine := Dynamic.mine.

(** Menu choice ['3']: one block is filled, linked to the last hash of
    the ledger, mined at the difficulty of the ledger and appended. *)
Definition mine_block (P : Platform) (st : process) : Py.result process :=
  let '(tempBlock, st1) := allocate P new_block st in
  st2 ← fill_block (Z.to_nat (block_quota st1)) tempBlock st1;
  let st3 := mutate (BlockOps.set_previous_block_hash
                       (BlockchainOps.get_last_hash (blockchain st2)))
                    tempBlock st2 in
  digest ← mine P tempBlock (difficulty (blockchain st3));
  let st4 := mutate (BlockOps.set_nonce digest) tempBlock st3 in
  mret (BlockchainOps.add_block P tempBlock false st4).

End Basic.

(* ===================================================================== *)
(** ** mpi/multiblockchainDP.py *)
(* ===================================================================== *)

Module MPI.

(** What the process-group runtime presents to one process while it
    mines: its rank in the group and the size of the group, and the
    messages of its peers.  [arrival t], at the [t]-th receive-side query
    of the process, is [Some v] when [subcomm.iprobe()] answers true and
    the [subcomm.recv()] that follows returns [v]; [block_arrival t] is
    the block that [subcomm.recv(tag=BLOCK_TAG)] returns, [None] when no
    peer ever sends one. *)
Record transport : Type := {
  subcommRank : nat;
  subcommSize : nat;
  arrival : nat -> option Py.value;
  block_arrival : nat -> option Block
}.

(** [for j in range(subcommSize): if j == subcommRank: continue;
     subcomm.send(msg, dest=j, tag=tag)] *)
Definition send_to_others (T : transport) (tag : Z) (msg : payload)
  : list event :=
  List.map (fun j => Send j tag msg)
    (List.filter (fun j => negb (Nat.eqb j (subcommRank T)))
                 (seq 0 (subcommSize T))).

(** The [while found is False] loop of [Miner.mine], from counter value
    [i], for at most [fuel] turns. *)
Fixpoint mine_loop (T : transport) (P : Platform) (fuel : nat)
  (message : addr) (prefix : string) (i : Z) (st : process)
  : Py.result (Py.value * bool * process) :=
  match fuel with
  | O => Py.Diverge
  | S k =>
      match arrival T (clock st) with
      | Some digest => Py.Ok (digest, false, emit [Recv None] (tick st))
      | None =>
          let digest :=
            SHA256.sha256 (Py.str (object_hash P message) ++ Py.str i)%string in
          if Py.startswith digest prefix then
            Py.Ok (Py.Str digest, true,
                   emit (send_to_others T NONCE_TAG (DigestMsg (Py.Str digest)))
                        (tick st))
          else mine_loop T P k message prefix (i + 1) (tick st)
      end
  end.

(** [Miner.mine(message, difficulty)]; returns [digest, foundLocal]. *)
Definition mine (T : transport) (P : Platform) (fuel : nat)
  (message : addr) (difficulty : Z) (st : process)
  : Py.result (Py.value * bool * process) :=
  if difficulty >=? 1 then
    mine_loop T P fuel message (Py.repeat_str "0" difficulty) 0 st
  else Py.Raise (Py.AssertionError "Difficulty is invalid").

(** [Miner.broadcast_block(block, local)] *)
Definition broadcast_block (T : transport) (P : Platform) (block : addr)
  (local : bool) (st : process) : Py.result process :=
  if local then
    let st1 := BlockchainOps.add_block P block false st in
    mret (emit (send_to_others T BLOCK_TAG (BlockMsg (deref (objects st1) block))
                ++ [Barrier]) st1)
  else
    match block_arrival T (clock st) with
    | None => Py.Stall
    | Some b =>
        let '(receivedBlock, st1) :=
          allocate P b (emit [Recv (Some BLOCK_TAG)] (tick st)) in
        mret (emit [Barrier] (BlockchainOps.add_block P receivedBlock false st1))
    end.

(** The [while memPool.get_size() > 0] loop of [main], and its body;
    [fuel] bounds the turns of each call of [Miner.mine], and [budget]
    turns of the outer loop are enough for a pool of [budget]
    transactions. *)
Definition mining_turn (T : transport) (P : Platform) (fuel : nat)
  (st : process) : Py.result process :=
  let '(newBlock, st1) := allocate P new_block st in
  st2 ← fill_block (Z.to_nat (block_quota st1)) newBlock st1;
  '(digest, minedLocal, st3) ← mine T P fuel newBlock 5 st2;
  let st4 := mutate (BlockOps.set_nonce digest) newBlock st3 in
  broadcast_block T P newBlock minedLocal st4.

Fixpoint mining_loop (T : transport) (P : Platform) (fuel budget : nat)
  (st : process) : Py.result process :=
  if MemPool.get_size (memPool st) >? 0 then
    match budget with
    | O => Py.Diverge
    | S k => st' ← mining_turn T P fuel st; mining_loop T P fuel k st'
    end
  else Py.Ok st.

(** *** Ledger reconciliation *)

(** The loop over [enumerate(ledgerLengths)] of [synchronize_ledgers],
    from index [i]; returns [(maxLength, maxLengthRank)]. *)
Fixpoint scan_lengths (i : nat) (ledgerLengths : list Z)
  (maxLength : Z) (maxLengthRank : nat) : Z * nat :=
  match ledgerLengths with
  | [] => (maxLength, maxLengthRank)
  | length :: rest =>
      if length >? maxLength then scan_lengths (S i) rest length i
      else scan_lengths (S i) rest maxLength maxLengthRank
  end.

(** [needSync = maxLengthRank != subcommRank] *)
Definition needSync (rank : nat) (localLength : Z) (ledgerLengths : list Z)
  : bool :=
  negb (Nat.eqb (snd (scan_lengths 0 ledgerLengths localLength rank)) rank).

(** The pickle of the module-level [blockchain]. *)
Definition pickle_ledger (st : process) : pickled_ledger :=
  {| ledger_root := blockchain st;
     ledger_blocks :=
       list_to_map (List.map (fun a => (a, deref (objects st) a))
                             (chain (blockchain st))) |}.

(** [for i, sync in enumerate(syncList): if sync is True:
     subcomm.send(blockchain, i, tag=BC_TAG)], from index [i]. *)
Fixpoint serve (i : nat) (syncList : list bool) (ledger : pickled_ledger)
  : list event :=
  match syncList with
  | [] => []
  | sync :: rest =>
      (if sync then [Send i BC_TAG (LedgerMsg ledger)] else [])
        ++ serve (S i) rest ledger
  end.

(** Objects rebuilt from a pickle: one new object per object of the
    sender, shared positions staying shared. *)
Fixpoint rebuild (P : Platform) (src : gmap addr Block) (refs : list addr)
  (memo : gmap addr addr) (st : process) : list addr * process :=
  match refs with
  | [] => ([], st)
  | a :: rest =>
      match memo !! a with
      | Some a' =>
          let '(l, st') := rebuild P src rest memo st in (a' :: l, st')
      | None =>
          let '(a', st1) := allocate P (deref src a) st in
          let '(l, st') := rebuild P src rest (<[a := a']> memo) st1 in
          (a' :: l, st')
      end
  end.

(** [blockchain = subcomm.recv(source=0, tag=BC_TAG)] *)
Definition adopt (P : Platform) (ledger : pickled_ledger) (st : process)
  : process :=
  let root := ledger_root ledger in
  let '(refs, st1) := rebuild P (ledger_blocks ledger) (chain root) ∅ st in
  with_blockchain
    {| latest_block_hash := latest_block_hash root;
       chainLength := chainLength root;
       chain := refs;
       difficulty := difficulty root |} st1.

(** What the collectives and the receive of [synchronize_ledgers] return
    to one process: the all-gathered lengths, the flags gathered at rank
    0, and the ledger sent to this process, if any.  [eager] tells whether
    the library buffers a message, so that the blocking [subcomm.send]
    returns before the matching receive is posted; the standard leaves
    this to the implementation, and the messages of one run of the protocol
    are all the pickle of the same ledger, so that one answer holds for
    all of them. *)
Record sync_io : Type := {
  ledgerLengths : list Z;
  syncList : list bool;
  ledger_arrival : option pickled_ledger;
  eager : bool
}.

(** Rank 0 with its own flag set starts its loop with
    [subcomm.send(blockchain, 0, tag=BC_TAG)], a send to itself that comes
    before its receive: without buffering the call does not return. *)
Definition held_by_own_send (eager : bool) (syncList : list bool) : bool :=
  negb eager && default false (syncList !! 0%nat).

Definition synchronize_ledgers (P : Platform) (rank : nat) (io : sync_io)
  (st : process) : Py.result process :=
  let localLength := BlockchainOps.get_chain_length (blockchain st) in
  let sync := needSync rank localLength (ledgerLengths io) in
  let st1 := emit [Allgather; Gather] st in
  st2 ← (if Nat.eqb rank 0 then
           if held_by_own_send (eager io) (syncList io) then Py.Stall
           else mret (emit (serve 0 (syncList io) (pickle_ledger st1)) st1)
         else mret st1);
  st3 ← (if sync then
           match ledger_arrival io with
           | Some ledger =>
               mret (BlockchainOps.persist
                       (adopt P ledger (emit [Recv (Some BC_TAG)] (tick st2))))
           | None => Py.Stall
           end
         else mret st2);
  mret (emit [Barrier] st3).

(** The ledger that rank 0 posted for [rank], if any. *)
Fixpoint posted_for (rank : nat) (posted : list event)
  : option pickled_ledger :=
  match posted with
  | Send dest _ (LedgerMsg ledger) :: rest =>
      if Nat.eqb dest rank then Some ledger else posted_for rank rest
  | _ :: rest => posted_for rank rest
  | [] => None
  end.

(** A whole group running [synchronize_ledgers]: the member at position
    [r] of the list has [subcommRank = r]; the all-gather hands every
    member the lengths of all, the gather hands rank 0 the flags of all,
    and a member receives what rank 0 sent to it. *)
Definition group_lengths (group : list process) : list Z :=
  List.map (fun st => BlockchainOps.get_chain_length (blockchain st)) group.

Definition group_flags (group : list process) : list bool :=
  imap (fun r st =>
          needSync r (BlockchainOps.get_chain_length (blockchain st))
                   (group_lengths group)) group.

Definition group_posted (group : list process) : list event :=
  match group with
  | authority :: _ =>
      serve 0 (group_flags group)
            (pickle_ledger (emit [Allgather; Gather] authority))
  | [] => []
  end.

(** What the group hands to the member of rank [r].  While rank 0 is held
    in the send to itself it serves nobody. *)
Definition group_io (eager : bool) (group : list process) (r : nat) : sync_io :=
  {| ledgerLengths := group_lengths group;
     syncList := group_flags group;
     ledger_arrival :=
       if held_by_own_send eager (group_flags group) then None
       else posted_for r (group_posted group);
     eager := eager |}.

(** The barrier that ends the protocol lets a member through when every
    member of the group has entered it. *)
Definition entered (outcome : Py.result process) : bool :=
  match outcome with
  | Py.Ok _ => true
  | _ => false
  end.

Definition group_barrier (outcomes : list (Py.result process))
  : list (Py.result process) :=
  if forallb entered outcomes then outcomes
  else List.map (fun outcome =>
                   match outcome with
                   | Py.Ok _ => Py.Stall
                   | other => other
                   end) outcomes.

Definition synchronize_group (P : nat -> Platform) (eager : bool)
  (group : list process) : list (Py.result process) :=
  group_barrier
    (imap (fun r st => synchronize_ledgers (P r) r (group_io eager group r) st)
          group).

(** *** Start-up and [main] *)

(** [create_subcomm(numBlockchains)]:
    [color = rank % numBlockchains; return comm.Split(color, rank), color] *)
Definition create_subcomm (rank : Z) (numBlockchains : Z) (st : process)
  : Py.result (Z * process) :=
  if numBlockchains =? 0 then Py.Raise Py.ZeroDivisionError
  else
    let color := rank mod numBlockchains in
    mret (color, emit [Split color rank] st).

(** The statements of the module that run before [main]:
    [subcomm, color = create_subcomm(numBlockchains=3); comm.barrier()]
    (the output folders that rank 0 creates next are left out). *)
Definition module_level (rank : Z) (st : process) : Py.result process :=
  '(color, st1) ← create_subcomm rank 3 st;
  mret (emit [WorldBarrier] st1).

Definition usage : string :=
  "Proper format: mpirun -np <#nodes> python3 multiblockchainDP.py #clients #transactions".

(** [main()].  The clients and transactions are drawn at random by rank 0
    of the group and broadcast; [replica] is the pool every member holds
    after the broadcast.  The export of the ledger to JSON at the end writes
    a file of its own and is left out. *)
Definition main (T : transport) (P : Platform) (fuel : nat)
  (argv : list string) (io : sync_io) (replica : list Transaction)
  (st : process) : Py.result process :=
  if check_cla argv then
    let st1 := BlockchainOps.read_blockchain P st in
    st2 ← synchronize_ledgers P (subcommRank T) io st1;
    let st3 := emit [Bcast; Bcast; Barrier] (with_memPool replica st2) in
    st4 ← mining_loop T P fuel (length (memPool st3)) st3;
    mret (emit [Free] st4)
  else mret (emit [Print usage] st).

(** The program, from the import of the module to the end of [main]. *)
Definition program (T : transport) (P : Platform) (fuel : nat) (rank : Z)
  (argv : list string) (io : sync_io) (replica : list Transaction)
  (file : option (list Block)) : Py.result process :=
  st ← module_level rank (initial_process file);
  main T P fuel argv io replica st.

End MPI.

(* ===================================================================== *)
(** ** Concrete platforms, processes and transports used in examples *)
(* ===================================================================== *)

(** Repeated [add_block] calls on the module-level ledger. *)
Definition grow (P : Platform) (calls : list (addr * bool)) (st : process)
  : process :=
  fold_left (fun s c => BlockchainOps.add_block P (fst c) (snd c) s) calls st.

(** CPython with [Block] objects created at the given addresses, then at
    consecutive 16-byte slots. *)
Definition cpython (ids : list addr) : Platform :=
  {| object_hash := pointer_hash;
     new_id := fun n => nth n ids (16 * (Z.of_nat n + 1)) |}.

(** Four heap addresses; for the blocks created there the miner finds a
    digest with five leading zeros at counter value 1. *)
Definition demo_ids : list addr :=
  [139888630398112; 139888630511888; 139888639174624; 139888642589312].

Definition demo_platform : Platform := cpython demo_ids.

(** A group of one member: no peer ever sends anything. *)
Definition solo : MPI.transport :=
  {| MPI.subcommRank := 0; MPI.subcommSize := 1;
     MPI.arrival := fun _ => None; MPI.block_arrival := fun _ => None |}.

Definition solo_io : MPI.sync_io :=
  {| MPI.ledgerLengths := [0]; MPI.syncList := [false];
     MPI.ledger_arrival := None; MPI.eager := false |}.

Definition alice : Client := {| name := 0; identity := "30819f300d" |}.
Definition bob : Client := {| name := 1; identity := "30819f300e" |}.

Definition demo_tx (n : Z) : Transaction :=
  {| sender := alice; recipient := bob; value := VInt n; time := 1700000000 + n |}.

Definition demo_pool (T : nat) : list Transaction :=
  List.map (fun k => demo_tx (Z.of_nat k)) (seq 1 T).

Definition demo_argv : list string := ["multiblockchainDP.py"; "2"; "4"].

(* ===================================================================== *)
(** ** Notions used by the statements *)
(* ===================================================================== *)

(** The references appended by a sequence of [add_block] calls. *)
Definition appended (calls : list (addr * bool)) : list addr := List.map fst calls.

(** The reading of the heights by position: the object appended by the
    [i]-th call has height [i + 1]. *)
Definition heights_by_position (P : Platform) (calls : list (addr * bool))
  (st : process) : Prop :=
  forall (i : nat) (a : addr),
    appended calls !! i = Some a ->
    block_height (deref (objects (grow P calls st)) a) = Z.of_nat i + 1.

(** One [Block] object, appended twice. *)
Definition twice_st : process :=
  snd (allocate demo_platform new_block (initial_process None)).
Definition twice_calls : list (addr * bool) :=
  [(new_id demo_platform 0, true); (new_id demo_platform 0, true)].

(** The chain-link invariant on the ledger of a process: every block but
    the first carries the hash of its predecessor. *)
Definition linked (P : Platform) (st : process) : Prop :=
  forall (i : nat) (a b : addr),
    chain (blockchain st) !! i = Some a ->
    chain (blockchain st) !! S i = Some b ->
    previous_block_hash (deref (objects st) b) = Py.Int (object_hash P a).

(** The counter of the ledger agrees with its list of blocks. *)
Definition counted (st : process) : Prop :=
  chainLength (blockchain st) = Z.of_nat (length (chain (blockchain st))).

(** Tamper evidence as the design document words it: after a change to the
    transaction list of any block of the chain, without mining again,
    [verify_chain] answers false. *)
Definition tamper_evident (P : Platform) (st : process) : Prop :=
  forall (a : addr) (t : Transaction),
    In a (chain (blockchain st)) ->
    BlockchainOps.verify_chain P (mutate (BlockOps.add_transaction t) a st)
      = Py.Ok false.

(** Two blocks mined through menu choice 3 of basicBlockchain.py. *)
Definition linked_demo : Py.result process :=
  st1 ← Basic.mine_block demo_platform
          (with_memPool (demo_pool 4) (initial_process None));
  Basic.mine_block demo_platform st1.

(** Several transactions appended to a block. *)
Definition add_transactions (ts : list Transaction) (b : Block) : Block :=
  {| verified_transactions := verified_transactions b ++ ts;
     previous_block_hash := previous_block_hash b;
     nonce := nonce b; block_height := block_height b |}.

(** A data file of six records. *)
Definition six_records : list Block :=
  List.map (fun k => BlockOps.set_block_height (Z.of_nat k)
                       (add_transactions [demo_tx (Z.of_nat k)] new_block))
           (seq 1 6).

(** [ceil(a / b)] for positive [b]. *)
Definition ceil_div (a b : Z) : Z := (a + b - 1) / b.

(** The digest that [Miner.mine] tests for a block object at counter value
    [i]: [sha256(str(hash(message)) + str(i))]. *)
Definition tested_digest (P : Platform) (message : addr) (i : Z) : string :=
  SHA256.sha256 (Py.str (object_hash P message) ++ Py.str i)%string.

(** The reading of the hashed payload by content: two block objects with
    equal transaction sequences and equal [previous_block_hash] are tested
    with identical digests at every counter value. *)
Definition payload_by_content (P : Platform) (o : gmap addr Block) : Prop :=
  forall (a b : addr),
    is_Some (o !! a) -> is_Some (o !! b) ->
    verified_transactions (deref o a) = verified_transactions (deref o b) ->
    previous_block_hash (deref o a) = previous_block_hash (deref o b) ->
    forall i : Z, tested_digest P a i = tested_digest P b i.

(** Two candidate blocks, both as [Block()] leaves them. *)
Definition two_candidates : gmap addr Block :=
  <[new_id demo_platform 1 := new_block]>
    (<[new_id demo_platform 0 := new_block]> ∅).

(** A property of every block of the ledger of a process. *)
Definition chain_all (Q : Block -> Prop) (st : process) : Prop :=
  forall a : addr, In a (chain (blockchain st)) -> Q (deref (objects st) a).

(** The collective operations of the process-group runtime. *)
Definition is_collective (e : event) : bool :=
  match e with
  | Split _ _ | WorldBarrier | Barrier | Allgather | Gather | Bcast => true
  | _ => false
  end.

(** Calls that belong to the protocol of the group: every call on the
    sub-communicator. *)
Definition is_group_call (e : event) : bool :=
  match e with
  | Barrier | Allgather | Gather | Bcast | Send _ _ _ | Recv _ | Free => true
  | _ => false
  end.

(** The reading of fail-fast configuration errors: when the argument count
    is malformed, the process ends without having invoked a collective. *)
Definition fails_before_collectives (T : MPI.transport) (P : Platform)
  (fuel : nat) (rank : Z) (argv : list string) (io : MPI.sync_io)
  (replica : list Transaction) (file : option (list Block)) : Prop :=
  check_cla argv = false ->
  exists st : process,
    MPI.program T P fuel rank argv io replica file = Py.Ok st
    /\ forallb (fun e => negb (is_collective e)) (trace st) = true.

(** A launch with one argument missing. *)
Definition short_argv : list string := ["multiblockchainDP.py"; "5"].

(** A block built by the mining loop: [Block()] filled with [ts], with the
    nonce and the height it was given since. *)
Definition candidate (ts : list Transaction) (v : Py.value) (h : Z) : Block :=
  {| verified_transactions := ts; previous_block_hash := Py.Str "";
     nonce := v; block_height := h |}.

(** The state of a process after [newBlock = Block()] and the filling
    loop of one turn. *)
Definition prepared (P : Platform) (st : process) : process :=
  let q := Z.to_nat (block_quota st) in
  {| objects := <[new_id P (created st) :=
                    candidate (firstn q (memPool st)) (Py.Str "") 0]> (objects st);
     created := S (created st);
     memPool := skipn q (memPool st);
     blockchain := blockchain st;
     blockchain_data := blockchain_data st;
     clock := clock st;
     trace := trace st |}.

(** The blocks that one turn of a mining loop writes into the object
    store: the candidate it built from the transactions [ts], or a block
    received from a peer ([recv] lists what the peers send). *)
Inductive produced (recv : nat -> option Block) (ts : list Transaction)
  : Block -> Prop :=
| produced_local (v : Py.value) (h : Z) :
    produced recv ts (candidate ts v h)
| produced_remote (t : nat) (rb : Block) (h : Z) :
    recv t = Some rb ->
    produced recv ts (BlockOps.set_block_height h rb).

(** Some counter value below [fuel] gives the block object at [a] a digest
    with five leading zeros. *)
Definition nonce_within (P : Platform) (fuel : nat) (a : addr) : bool :=
  existsb (fun n => Py.startswith (tested_digest P a (Z.of_nat n)) "00000")
          (seq 0 fuel).

(** What one turn of a mining loop does to the pool, the ledger and the
    object store: the first transactions of the pool leave it, one
    reference is appended to the chain, the object behind it was produced
    in this turn, and every other object is as before or was produced in
    this turn. *)
Definition turn_effect (recv : nat -> option Block) (st st' : process)
  : Prop :=
  exists a : addr,
    memPool st' = skipn (Z.to_nat (block_quota st)) (memPool st)
    /\ chain (blockchain st') = chain (blockchain st) ++ [a]
    /\ chainLength (blockchain st') = chainLength (blockchain st) + 1
    /\ produced recv (firstn (Z.to_nat (block_quota st)) (memPool st))
                 (deref (objects st') a)
    /\ forall a' : addr,
         deref (objects st') a' = deref (objects st) a'
         \/ produced recv (firstn (Z.to_nat (block_quota st)) (memPool st))
                      (deref (objects st') a').

(** What a whole mining loop does: the pool is drained, the ledger grows by
    [ceil(T/3)] blocks for a pool of [T] transactions, and every property
    of blocks that holds of the blocks produced in the turns, and held of
    the ledger before, holds of the ledger after. *)
Definition loop_effect (recv : nat -> option Block) (st st' : process)
  : Prop :=
  let T := Z.of_nat (length (memPool st)) in
  memPool st' = []
  /\ chainLength (blockchain st') = chainLength (blockchain st) + ceil_div T 3
  /\ Z.of_nat (length (chain (blockchain st')))
     = Z.of_nat (length (chain (blockchain st))) + ceil_div T 3
  /\ forall Q : Block -> Prop,
       (forall ts b, (length ts <= 3)%nat -> produced recv ts b -> Q b) ->
       chain_all Q st -> chain_all Q st'.

(** No peer ever sends anything. *)
Definition quiet (T : MPI.transport) : Prop :=
  (forall t, MPI.arrival T t = None) /\ (forall t, MPI.block_arrival T t = None).

(** A process whose ledger was read from a data file of [n] records. *)
Definition member_with (n : nat) : process :=
  BlockchainOps.read_blockchain demo_platform
    (initial_process (Some (firstn n six_records))).

(** Scenario 2 of the design document: ledgers of lengths 3, 3, 1, 3. *)
Definition demo_group : list process :=
  [member_with 3; member_with 3; member_with 1; member_with 3].

(* ===================================================================== *)
(** ** Further notions: allocation, contents of a ledger, restart *)
(* ===================================================================== *)

(** The interpreter hands out an identity once. *)
Definition injective_ids (P : Platform) : Prop :=
  forall m n : nat, new_id P m = new_id P n -> m = n.

(** The objects of a process are the ones it created: the identities still
    to be handed out denote no object, and the ledger refers to objects
    created earlier. *)
Definition well_allocated (P : Platform) (st : process) : Prop :=
  (forall n : nat, (created st <= n)%nat -> objects st !! new_id P n = None)
  /\ forall a : addr,
       In a (chain (blockchain st)) ->
       exists k : nat, (k < created st)%nat /\ a = new_id P k.

(** The blocks of the ledger, by value, in chain order. *)
Definition contents (st : process) : list Block :=
  List.map (deref (objects st)) (chain (blockchain st)).

(** The transactions of the ledger, in chain order. *)
Definition ledger_transactions (st : process) : list Transaction :=
  concat (List.map verified_transactions (contents st)).

(** The records of the data file; none when the file does not exist. *)
Definition file_records (st : process) : list Block :=
  default [] (blockchain_data st).

(** Heights count the blocks of the ledger from 1. *)
Definition numbered (st : process) : Prop :=
  List.map block_height (contents st)
  = List.map (fun i => Z.of_nat (S i)) (seq 0 (length (chain (blockchain st)))).

(** A later run of the program on the data file that a process leaves
    behind: a new process reads the file at start-up. *)
Definition restart (P : Platform) (st : process) : process :=
  BlockchainOps.read_blockchain P (initial_process (blockchain_data st)).

(** CPython creating [Block] objects at the four addresses of [demo_ids],
    then at 16-byte steps above the last of them. *)
Definition demo_heap : Platform :=
  {| object_hash := pointer_hash;
     new_id := fun n =>
       match n with
       | 0%nat => 139888630398112
       | 1%nat => 139888630511888
       | 2%nat => 139888639174624
       | 3%nat => 139888642589312
       | _ => 139888642589312 + 16 * Z.of_nat n
       end |}.

(** The data file holds the blocks of the ledger, as they are now. *)
Definition mirrored (st : process) : Prop := file_records st = contents st.

(** A pool cut into consecutive runs of three transactions, the last run
    holding what is left. *)
Fixpoint chunks (fuel : nat) (pool : list Transaction)
  : list (list Transaction) :=
  match fuel with
  | O => []
  | S f =>
      match pool with
      | [] => []
      | _ :: _ => firstn 3 pool :: chunks f (skipn 3 pool)
      end
  end.

Definition blocks_of (pool : list Transaction) : list (list Transaction) :=
  chunks (length pool) pool.

(** Records with their heights rewritten to count on from [h]. *)
Fixpoint renumber (h : Z) (rs : list Block) : list Block :=
  match rs with
  | [] => []
  | r :: rest => BlockOps.set_block_height (h + 1) r :: renumber (h + 1) rest
  end.

(** The heights of a list of records count from 1. *)
Definition numbered_records (rs : list Block) : Prop :=
  List.map block_height rs
  = List.map (fun i => Z.of_nat (S i)) (seq 0 (length rs)).

(** The receive-side clock of a process advanced by [n] queries. *)
Definition ticks (n : nat) (st : process) : process := Nat.iter n tick st.

(** No counter value in [lo, hi) gives the block object a digest with the
    prefix. *)
Definition no_nonce (P : Platform) (message : addr) (prefix : string)
  (lo hi : Z) : Prop :=
  forall k : Z, lo <= k < hi ->
    Py.startswith (tested_digest P message k) prefix = false.

(** A ledger in the state that menu choice 3 of basicBlockchain.py keeps:
    the counter agrees with the chain, the last hash is the hash of the last
    block (the initial [""] for an empty chain), every block but the first
    carries the hash of its predecessor, the objects are the process's own,
    and the difficulty is a valid one. *)
Definition chained (P : Platform) (st : process) : Prop :=
  counted st
  /\ latest_block_hash (blockchain st)
     = match last (chain (blockchain st)) with
       | Some a => Py.Int (object_hash P a)
       | None => Py.Str ""
       end
  /\ linked P st
  /\ well_allocated P st
  /\ 1 <= difficulty (blockchain st).

(** Some member of the group holds a longer ledger than this one. *)
Definition behind (st : process) (group : list process) : bool :=
  existsb (fun s => chainLength (blockchain st) <? chainLength (blockchain s))
          group.

(** A process on the demonstration heap whose ledger was read from a data
    file of [n] records, and a group of four of them with ledgers of lengths
    2, 3, 1, 3: rank 0 is not the longest. *)
Definition heap_member (n : nat) : process :=
  BlockchainOps.read_blockchain demo_heap
    (initial_process (Some (firstn n six_records))).

Definition uneven_group : list process :=
  [heap_member 2; heap_member 3; heap_member 1; heap_member 3].

(** Calls between two members of the group, and the barrier of the
    group. *)
Definition point_to_point (e : event) : bool :=
  match e with
  | Send _ _ _ | Recv _ => true
  | _ => false
  end.

Definition is_barrier (e : event) : bool :=
  match e with
  | Barrier => true
  | _ => false
  end.

(** The number of barriers of the group among the calls. *)
Definition barriers (calls : list event) : nat :=
  length (List.filter is_barrier calls).

(** The calls a process made after the first [n] of its trace. *)
Definition calls_since (n : nat) (st : process) : list event :=
  skipn n (trace st).

(** A member of rank 1 in a group of two, whose peer is faster: at the
    member's first probe of a turn the peer's digest is waiting, and the
    peer's block follows. *)
Definition peer_block : Block :=
  candidate [demo_tx 7; demo_tx 8; demo_tx 9] (Py.Str "00000c2f") 1.

Definition outpaced : MPI.transport :=
  {| MPI.subcommRank := 1; MPI.subcommSize := 2;
     MPI.arrival := fun t => if Nat.even t then Some (Py.Str "00000c2f") else None;
     MPI.block_arrival := fun t => if Nat.even t then None else Some peer_block |}.

(** The member before its mining loop: no data file, a pool of four
    transactions received from rank 0. *)
Definition outpaced_member : process :=
  with_memPool (demo_pool 4) (initial_process None).

(* ===================================================================== *)
(** ** basicBlockchain.py: the clients of the menu *)
(* ===================================================================== *)

Module Menu.

(** [Client(name)] of basicBlockchain.py: the name typed by the operator
    and the key pair, which the model holds as the hexadecimal identity it
    exports.  [Client.__eq__(self, name)] compares the name of the client
    with its argument. *)
Record Client : Type := {
  name : string;
  identity : string
}.

Definition eq (self : Client) (other : string) : bool :=
  String.eqb (name self) other.

(** [Transaction(sender, recipient, value)] as menu choice 2 builds it: the
    sender is a client or [None], the recipient an identity, the value the
    text typed by the operator; [now] is the reading of the clock. *)
Record Transaction : Type := {
  sender : option Client;
  recipient : string;
  value : string;
  time : Z
}.

Inductive error : Type := UnboundLocalError.

(** The loop of menu choice 2 over [clientList], on the pair of local
    variables [(sClient, rClient)]; [rClient] is [None] while it is
    unbound (the assignment before the loop is to another name).
    [if client == sender: sClient = client];
    [if recipient == recipient: rClient = client]. *)
Definition select_step (sender recipient : string)
  (vars : option Client * option Client) (client : Client)
  : option Client * option Client :=
  let sClient := if eq client sender then Some client else fst vars in
  let rClient := if String.eqb recipient recipient then Some client
                 else snd vars in
  (sClient, rClient).

Definition select (sender recipient : string) (clientList : list Client)
  : option Client * option Client :=
  fold_left (select_step sender recipient) clientList (None, None).

(** Menu choice 2 after the three inputs: the new pool, or the exception
    of reading [rClient] unbound. *)
Definition create_transaction (clientList : list Client)
  (memPool : list Transaction) (sender recipient amount : string) (now : Z)
  : error + list Transaction :=
  match select sender recipient clientList with
  | (sClient, Some rClient) =>
      inr (memPool ++ [{| sender := sClient; recipient := identity rClient;
                          value := amount; time := now |}])
  | (_, None) => inl UnboundLocalError
  end.

(** Menu choice 1: [clientList.append(Client(newClient))]; the key pair is
    the one generated for the new client. *)
Definition create_client (clientList : list Client) (newClient key : string)
  : list Client :=
  clientList ++ [{| name := newClient; identity := key |}].

(** The last client of the list with the given name. *)
Definition last_named (who : string) (clientList : list Client)
  : option Client :=
  List.find (fun c => eq c who) (rev clientList).

End Menu.

(** The client list of a session in which the operator created one client
    after start-up. *)
Definition genesis_client : Menu.Client :=
  {| Menu.name := "Genesis"; Menu.identity := "30819f300a" |}.

Definition newcomer : Menu.Client :=
  {| Menu.name := "dana"; Menu.identity := "30819f300b" |}.

(** A run of blockchainDynamicPersist.py with two clients and four
    transactions, in a world where the calls of [random.choice] draw the
    two clients in turn: no recipient is drawn again. *)
Definition dynamic_argv : list string :=
  ["blockchainDynamicPersist.py"; "2"; "4"].

Definition alternating : Dynamic.World :=
  {| Dynamic.max_str_digits := 4300;
     Dynamic.draw := fun k => k;
     Dynamic.keypair := fun x => Py.str (30819 + x);
     Dynamic.now := fun t => 1700000000 + Z.of_nat t |}.

(** What the arguments of a session lead to, before any block is mined. *)
Definition parsed (W : Dynamic.World) (argv : list string) (numClients numTransactions : Z)
  : Prop :=
  Py.int (Dynamic.max_str_digits W) (Dynamic.argument argv 2) = Py.Ok numTransactions
  /\ Py.int (Dynamic.max_str_digits W) (Dynamic.argument argv 1) = Py.Ok numClients.

(** The pool that this run generates. *)
Definition alternating_pool : list Transaction :=
  match Dynamic.generate alternating 1 (Dynamic.clients alternating 2) 4 0 0 with
  | Py.Ok generated => generated
  | _ => []
  end.

(** Four members on the demonstration heap with ledgers of lengths
    3, 3, 1, 3: rank 0 holds a longest ledger. *)
Definition led_group : list process :=
  [heap_member 3; heap_member 3; heap_member 1; heap_member 3].

(** The difficulty guarantee as it is worded, for the single-node miner:
    for every difficulty [d >= 1] and every candidate, [Miner.mine] returns
    a digest with at least [d] leading zeros. *)
Definition mine_returns_digest (P : Platform) : Prop :=
  forall (message : addr) (d : Z),
    1 <= d ->
    exists s : string,
      Dynamic.mine P message d = Py.Ok (Py.Str s)
      /\ (Z.to_nat d <= Py.leading_zeros s)%nat.

(** Every announcement that reaches the member carries a digest with [d]
    leading zeros: the peers mine at difficulty [d]. *)
Definition announcements_meet (T : MPI.transport) (d : Z) : Prop :=
  forall (t : nat) (v : Py.value),
    MPI.arrival T t = Some v ->
    exists s : string,
      v = Py.Str s /\ Py.startswith s (Py.repeat_str "0" d) = true.

(** The digests announced among the calls of a member. *)
Definition announced (calls : list event) : list Py.value :=
  flat_map (fun e =>
              match e with
              | Send _ tag (DigestMsg v) => if tag =? NONCE_TAG then [v] else []
              | _ => []
              end) calls.

(* ===================================================================== *)
(** ** Basic facts about the ledger operations *)
(* ===================================================================== *)

Section LedgerFacts.

Context (P : Platform).

Lemma add_block_blockchain newBlock fromFile st :
  blockchain (BlockchainOps.add_block P newBlock fromFile st) =
    {| latest_block_hash := Py.Int (object_hash P newBlock);
       chainLength := chainLength (blockchain st) + 1;
       chain := chain (blockchain st) ++ [newBlock];
       difficulty := difficulty (blockchain st) |}.
Proof. unfold BlockchainOps.add_block. destruct fromFile; reflexivity. Qed.

Lemma add_block_objects newBlock fromFile st :
  objects (BlockchainOps.add_block P newBlock fromFile st) =
    alter (BlockOps.set_block_height (chainLength (blockchain st) + 1))
          newBlock (objects st).
Proof. unfold BlockchainOps.add_block. destruct fromFile; reflexivity. Qed.

Lemma add_block_memPool newBlock fromFile st :
  memPool (BlockchainOps.add_block P newBlock fromFile st) = memPool st.
Proof. unfold BlockchainOps.add_block. destruct fromFile; reflexivity. Qed.

Lemma deref_alter_eq f a (o : gmap addr Block) :
  is_Some (o !! a) -> deref (alter f a o) a = f (deref o a).
Proof.
  intros [b Hb]. unfold deref. rewrite lookup_alter_eq, Hb. reflexivity.
Qed.

Lemma deref_alter_ne f a a' (o : gmap addr Block) :
  a <> a' -> deref (alter f a o) a' = deref o a'.
Proof. intros Hne. unfold deref. rewrite lookup_alter_ne by done. reflexivity. Qed.

Lemma grow_snoc calls c st :
  grow P (calls ++ [c]) st =
    BlockchainOps.add_block P (fst c) (snd c) (grow P calls st).
Proof. unfold grow. rewrite fold_left_app. reflexivity. Qed.

Lemma grow_keeps_objects calls : forall st a,
  is_Some (objects st !! a) -> is_Some (objects (grow P calls st) !! a).
Proof.
  induction calls as [|c calls IH] using rev_ind; intros st a Ha; [exact Ha|].
  rewrite grow_snoc, add_block_objects.
  apply lookup_alter_is_Some. auto.
Qed.

End LedgerFacts.

(* ===================================================================== *)
(** ** Bookkeeping of [add_block] *)
(* ===================================================================== *)

Section Bookkeeping.

Context (P : Platform).

Lemma grow_chain calls : forall st,
  chain (blockchain (grow P calls st)) = chain (blockchain st) ++ appended calls.
Proof.
  induction calls as [|c calls IH] using rev_ind; intros st.
  - simpl. rewrite app_nil_r. reflexivity.
  - rewrite grow_snoc, add_block_blockchain. simpl.
    unfold appended in *. rewrite IH, List.map_app, app_assoc. reflexivity.
Qed.

Lemma grow_chainLength calls : forall st,
  chainLength (blockchain (grow P calls st)) =
    chainLength (blockchain st) + Z.of_nat (length calls).
Proof.
  induction calls as [|c calls IH] using rev_ind; intros st.
  - simpl. lia.
  - rewrite grow_snoc, add_block_blockchain. simpl.
    rewrite IH, length_app. simpl. lia.
Qed.

Lemma grow_latest calls : forall st,
  latest_block_hash (blockchain (grow P calls st)) =
    match last (appended calls) with
    | Some a => Py.Int (object_hash P a)
    | None => latest_block_hash (blockchain st)
    end.
Proof.
  induction calls as [|c calls IH] using rev_ind; intros st; [reflexivity|].
  rewrite grow_snoc, add_block_blockchain. simpl.
  unfold appended. rewrite List.map_app. simpl. rewrite last_snoc. reflexivity.
Qed.

Lemma grow_heights calls : forall st (i : nat) (a : addr),
  (forall b, In b (appended calls) -> is_Some (objects st !! b)) ->
  appended calls !! i = Some a ->
  (forall j : nat, (i < j)%nat -> appended calls !! j <> Some a) ->
  block_height (deref (objects (grow P calls st)) a) =
    chainLength (blockchain st) + Z.of_nat i + 1.
Proof.
  induction calls as [|c calls IH] using rev_ind; intros st i a Hobj Hi Hlast.
  - discriminate.
  - rewrite grow_snoc, add_block_objects, grow_chainLength.
    unfold appended in *. rewrite List.map_app in *. simpl in *.
    assert (Hlen : length (List.map fst calls) = length calls)
      by apply length_map.
    destruct (decide (i < length calls)%nat) as [Hlt|Hge].
    + rewrite lookup_app_l in Hi by lia.
      assert (Hne : fst c <> a).
      { intros Heq. apply (Hlast (length calls) Hlt).
        rewrite lookup_app_r by lia. rewrite Hlen, Nat.sub_diag.
        simpl. congruence. }
      rewrite deref_alter_ne by exact Hne.
      apply IH; [| exact Hi |].
      * intros b Hb. apply Hobj, in_or_app. left. exact Hb.
      * intros j Hj Hja. apply (Hlast j Hj).
        rewrite lookup_app_l; [exact Hja|].
        apply lookup_lt_Some in Hja. lia.
    + assert (i = length calls) as ->.
      { apply lookup_lt_Some in Hi. rewrite length_app in Hi. simpl in Hi. lia. }
      rewrite lookup_app_r in Hi by lia.
      rewrite Hlen, Nat.sub_diag in Hi. simpl in Hi. injection Hi as Heq. subst a.
      rewrite deref_alter_eq.
      * simpl. lia.
      * apply grow_keeps_objects, Hobj, in_or_app. right. left. reflexivity.
Qed.

End Bookkeeping.

(** C9, as amended.  For a [Blockchain] created fresh and grown by
    [add_block] only, on objects that exist: [chainLength] equals the number
    of blocks in [chain]; [chain] holds the appended references in order;
    [latest_block_hash] is the hash of the most recently appended block (the
    initial [""] before the first append); and the block appended by the
    [i]-th call (counting from 0) has [block_height = i + 1] provided the
    same object is not appended again by a later call. *)
Theorem add_block_bookkeeping (P : Platform) (calls : list (addr * bool))
  (st : process) :
  blockchain st = new_blockchain ->
  (forall b, In b (appended calls) -> is_Some (objects st !! b)) ->
  let st' := grow P calls st in
  chainLength (blockchain st') = Z.of_nat (length (chain (blockchain st')))
  /\ chain (blockchain st') = appended calls
  /\ latest_block_hash (blockchain st') =
       match last (appended calls) with
       | Some a => Py.Int (object_hash P a)
       | None => Py.Str ""
       end
  /\ forall (i : nat) (a : addr),
       appended calls !! i = Some a ->
       (forall j : nat, (i < j)%nat -> appended calls !! j <> Some a) ->
       block_height (deref (objects st') a) = Z.of_nat i + 1.
Proof.
  intros Hnew Hobj st'. subst st'.
  rewrite grow_chain, grow_chainLength, grow_latest, Hnew. simpl.
  unfold appended at 1. rewrite length_map.
  split; [lia|]. split; [reflexivity|]. split; [reflexivity|].
  intros i a Hi Hlast.
  rewrite (grow_heights P calls st i a Hobj Hi Hlast), Hnew. simpl. lia.
Qed.

(** Two distinct block objects appended to a fresh ledger. *)
Lemma add_block_bookkeeping_witness :
  let st := snd (allocate demo_platform new_block
                   (snd (allocate demo_platform new_block (initial_process None)))) in
  let st' := grow demo_platform
               [(new_id demo_platform 0, true); (new_id demo_platform 1, false)] st in
  chainLength (blockchain st') = 2
  /\ block_height (deref (objects st') (new_id demo_platform 0)) = 1
  /\ block_height (deref (objects st') (new_id demo_platform 1)) = 2.
Proof.
  intros st st'.
  assert (Hnew : blockchain st = new_blockchain) by reflexivity.
  assert (Hobj : forall b,
             In b (appended [(new_id demo_platform 0, true);
                             (new_id demo_platform 1, false)]) ->
             is_Some (objects st !! b)).
  { intros b [<-|[<-|[]]]; vm_compute; eexists; reflexivity. }
  destruct (add_block_bookkeeping demo_platform _ st Hnew Hobj)
    as (Hlen & _ & _ & Hheight).
  split; [exact Hlen|]. split.
  - apply (Hheight 0%nat); [reflexivity|].
    intros [|[|j]] Hj; [lia| vm_compute; discriminate | vm_compute; discriminate].
  - apply (Hheight 1%nat); [reflexivity|].
    intros [|[|j]] Hj; [lia| lia | vm_compute; discriminate].
Defined.

(** C9, as stated, fails when one object is appended twice: the second
    append overwrites the height that the first one assigned. *)
Lemma heights_by_position_fails :
  ~ heights_by_position demo_platform twice_calls twice_st.
Proof.
  intros H. specialize (H 0%nat (new_id demo_platform 0) eq_refl).
  vm_compute in H. discriminate.
Qed.

(* ===================================================================== *)
(** ** [verify_chain] *)
(* ===================================================================== *)

Section VerifyChain.

Context (P : Platform).

Lemma eqb_int_true (x : Z) (v : Py.value) :
  Py.eqb (Py.Int x) v = true <-> v = Py.Int x.
Proof.
  destruct v as [s|y|]; simpl; split; try discriminate.
  - intros H. apply Z.eqb_eq in H. congruence.
  - intros [= ->]. apply Z.eqb_refl.
Qed.

(** The loop answers, on indices inside the chain, and answers true
    exactly when every inspected pair is linked. *)
Lemma verify_pairs_spec (o : gmap addr Block) (c : list addr) :
  forall (n s : nat),
    (s + n <= Nat.pred (length c))%nat ->
    (BlockchainOps.verify_pairs P o c (seq s n) = Py.Ok true
     \/ BlockchainOps.verify_pairs P o c (seq s n) = Py.Ok false)
    /\ (BlockchainOps.verify_pairs P o c (seq s n) = Py.Ok true <->
        forall (i : nat) (a b : addr),
          (s <= i < s + n)%nat -> c !! i = Some a -> c !! S i = Some b ->
          previous_block_hash (deref o b) = Py.Int (object_hash P a)).
Proof.
  induction n as [|n IH]; intros s Hs.
  - simpl. split; [left; reflexivity|]. split; [intros _ i a b Hi; lia | reflexivity].
  - change (seq s (S n)) with (s :: seq (S s) n).
    cbn [BlockchainOps.verify_pairs].
    destruct (lookup_lt_is_Some_2 c s ltac:(lia)) as [a Ha].
    destruct (lookup_lt_is_Some_2 c (S s) ltac:(lia)) as [b Hb].
    rewrite Ha, Hb.
    destruct (Py.eqb (Py.Int (object_hash P a)) (previous_block_hash (deref o b)))
      eqn:Heq; cbn [negb].
    + apply eqb_int_true in Heq.
      destruct (IH (S s) ltac:(lia)) as [Htot Hiff].
      split; [exact Htot|]. rewrite Hiff. split.
      * intros H i a' b' Hi Ha' Hb'.
        destruct (decide (i = s)) as [->|Hne].
        -- congruence.
        -- apply (H i a' b'); [lia | exact Ha' | exact Hb'].
      * intros H i a' b' Hi. apply H. lia.
    + split; [right; reflexivity|]. split; [discriminate|].
      intros H. specialize (H s a b ltac:(lia) Ha Hb).
      apply eqb_int_true in H. congruence.
Qed.

Lemma deref_alter_previous (f : Block -> Block) (a b : addr)
  (o : gmap addr Block) :
  (forall x, previous_block_hash (f x) = previous_block_hash x) ->
  previous_block_hash (deref (alter f a o) b) = previous_block_hash (deref o b).
Proof.
  intros Hf. unfold deref. destruct (decide (a = b)) as [->|Hne].
  - rewrite lookup_alter_eq. destruct (o !! b); simpl; [apply Hf | reflexivity].
  - rewrite lookup_alter_ne by done. reflexivity.
Qed.

Lemma verify_pairs_alter (f : Block -> Block) (a : addr)
  (o : gmap addr Block) (c : list addr) (indices : list nat) :
  (forall x, previous_block_hash (f x) = previous_block_hash x) ->
  BlockchainOps.verify_pairs P (alter f a o) c indices =
    BlockchainOps.verify_pairs P o c indices.
Proof.
  intros Hf. induction indices as [|i rest IH]; [reflexivity|].
  cbn [BlockchainOps.verify_pairs]. destruct (c !! i); [|reflexivity]. destruct (c !! S i); [|reflexivity].
  rewrite deref_alter_previous by exact Hf. rewrite IH. reflexivity.
Qed.

End VerifyChain.

(** X16.  On every ledger whose counter agrees with its list of blocks,
    [verify_chain] returns, and returns true if and only if every adjacent
    pair is linked, [hash(chain[i]) == chain[i+1].previous_block_hash]; it
    returns false otherwise. *)
Theorem verify_chain_iff_linked (P : Platform) (st : process) :
  counted st ->
  (BlockchainOps.verify_chain P st = Py.Ok true <-> linked P st)
  /\ (BlockchainOps.verify_chain P st = Py.Ok false <-> ~ linked P st).
Proof.
  intros Hc. unfold counted in Hc.
  assert (Hspec := verify_pairs_spec P (objects st) (chain (blockchain st))
                     (Z.to_nat (chainLength (blockchain st) - 1)) 0 ltac:(lia)).
  destruct Hspec as [Htot Hiff].
  assert (Hlinked : BlockchainOps.verify_chain P st = Py.Ok true <-> linked P st).
  { unfold BlockchainOps.verify_chain, linked. rewrite Hiff. split.
    - intros H i a b Ha Hb. apply (H i a b); [|exact Ha|exact Hb].
      apply lookup_lt_Some in Hb. lia.
    - intros H i a b _. apply H. }
  split; [exact Hlinked|].
  rewrite <- Hlinked. unfold BlockchainOps.verify_chain.
  destruct Htot as [-> | ->]; split; congruence.
Qed.

(** The two-block ledger mined through basicBlockchain.py is linked. *)
Lemma verify_chain_iff_linked_witness :
  exists st : process,
    linked_demo = Py.Ok st
    /\ counted st
    /\ linked demo_platform st.
Proof.
  destruct linked_demo as [st| | |] eqn:Hrun;
    [| vm_compute in Hrun; discriminate ..].
  exists st. split; [reflexivity|].
  assert (Hc : counted st).
  { vm_compute in Hrun. injection Hrun as <-. reflexivity. }
  split; [exact Hc|].
  destruct (verify_chain_iff_linked demo_platform st Hc) as (Hiff & _).
  apply Hiff.
  vm_compute in Hrun. injection Hrun as <-. vm_compute. reflexivity.
Defined.

(** C2 (the code departs from it).  The ledger of two blocks mined through
    menu choice 3 of basicBlockchain.py verifies.  After a transaction is
    added to the transaction list of its first block, with no block mined
    again, the first block holds one transaction more and [verify_chain]
    still answers true: the hash that links the blocks is the hash of the
    block object, which its transactions do not enter. *)
Theorem tampered_ledger_still_verifies :
  exists st : process,
    linked_demo = Py.Ok st
    /\ chain (blockchain st) = [new_id demo_platform 0; new_id demo_platform 1]
    /\ BlockchainOps.verify_chain demo_platform st = Py.Ok true
    /\ let tampered :=
         mutate (BlockOps.add_transaction (demo_tx 9))
                (new_id demo_platform 0) st in
       verified_transactions (deref (objects tampered) (new_id demo_platform 0))
       = verified_transactions (deref (objects st) (new_id demo_platform 0))
         ++ [demo_tx 9]
       /\ BlockchainOps.verify_chain demo_platform tampered = Py.Ok true
       /\ ~ tamper_evident demo_platform st.
Proof.
  destruct linked_demo as [st| | |] eqn:Hrun;
    [| vm_compute in Hrun; discriminate ..].
  exists st. split; [reflexivity|].
  vm_compute in Hrun. injection Hrun as <-.
  split; [reflexivity|]. split; [vm_compute; reflexivity|].
  cbv zeta. split; [vm_compute; reflexivity|].
  split; [vm_compute; reflexivity|].
  intros H.
  specialize (H (new_id demo_platform 0) (demo_tx 9)).
  assert (Hin : In (new_id demo_platform 0)
                   [139888630398112; 139888630511888]) by (left; reflexivity).
  specialize (H Hin). vm_compute in H. discriminate.
Qed.

(* ===================================================================== *)
(** ** [Miner.mine] *)
(* ===================================================================== *)

Section Mining.

Context (T : MPI.transport) (P : Platform).

Lemma startswith_zeros (n : nat) : forall s : string,
  Py.startswith s (Py.replicate_char n "0") = true ->
  (n <= Py.leading_zeros s)%nat.
Proof.
  induction n as [|n IH]; intros s H; [lia|].
  destruct s as [|c s]; cbn [Py.startswith Py.replicate_char] in H;
    [discriminate|].
  apply andb_prop in H as [Hc Hs]. apply Ascii.eqb_eq in Hc. subst c.
  cbn [Py.leading_zeros]. rewrite Ascii.eqb_refl. apply IH in Hs. lia.
Qed.

(** A digest found by the loop itself is the digest tested at some
    counter value, and carries the prefix. *)
Lemma mine_loop_local (message : addr) (prefix : string) :
  forall (fuel : nat) (i : Z) (st : process) digest st',
    MPI.mine_loop T P fuel message prefix i st = Py.Ok (digest, true, st') ->
    exists j : Z,
      i <= j /\ digest = Py.Str (tested_digest P message j)
      /\ Py.startswith (tested_digest P message j) prefix = true.
Proof.
  induction fuel as [|fuel IH]; intros i st digest st' H; [discriminate|].
  cbn [MPI.mine_loop] in H.
  destruct (MPI.arrival T (clock st)); [discriminate|].
  fold (tested_digest P message i) in H.
  destruct (Py.startswith (tested_digest P message i) prefix) eqn:Hp.
  - injection H as <- _. exists i. split; [lia|]. split; [reflexivity|exact Hp].
  - apply IH in H as (j & Hj & Hd & Hs). exists j. split; [lia|]. auto.
Qed.

(** A digest that was not found locally is a message of a peer, handed
    back as it arrived. *)
Lemma mine_loop_remote (message : addr) (prefix : string) :
  forall (fuel : nat) (i : Z) (st : process) digest st',
    MPI.mine_loop T P fuel message prefix i st = Py.Ok (digest, false, st') ->
    exists t : nat, MPI.arrival T t = Some digest.
Proof.
  induction fuel as [|fuel IH]; intros i st digest st' H; [discriminate|].
  cbn [MPI.mine_loop] in H.
  destruct (MPI.arrival T (clock st)) as [v|] eqn:Hv.
  - injection H as <- _. exists (clock st). exact Hv.
  - destruct (Py.startswith _ prefix); [discriminate|].
    apply IH in H. exact H.
Qed.

(** The loop returns within [n + 1] turns when the digest tested [n]
    counter values ahead carries the prefix. *)
Lemma mine_loop_progress (message : addr) (prefix : string) :
  forall (n : nat) (fuel : nat) (i : Z) (st : process),
    Py.startswith (tested_digest P message (i + Z.of_nat n)) prefix = true ->
    (n < fuel)%nat ->
    exists r, MPI.mine_loop T P fuel message prefix i st = Py.Ok r.
Proof.
  induction n as [|n IH]; intros fuel i st Hgood Hfuel;
    (destruct fuel as [|fuel]; [lia|]); cbn [MPI.mine_loop];
    (destruct (MPI.arrival T (clock st)); [eexists; reflexivity|]);
    fold (tested_digest P message i).
  - replace (i + Z.of_nat 0) with i in Hgood by lia. rewrite Hgood.
    eexists; reflexivity.
  - destruct (Py.startswith (tested_digest P message i) prefix);
      [eexists; reflexivity|].
    apply IH; [|lia].
    replace (i + 1 + Z.of_nat n) with (i + Z.of_nat (S n)) by lia. exact Hgood.
Qed.

(** The loop reads the identity of the block and the transport, and no
    attribute of any block. *)
Lemma mine_loop_objects (message : addr) (prefix : string)
  (o : gmap addr Block) :
  forall (fuel : nat) (i : Z) (st : process),
    MPI.mine_loop T P fuel message prefix i (with_objects o st) =
      (fun '(digest, foundLocal, s) => (digest, foundLocal, with_objects o s))
        <$> MPI.mine_loop T P fuel message prefix i st.
Proof.
  induction fuel as [|fuel IH]; intros i st; [reflexivity|].
  cbn [MPI.mine_loop]. change (clock (with_objects o st)) with (clock st).
  destruct (MPI.arrival T (clock st)); [reflexivity|].
  destruct (Py.startswith _ prefix); [reflexivity|].
  change (tick (with_objects o st)) with (with_objects o (tick st)).
  apply IH.
Qed.

(** The loop changes the clock and the trace of the process only. *)
Lemma mine_loop_state (message : addr) (prefix : string) :
  forall (fuel : nat) (i : Z) (st : process) digest foundLocal st',
    MPI.mine_loop T P fuel message prefix i st
      = Py.Ok (digest, foundLocal, st') ->
    objects st' = objects st /\ created st' = created st
    /\ memPool st' = memPool st /\ blockchain st' = blockchain st
    /\ blockchain_data st' = blockchain_data st.
Proof.
  induction fuel as [|fuel IH]; intros i st digest foundLocal st' H;
    [discriminate|].
  cbn [MPI.mine_loop] in H.
  destruct (MPI.arrival T (clock st)).
  - injection H as _ _ <-. repeat split.
  - destruct (Py.startswith _ prefix).
    + injection H as _ _ <-. repeat split.
    + apply IH in H. exact H.
Qed.

Lemma mine_for_spec (message : addr) (prefix : string) :
  forall (n : nat) (i : Z),
    Dynamic.mine_for P n message prefix i = Py.None_
    \/ exists j : Z,
         i <= j
         /\ Dynamic.mine_for P n message prefix i
              = Py.Str (tested_digest P message j)
         /\ Py.startswith (tested_digest P message j) prefix = true.
Proof.
  induction n as [|n IH]; intros i; [left; reflexivity|].
  cbn [Dynamic.mine_for]. fold (tested_digest P message i).
  destruct (Py.startswith (tested_digest P message i) prefix) eqn:Hp.
  - right. exists i. split; [lia|]. split; [reflexivity|exact Hp].
  - destruct (IH (i + 1)) as [Hn | (j & Hj & Hd & Hs)]; [left; exact Hn|].
    right. exists j. split; [lia|]. auto.
Qed.

End Mining.

(** [Miner.mine] of the group program reads the object store nowhere: its
    outcome is the same whatever the attributes of the blocks are, and a
    digest found locally is the digest tested for the object at some counter
    value [i >= 0]. *)
Lemma mine_ignores_attributes (T : MPI.transport) (P : Platform)
  (fuel : nat) (message : addr) (difficulty : Z) (st : process)
  (o : gmap addr Block) :
  MPI.mine T P fuel message difficulty (with_objects o st) =
    (fun '(digest, foundLocal, s) => (digest, foundLocal, with_objects o s))
      <$> MPI.mine T P fuel message difficulty st
  /\ forall (digest : Py.value) (st' : process),
       MPI.mine T P fuel message difficulty st = Py.Ok (digest, true, st') ->
       exists i : Z, 0 <= i /\ digest = Py.Str (tested_digest P message i).
Proof.
  unfold MPI.mine. destruct (difficulty >=? 1).
  - split; [apply mine_loop_objects|].
    intros digest st' H. apply mine_loop_local in H as (j & Hj & Hd & _).
    exists j. auto.
  - split; [reflexivity | discriminate].
Qed.

(** C3 (the code departs from it).  Two candidate blocks as [Block()]
    leaves them, with equal (empty) transaction lists and equal
    [previous_block_hash], are tested with different digests already at
    counter value 0; and one candidate is mined to the same digest before
    and after a transaction is added to it.  The payload that [Miner.mine]
    hashes is [str(hash(message)) + str(i)] for a class that defines no
    [__hash__]: the identity of the object, not its transactions and
    [previous_block_hash]. *)
Theorem equal_candidates_hashed_apart :
  deref two_candidates (new_id demo_platform 0)
  = deref two_candidates (new_id demo_platform 1)
  /\ tested_digest demo_platform (new_id demo_platform 0) 0
     <> tested_digest demo_platform (new_id demo_platform 1) 0
  /\ ~ payload_by_content demo_platform two_candidates
  /\ exists digest : Py.value,
       fst <$> MPI.mine solo demo_platform 10 (new_id demo_platform 0) 5
                 (with_objects two_candidates (initial_process None))
       = Py.Ok (digest, true)
       /\ fst <$> MPI.mine solo demo_platform 10 (new_id demo_platform 0) 5
                    (mutate (BlockOps.add_transaction (demo_tx 9))
                            (new_id demo_platform 0)
                            (with_objects two_candidates (initial_process None)))
          = Py.Ok (digest, true).
Proof.
  split; [vm_compute; reflexivity|].
  assert (Hne : tested_digest demo_platform (new_id demo_platform 0) 0
                <> tested_digest demo_platform (new_id demo_platform 1) 0)
    by (vm_compute; discriminate).
  split; [exact Hne|]. split.
  - intros H.
    specialize (H (new_id demo_platform 0) (new_id demo_platform 1)).
    assert (H0 : is_Some (two_candidates !! new_id demo_platform 0))
      by (vm_compute; eexists; reflexivity).
    assert (H1 : is_Some (two_candidates !! new_id demo_platform 1))
      by (vm_compute; eexists; reflexivity).
    exact (Hne (H H0 H1 eq_refl eq_refl 0)).
  - eexists. split; vm_compute; reflexivity.
Qed.

(* ===================================================================== *)
(** ** The mem-pool and the mining loops *)
(* ===================================================================== *)

(** Projections of the state of a process through the state updates. *)
Ltac fields :=
  cbn [objects created memPool blockchain blockchain_data clock trace
       with_objects with_created with_memPool with_blockchain
       with_blockchain_data tick emit mutate persist_block allocate fst snd
       BlockchainOps.add_block prepared chain chainLength latest_block_hash
       difficulty].

Section Loops.

Context (P : Platform).

Lemma ceil_div_step (n : Z) :
  0 < n ->
  ceil_div n 3 = 1 + ceil_div (n - (if n <? 3 then n else 3)) 3.
Proof.
  intros Hn. unfold ceil_div. destruct (Z.ltb_spec n 3).
  - replace (n - n + 3 - 1) with 2 by lia.
    change (2 / 3) with 0.
    assert (n = 1 \/ n = 2) as [-> | ->] by lia; reflexivity.
  - replace (n + 3 - 1) with ((n - 3 + 3 - 1) + 1 * 3) by lia.
    rewrite Z.div_add by lia. lia.
Qed.

Lemma block_quota_bounds (st : process) :
  (Z.to_nat (block_quota st) <= length (memPool st))%nat
  /\ (Z.to_nat (block_quota st) <= 3)%nat
  /\ ((MemPool.get_size (memPool st) >? 0) = true ->
      (1 <= Z.to_nat (block_quota st))%nat).
Proof.
  unfold block_quota, MemPool.get_size.
  destruct (Z.ltb_spec (Z.of_nat (length (memPool st))) 3); lia.
Qed.

(** The filling loop moves the first [n] transactions of the pool into
    the block, in order, and cannot fail while the pool holds [n]. *)
Lemma fill_block_candidate (a : addr) (o : gmap addr Block)
  (v : Py.value) (h : Z) (c k : nat) (bc : Blockchain)
  (f : option (list Block)) (tr : list event) :
  forall (n : nat) (ts pool : list Transaction),
    (n <= length pool)%nat ->
    fill_block n a
      {| objects := <[a := candidate ts v h]> o; created := c;
         memPool := pool; blockchain := bc; blockchain_data := f;
         clock := k; trace := tr |}
    = Py.Ok
        {| objects := <[a := candidate (ts ++ firstn n pool) v h]> o;
           created := c; memPool := skipn n pool; blockchain := bc;
           blockchain_data := f; clock := k; trace := tr |}.
Proof.
  induction n as [|n IH]; intros ts pool Hn.
  - simpl. rewrite app_nil_r. reflexivity.
  - destruct pool as [|t rest]; [simpl in Hn; lia|].
    cbn [fill_block]. unfold pull_transaction. cbn.
    unfold mutate, with_objects. cbn.
    rewrite alter_insert_eq.
    change (BlockOps.add_transaction t (candidate ts v h))
      with (candidate (ts ++ [t]) v h).
    rewrite IH by (simpl in Hn; lia).
    rewrite <- app_assoc. reflexivity.
Qed.

Lemma prepare_spec (st : process) :
  fill_block (Z.to_nat (block_quota (snd (allocate P new_block st))))
             (new_id P (created st)) (snd (allocate P new_block st))
  = Py.Ok (prepared P st).
Proof.
  destruct (block_quota_bounds st) as (Hq & _).
  unfold allocate, with_created, with_objects. cbn.
  change new_block with (candidate [] (Py.Str "") 0).
  unfold block_quota in *. cbn.
  rewrite fill_block_candidate by exact Hq.
  reflexivity.
Qed.

Lemma deref_insert_eq (o : gmap addr Block) (a : addr) (b : Block) :
  deref (<[a := b]> o) a = b.
Proof. unfold deref. rewrite lookup_insert_eq. reflexivity. Qed.

Lemma deref_insert_ne (o : gmap addr Block) (a a' : addr) (b : Block) :
  a <> a' -> deref (<[a := b]> o) a' = deref o a'.
Proof. intros H. unfold deref. rewrite lookup_insert_ne by done. reflexivity. Qed.

Lemma dynamic_turn_spec (st : process) :
  exists st' : process,
    Dynamic.mining_turn P st = Py.Ok st'
    /\ turn_effect (fun _ => None) st st'.
Proof.
  unfold Dynamic.mining_turn.
  destruct (allocate P new_block st) as [a st1] eqn:Ha.
  pose proof (prepare_spec st) as Hp. rewrite Ha in Hp.
  unfold allocate in Ha. injection Ha as Ha _. rewrite Ha in Hp.
  cbn [snd] in Hp. rewrite Hp. cbn [mbind result_bind Py.bind].
  unfold Dynamic.mine. change (2 >=? 1) with true.
  cbn [mbind result_bind Py.bind mret result_ret].
  eexists. split; [reflexivity|].
  set (digest := Dynamic.mine_for _ _ _ _ _).
  exists a. fields. rewrite Ha, !alter_insert_eq.
  repeat split.
  - rewrite deref_insert_eq. apply produced_local.
  - intros a'. destruct (decide (a = a')) as [<-|Hne].
    + right. rewrite deref_insert_eq. apply produced_local.
    + left. apply deref_insert_ne. exact Hne.
Qed.

Lemma mpi_turn_spec (T : MPI.transport) (fuel : nat) (st st' : process) :
  MPI.mining_turn T P fuel st = Py.Ok st' ->
  turn_effect (MPI.block_arrival T) st st'
  /\ ((forall t, MPI.arrival T t = None) -> created st' = S (created st)).
Proof.
  unfold MPI.mining_turn.
  destruct (allocate P new_block st) as [a st1] eqn:Ha.
  pose proof (prepare_spec st) as Hp. rewrite Ha in Hp.
  unfold allocate in Ha. injection Ha as Ha _. rewrite Ha in Hp.
  cbn [snd] in Hp. rewrite Hp. cbn [mbind result_bind Py.bind].
  destruct (MPI.mine T P fuel a 5 (prepared P st))
    as [[[digest minedLocal] st3]| | |] eqn:Hm; try discriminate.
  cbn [mbind result_bind Py.bind].
  unfold MPI.mine in Hm. change (5 >=? 1) with true in Hm. cbn iota in Hm.
  pose proof Hm as Hst.
  apply mine_loop_state in Hst as (Hobj & Hcr & Hpool & Hbc & _).
  revert Hobj Hcr Hpool Hbc. fields. intros Hobj Hcr Hpool Hbc.
  unfold MPI.broadcast_block. destruct minedLocal.
  - cbn [mret result_ret]. intros Hst'. injection Hst' as Hst'. split.
    + exists a. rewrite <- Hst'. fields. rewrite Hobj, Hpool, Hbc.
      rewrite Ha, !alter_insert_eq.
      repeat split.
      * rewrite deref_insert_eq. apply produced_local.
      * intros a'. destruct (decide (a = a')) as [<-|Hne].
        -- right. rewrite deref_insert_eq. apply produced_local.
        -- left. apply deref_insert_ne. exact Hne.
    + intros _. rewrite <- Hst'. fields. exact Hcr.
  - match goal with
    | |- context [MPI.block_arrival T ?c] =>
        destruct (MPI.block_arrival T c) as [rb|] eqn:Hrb;
          [|intros; discriminate]
    end.
    destruct (allocate P rb _) as [a2 st4] eqn:Ha2.
    unfold allocate in Ha2. injection Ha2 as Ha2 Hst4.
    cbn [mret result_ret]. intros Hst'. injection Hst' as Hst'. split.
    + exists a2. rewrite <- Hst'. fields. rewrite <- Hst4. fields.
      rewrite Hobj, Hpool, Hbc. rewrite Ha, !alter_insert_eq.
      revert Ha2. fields. intros Ha2. rewrite Ha2, !alter_insert_eq.
      repeat split.
      * rewrite deref_insert_eq. eapply produced_remote. exact Hrb.
      * intros a'.
        destruct (decide (a2 = a')) as [<-|Hne].
        -- right. rewrite deref_insert_eq. eapply produced_remote. exact Hrb.
        -- rewrite deref_insert_ne by exact Hne.
           destruct (decide (a = a')) as [<-|Hne'].
           ++ right. rewrite deref_insert_eq. apply produced_local.
           ++ left. apply deref_insert_ne. exact Hne'.
    + intros Hquiet. apply mine_loop_remote in Hm as (t & Ht).
      rewrite Hquiet in Ht. discriminate.
Qed.

End Loops.

Section LoopEffects.

Context (P : Platform).

Lemma pool_drained (pool : list Transaction) :
  (MemPool.get_size pool >? 0) = false -> pool = [].
Proof.
  unfold MemPool.get_size. destruct pool as [|t rest]; [reflexivity|].
  intros H. rewrite Z.gtb_ltb in H. apply Z.ltb_ge in H.
  rewrite length_cons, Nat2Z.inj_succ in H. lia.
Qed.

Lemma loop_effect_nil recv (st : process) :
  memPool st = [] -> loop_effect recv st st.
Proof.
  intros H. unfold loop_effect. rewrite H.
  change (ceil_div (Z.of_nat (length (@nil Transaction))) 3) with 0.
  split; [reflexivity|]. split; [lia|]. split; [lia|]. auto.
Qed.

(** A turn lowers the number of turns still needed by one. *)
Lemma turn_ceil (st st1 : process) :
  (MemPool.get_size (memPool st) >? 0) = true ->
  memPool st1 = skipn (Z.to_nat (block_quota st)) (memPool st) ->
  ceil_div (Z.of_nat (length (memPool st))) 3
    = 1 + ceil_div (Z.of_nat (length (memPool st1))) 3
  /\ 0 <= ceil_div (Z.of_nat (length (memPool st1))) 3.
Proof.
  intros Hsize Hpool.
  destruct (block_quota_bounds st) as (Hq1 & Hq3 & Hq0). specialize (Hq0 Hsize).
  split.
  - rewrite ceil_div_step by lia. f_equal. f_equal.
    rewrite Hpool, length_skipn. unfold block_quota, MemPool.get_size in *.
    destruct (Z.ltb_spec (Z.of_nat (length (memPool st))) 3); lia.
  - unfold ceil_div. apply Z.div_pos; lia.
Qed.

Lemma loop_effect_step recv (st st1 st' : process) :
  (MemPool.get_size (memPool st) >? 0) = true ->
  turn_effect recv st st1 -> loop_effect recv st1 st' ->
  loop_effect recv st st'.
Proof.
  intros Hsize (a & Hpool & Hchain & Hlen & Ha & Hothers) (Hnil & Hcl & Hch & HQ).
  destruct (block_quota_bounds st) as (Hq1 & Hq3 & Hq0). specialize (Hq0 Hsize).
  pose proof (turn_ceil st st1 Hsize Hpool) as [Hceil _].
  unfold loop_effect. rewrite Hceil.
  split; [exact Hnil|]. split; [lia|]. split.
  - rewrite Hch, Hchain, length_app. simpl. lia.
  - intros Q Hclosed HQst. apply HQ; [exact Hclosed|].
    assert (Hts : (length (firstn (Z.to_nat (block_quota st)) (memPool st)) <= 3)%nat)
      by (rewrite length_firstn; lia).
    intros a' Hin. rewrite Hchain in Hin. apply in_app_or in Hin as [Hin|Hin].
    + destruct (Hothers a') as [-> | Hprod]; [apply HQst; exact Hin|].
      eapply Hclosed; [exact Hts | exact Hprod].
    + destruct Hin as [<-|[]]. eapply Hclosed; [exact Hts | exact Ha].
Qed.

Lemma dynamic_loop_spec : forall (budget : nat) (st : process),
  (length (memPool st) <= budget)%nat ->
  exists st' : process,
    Dynamic.mining_loop P budget st = Py.Ok st'
    /\ loop_effect (fun _ => None) st st'.
Proof.
  induction budget as [|budget IH]; intros st Hb.
  - exists st. destruct (memPool st) eqn:Hp; [|simpl in Hb; lia].
    cbn [Dynamic.mining_loop]. rewrite Hp. split; [reflexivity|].
    apply loop_effect_nil. exact Hp.
  - cbn [Dynamic.mining_loop].
    destruct (MemPool.get_size (memPool st) >? 0) eqn:Hsize.
    + destruct (dynamic_turn_spec P st) as (st1 & Hturn & Heff).
      rewrite Hturn. cbn [mbind result_bind Py.bind].
      destruct (IH st1) as (st' & Hloop & Hle).
      { destruct Heff as (a & Hpool & _).
        destruct (block_quota_bounds st) as (_ & _ & Hq0). specialize (Hq0 Hsize).
        rewrite Hpool, length_skipn. lia. }
      exists st'. split; [exact Hloop|].
      eapply loop_effect_step; eauto.
    + exists st. split; [reflexivity|]. apply loop_effect_nil.
      apply pool_drained. exact Hsize.
Qed.

Lemma mpi_loop_spec (T : MPI.transport) (fuel : nat) :
  forall (budget : nat) (st st' : process),
    MPI.mining_loop T P fuel budget st = Py.Ok st' ->
    loop_effect (MPI.block_arrival T) st st'.
Proof.
  induction budget as [|budget IH]; intros st st' H;
    cbn [MPI.mining_loop] in H;
    destruct (MemPool.get_size (memPool st) >? 0) eqn:Hsize;
    try discriminate.
  - injection H as <-. apply loop_effect_nil.
    apply pool_drained. exact Hsize.
  - destruct (MPI.mining_turn T P fuel st) as [st1| | |] eqn:Hturn;
      try discriminate.
    cbn [mbind result_bind Py.bind] in H.
    apply mpi_turn_spec in Hturn as [Heff _].
    eapply loop_effect_step; eauto.
  - injection H as <-. apply loop_effect_nil.
    apply pool_drained. exact Hsize.
Qed.

Lemma mine_loop_no_raise (T : MPI.transport) (message : addr)
  (prefix : string) :
  forall (fuel : nat) (i : Z) (st : process) (e : Py.exn),
    MPI.mine_loop T P fuel message prefix i st <> Py.Raise e.
Proof.
  induction fuel as [|fuel IH]; intros i st e; [discriminate|].
  cbn [MPI.mine_loop]. destruct (MPI.arrival T (clock st)); [discriminate|].
  destruct (Py.startswith _ prefix); [discriminate|]. apply IH.
Qed.

Lemma mpi_turn_no_raise (T : MPI.transport) (fuel : nat) (st : process)
  (e : Py.exn) :
  MPI.mining_turn T P fuel st <> Py.Raise e.
Proof.
  unfold MPI.mining_turn.
  destruct (allocate P new_block st) as [a st1] eqn:Ha.
  pose proof (prepare_spec P st) as Hp. rewrite Ha in Hp.
  unfold allocate in Ha. injection Ha as Ha _. rewrite Ha in Hp.
  cbn [snd] in Hp. rewrite Hp. cbn [mbind result_bind Py.bind].
  destruct (MPI.mine T P fuel a 5 (prepared P st))
    as [[[digest minedLocal] st3]| e' | |] eqn:Hm;
    cbn [mbind result_bind Py.bind]; try discriminate.
  - unfold MPI.broadcast_block. destruct minedLocal; [discriminate|].
    match goal with
    | |- context [MPI.block_arrival T ?c] =>
        destruct (MPI.block_arrival T c); discriminate
    end.
  - unfold MPI.mine in Hm. change (5 >=? 1) with true in Hm. cbn iota in Hm.
    apply mine_loop_no_raise in Hm. destruct Hm.
Qed.

Lemma mpi_loop_no_raise (T : MPI.transport) (fuel : nat) :
  forall (budget : nat) (st : process) (e : Py.exn),
    MPI.mining_loop T P fuel budget st <> Py.Raise e.
Proof.
  induction budget as [|budget IH]; intros st e; cbn [MPI.mining_loop];
    destruct (MemPool.get_size (memPool st) >? 0); try discriminate.
  destruct (MPI.mining_turn T P fuel st) as [st1| e' | |] eqn:Hturn;
    cbn [mbind result_bind Py.bind]; try discriminate.
  - apply IH.
  - apply mpi_turn_no_raise in Hturn. destruct Hturn.
Qed.

Lemma nonce_within_spec (fuel : nat) (a : addr) :
  nonce_within P fuel a = true ->
  exists n : nat,
    (n < fuel)%nat
    /\ Py.startswith (tested_digest P a (Z.of_nat n)) "00000" = true.
Proof.
  unfold nonce_within. intros H. apply existsb_exists in H as (n & Hin & Hn).
  apply in_seq in Hin. exists n. split; [lia | exact Hn].
Qed.

(** In a group where no peer sends anything, a turn ends as soon as the
    miner finds a nonce for the candidate. *)
Lemma mpi_turn_progress (T : MPI.transport) (fuel : nat) (st : process) :
  quiet T ->
  nonce_within P fuel (new_id P (created st)) = true ->
  exists st' : process, MPI.mining_turn T P fuel st = Py.Ok st'.
Proof.
  intros [Hq _] Hn. apply nonce_within_spec in Hn as (n & Hfuel & Hgood).
  unfold MPI.mining_turn.
  destruct (allocate P new_block st) as [a st1] eqn:Ha.
  pose proof (prepare_spec P st) as Hp. rewrite Ha in Hp.
  unfold allocate in Ha. injection Ha as Ha _. rewrite Ha in Hp, Hgood.
  cbn [snd] in Hp. rewrite Hp. cbn [mbind result_bind Py.bind].
  destruct (mine_loop_progress T P a "00000" n fuel 0 (prepared P st))
    as [[[digest minedLocal] st3] Hm]; [exact Hgood | exact Hfuel |].
  unfold MPI.mine. change (5 >=? 1) with true. cbn iota.
  change (Py.repeat_str "0" 5) with "00000". rewrite Hm.
  cbn [mbind result_bind Py.bind].
  destruct minedLocal.
  - unfold MPI.broadcast_block. eexists. reflexivity.
  - apply mine_loop_remote in Hm as (t & Ht). rewrite Hq in Ht. discriminate.
Qed.

Lemma mpi_loop_progress (T : MPI.transport) (fuel : nat) :
  quiet T ->
  forall (budget : nat) (st : process),
    (length (memPool st) <= budget)%nat ->
    (forall k : nat,
       (created st <= k
        < created st + Z.to_nat (ceil_div (Z.of_nat (length (memPool st))) 3))%nat ->
       nonce_within P fuel (new_id P k) = true) ->
    exists st' : process, MPI.mining_loop T P fuel budget st = Py.Ok st'.
Proof.
  intros Hq. induction budget as [|budget IH]; intros st Hb Hn.
  - exists st. destruct (memPool st) eqn:Hp; [|simpl in Hb; lia].
    cbn [MPI.mining_loop]. rewrite Hp. reflexivity.
  - cbn [MPI.mining_loop].
    destruct (MemPool.get_size (memPool st) >? 0) eqn:Hsize;
      [|exists st; reflexivity].
    assert (Hceil : forall st1,
               memPool st1 = skipn (Z.to_nat (block_quota st)) (memPool st) ->
               Z.to_nat (ceil_div (Z.of_nat (length (memPool st))) 3)
               = S (Z.to_nat (ceil_div (Z.of_nat (length (memPool st1))) 3))).
    { intros st1 Hpool. destruct (turn_ceil st st1 Hsize Hpool) as [-> Hpos]. lia. }
    destruct (mpi_turn_progress T fuel st Hq) as (st1 & Hturn).
    { apply Hn. rewrite (Hceil (prepared P st)) by reflexivity. lia. }
    rewrite Hturn. cbn [mbind result_bind Py.bind].
    apply mpi_turn_spec in Hturn as [(a & Hpool & _) Hcr].
    specialize (Hcr (proj1 Hq)).
    apply IH.
    + destruct (block_quota_bounds st) as (_ & _ & Hq0). specialize (Hq0 Hsize).
      rewrite Hpool, length_skipn. lia.
    + intros k Hk. apply Hn. rewrite (Hceil st1 Hpool). lia.
Qed.

End LoopEffects.

(** C8.  Starting from an empty ledger and a pool of [T] transactions, the
    mining loop drains the pool and leaves a ledger of exactly [ceil(T/3)]
    blocks ([chainLength] and the length of [chain] both), so 5 transactions
    give 2 blocks.  In the single-node program the loop always returns, and
    every block of the ledger holds at most 3 transactions.  In the group
    program the same holds of every run of the loop that returns, where a
    block of the ledger holds at most 3 transactions or is a block received
    from a peer (none is, in a group where no peer sends anything); and the
    loop does return, within [fuel] turns of every call of the miner, in a
    group where no peer sends anything and each candidate has a nonce below
    [fuel]. *)
Theorem mining_loop_ceil_blocks :
  (forall (P : Platform) (st : process),
     blockchain st = new_blockchain ->
     exists st' : process,
       Dynamic.mining_loop P (length (memPool st)) st = Py.Ok st'
       /\ memPool st' = []
       /\ chainLength (blockchain st') = ceil_div (Z.of_nat (length (memPool st))) 3
       /\ Z.of_nat (length (chain (blockchain st')))
          = ceil_div (Z.of_nat (length (memPool st))) 3
       /\ chain_all (fun b => (length (verified_transactions b) <= 3)%nat) st')
  /\ (forall (T : MPI.transport) (P : Platform) (fuel : nat) (st st' : process),
        blockchain st = new_blockchain ->
        MPI.mining_loop T P fuel (length (memPool st)) st = Py.Ok st' ->
        memPool st' = []
        /\ chainLength (blockchain st') = ceil_div (Z.of_nat (length (memPool st))) 3
        /\ Z.of_nat (length (chain (blockchain st')))
           = ceil_div (Z.of_nat (length (memPool st))) 3
        /\ chain_all
             (fun b =>
                (length (verified_transactions b) <= 3)%nat
                \/ exists (t : nat) (rb : Block),
                     MPI.block_arrival T t = Some rb
                     /\ verified_transactions b = verified_transactions rb) st')
  /\ (forall (T : MPI.transport) (P : Platform) (fuel : nat) (st st' : process),
        quiet T ->
        blockchain st = new_blockchain ->
        MPI.mining_loop T P fuel (length (memPool st)) st = Py.Ok st' ->
        chain_all (fun b => (length (verified_transactions b) <= 3)%nat) st')
  /\ (forall (T : MPI.transport) (P : Platform) (fuel : nat) (st : process),
        quiet T ->
        (forall k : nat,
           (created st <= k
            < created st
              + Z.to_nat (ceil_div (Z.of_nat (length (memPool st))) 3))%nat ->
           nonce_within P fuel (new_id P k) = true) ->
        exists st' : process,
          MPI.mining_loop T P fuel (length (memPool st)) st = Py.Ok st')
  /\ ceil_div 5 3 = 2.
Proof.
  split; [|split; [|split; [|split]]].
  - intros P st Hnew.
    destruct (dynamic_loop_spec P (length (memPool st)) st (le_n _))
      as (st' & Hrun & Hnil & Hcl & Hch & HQ).
    exists st'. rewrite Hnew in *. cbn in Hcl, Hch.
    repeat split; try assumption.
    apply HQ.
    + intros ts b Hts Hb. destruct Hb as [v h | t rb h Hrb]; [exact Hts | discriminate].
    + intros a Hin. rewrite Hnew in Hin. destruct Hin.
  - intros T P fuel st st' Hnew Hrun.
    apply mpi_loop_spec in Hrun as (Hnil & Hcl & Hch & HQ).
    rewrite Hnew in *. cbn in Hcl, Hch.
    repeat split; try assumption.
    apply HQ.
    + intros ts b Hts Hb. destruct Hb as [v h | t rb h Hrb].
      * left. exact Hts.
      * right. exists t, rb. split; [exact Hrb | reflexivity].
    + intros a Hin. rewrite Hnew in Hin. destruct Hin.
  - intros T P fuel st st' [_ Hq] Hnew Hrun.
    apply mpi_loop_spec in Hrun as (_ & _ & _ & HQ).
    apply HQ.
    + intros ts b Hts Hb. destruct Hb as [v h | t rb h Hrb]; [exact Hts|].
      rewrite Hq in Hrb. discriminate.
    + intros a Hin. rewrite Hnew in Hin. destruct Hin.
  - intros T P fuel st Hq Hn.
    apply mpi_loop_progress; [exact Hq | apply le_n | exact Hn].
  - reflexivity.
Qed.

(** Scenario 1 of the design document, on both programs: 5 transactions and
    an empty ledger; in the group program, one member whose two candidates
    have a nonce at counter value 1. *)
Lemma mining_loop_ceil_blocks_witness :
  (exists st' : process,
     Dynamic.mining_loop demo_platform 5
       (with_memPool (demo_pool 5) (initial_process None)) = Py.Ok st'
     /\ chainLength (blockchain st') = 2)
  /\ (exists st' : process,
        MPI.mining_loop solo demo_platform 2 5
          (with_memPool (demo_pool 5) (initial_process None)) = Py.Ok st'
        /\ chainLength (blockchain st') = 2).
Proof.
  destruct mining_loop_ceil_blocks as (Hdyn & Hmpi & _ & Hprog & _).
  set (st0 := with_memPool (demo_pool 5) (initial_process None)).
  assert (Hnew : blockchain st0 = new_blockchain) by reflexivity.
  split.
  - destruct (Hdyn demo_platform st0 Hnew) as (st' & Hrun & _ & Hcl & _).
    exists st'. split; [exact Hrun | exact Hcl].
  - destruct (Hprog solo demo_platform 2%nat st0) as (st' & Hrun).
    + split; reflexivity.
    + intros k Hk.
      change (created st0) with 0%nat in Hk.
      change (ceil_div (Z.of_nat (length (memPool st0))) 3) with 2 in Hk.
      destruct k as [|[|k]]; [vm_compute; reflexivity .. | lia].
    + exists st'. split; [exact Hrun|].
      exact (proj1 (proj2 (Hmpi solo demo_platform 2%nat st0 st' Hnew Hrun))).
Defined.

(* ===================================================================== *)
(** ** The guard of [pull_transaction] *)
(* ===================================================================== *)

Section PoolGuard.

Context (P : Platform).

Lemma fill_block_ok : forall (n : nat) (a : addr) (st : process),
  (n <= length (memPool st))%nat ->
  exists st' : process, fill_block n a st = Py.Ok st'.
Proof.
  induction n as [|n IH]; intros a st Hn; [eexists; reflexivity|].
  cbn [fill_block]. unfold pull_transaction.
  destruct (memPool st) as [|t rest] eqn:Hpool; [simpl in Hn; lia|].
  cbn [MemPool.pull_transaction mbind result_bind Py.bind mret result_ret].
  apply IH. fields. simpl in Hn. lia.
Qed.

Lemma dynamic_loop_no_raise : forall (budget : nat) (st : process) (e : Py.exn),
  Dynamic.mining_loop P budget st <> Py.Raise e.
Proof.
  induction budget as [|budget IH]; intros st e; cbn [Dynamic.mining_loop];
    destruct (MemPool.get_size (memPool st) >? 0); try discriminate.
  destruct (dynamic_turn_spec P st) as (st1 & -> & _).
  cbn [mbind result_bind Py.bind]. apply IH.
Qed.

End PoolGuard.

(** C10.  [pull_transaction] on an empty pool raises [IndexError], no
    sentinel is returned; on a pool of positive size it returns the oldest
    pending transaction (transactions are added at the other end) and
    removes it.  The mining loops never pull from an empty pool: the filling
    loop of a turn asks for no more transactions than the pool holds, and no
    run of a mining loop ends in an exception. *)
Theorem pull_transaction_guarded :
  MemPool.pull_transaction [] = Py.Raise Py.IndexError
  /\ (forall pool : list Transaction,
        0 < MemPool.get_size pool ->
        exists (t : Transaction) (rest : list Transaction),
          pool = t :: rest /\ MemPool.pull_transaction pool = Py.Ok (t, rest))
  /\ (forall (oldest t : Transaction) (pool : list Transaction),
        MemPool.pull_transaction (MemPool.add_transaction t (oldest :: pool))
        = Py.Ok (oldest, MemPool.add_transaction t pool))
  /\ (forall (a : addr) (st : process),
        exists st' : process,
          fill_block (Z.to_nat (block_quota st)) a st = Py.Ok st')
  /\ (forall (T : MPI.transport) (P : Platform) (fuel budget : nat)
             (st : process) (e : Py.exn),
        MPI.mining_loop T P fuel budget st <> Py.Raise e)
  /\ (forall (P : Platform) (budget : nat) (st : process) (e : Py.exn),
        Dynamic.mining_loop P budget st <> Py.Raise e).
Proof.
  split; [reflexivity|]. split; [|split; [|split; [|split]]].
  - intros [|t rest] Hsize; [unfold MemPool.get_size in Hsize; simpl in Hsize; lia|].
    exists t, rest. split; reflexivity.
  - reflexivity.
  - intros a st. apply fill_block_ok. apply block_quota_bounds.
  - intros T P fuel budget st e. apply mpi_loop_no_raise.
  - intros P budget st e. apply dynamic_loop_no_raise.
Qed.

(** A pool of two transactions: the pull returns the first one. *)
Lemma pull_transaction_guarded_witness :
  exists (t : Transaction) (rest : list Transaction),
    demo_pool 2 = t :: rest
    /\ MemPool.pull_transaction (demo_pool 2) = Py.Ok (t, rest).
Proof.
  destruct pull_transaction_guarded as (_ & Hpull & _).
  apply Hpull. vm_compute. reflexivity.
Defined.

(* ===================================================================== *)
(** ** The chain links of the mined ledger *)
(* ===================================================================== *)

(** In a group where no peer sends anything, every block that the mining
    loop appends to an empty ledger keeps the [previous_block_hash] that
    [Block()] gave it, and [verify_chain] rejects the ledger as soon as it
    has two blocks. *)
Lemma quiet_mining_never_links (T : MPI.transport) (P : Platform)
  (fuel : nat) (st st' : process) :
  quiet T ->
  blockchain st = new_blockchain ->
  (3 < length (memPool st))%nat ->
  MPI.mining_loop T P fuel (length (memPool st)) st = Py.Ok st' ->
  chain_all (fun b => previous_block_hash b = Py.Str "") st'
  /\ BlockchainOps.verify_chain P st' = Py.Ok false.
Proof.
  intros [_ Hq] Hnew Hlen Hrun.
  apply mpi_loop_spec in Hrun as (_ & Hcl & Hch & HQ).
  rewrite Hnew in Hcl, Hch. cbn in Hcl, Hch.
  assert (Hall : chain_all (fun b => previous_block_hash b = Py.Str "") st').
  { apply HQ.
    - intros ts b _ [v h | t rb h Hrb]; [reflexivity|].
      rewrite Hq in Hrb. discriminate.
    - intros a Hin. rewrite Hnew in Hin. destruct Hin. }
  split; [exact Hall|].
  assert (Hc : 2 <= ceil_div (Z.of_nat (length (memPool st))) 3).
  { unfold ceil_div. apply Z.div_le_lower_bound; lia. }
  unfold BlockchainOps.verify_chain.
  destruct (Z.to_nat (chainLength (blockchain st') - 1)) as [|n] eqn:Hn; [lia|].
  destruct (chain (blockchain st')) as [|a [|b rest]] eqn:Hchain;
    [simpl in Hch; lia | simpl in Hch; lia |].
  cbn [seq BlockchainOps.verify_pairs].
  change ((a :: b :: rest) !! 0%nat) with (Some a).
  change ((a :: b :: rest) !! 1%nat) with (Some b).
  cbn iota.
  rewrite (Hall b) by (rewrite Hchain; right; left; reflexivity).
  reflexivity.
Qed.

(** C1 (the code departs from it).  The group program, run by a single
    member on four transactions and no prior data: the mining flow returns a
    ledger of two blocks whose second block still has the empty
    [previous_block_hash] of [Block()], not the hash of the first block; the
    ledger is not linked, and [verify_chain] answers false on it. *)
Theorem mining_flow_leaves_blocks_unlinked :
  exists st : process,
    MPI.program solo demo_platform 10 0 demo_argv solo_io (demo_pool 4) None
      = Py.Ok st
    /\ chain (blockchain st) = [new_id demo_platform 0; new_id demo_platform 1]
    /\ object_hash demo_platform (new_id demo_platform 0) = 8743039399882
    /\ previous_block_hash (deref (objects st) (new_id demo_platform 1))
       = Py.Str ""
    /\ BlockchainOps.verify_chain demo_platform st = Py.Ok false
    /\ ~ linked demo_platform st.
Proof.
  destruct (MPI.program solo demo_platform 10 0 demo_argv solo_io
              (demo_pool 4) None) as [st| | |] eqn:Hrun;
    [| vm_compute in Hrun; discriminate ..].
  exists st. split; [reflexivity|].
  vm_compute in Hrun. injection Hrun as <-.
  split; [reflexivity|]. split; [reflexivity|].
  split; [vm_compute; reflexivity|]. split; [vm_compute; reflexivity|].
  intros H.
  specialize (H 0%nat (new_id demo_platform 0) (new_id demo_platform 1)
                eq_refl eq_refl).
  vm_compute in H. discriminate.
Qed.

(* ===================================================================== *)
(** ** Reading the data file *)
(* ===================================================================== *)

Lemma read_records_all (P : Platform) : forall (records : list Block)
  (st : process),
  chainLength (blockchain (BlockchainOps.read_records P 0 records st))
  = chainLength (blockchain st) + Z.of_nat (length records).
Proof.
  induction records as [|block rest IH]; intros st.
  - cbn. lia.
  - cbn [BlockchainOps.read_records]. change (0 <? 5) with true. cbn iota.
    unfold allocate. rewrite IH, add_block_blockchain. fields.
    rewrite length_cons. lia.
Qed.

(** C5 (the code departs from it).  The loop of [read_blockchain] never
    advances its counter: it appends every record of the data file, six
    blocks for a file of six records. *)
Theorem read_blockchain_reads_every_record :
  (forall (P : Platform) (records : list Block) (st : process),
     blockchain_data st = Some records ->
     chainLength (blockchain (BlockchainOps.read_blockchain P st))
     = chainLength (blockchain st) + Z.of_nat (length records))
  /\ chainLength
       (blockchain
          (BlockchainOps.read_blockchain demo_platform
             (initial_process (Some six_records)))) = 6
  /\ length
       (chain
          (blockchain
             (BlockchainOps.read_blockchain demo_platform
                (initial_process (Some six_records))))) = 6%nat.
Proof.
  split; [|split; vm_compute; reflexivity].
  intros P records st Hfile. unfold BlockchainOps.read_blockchain.
  rewrite Hfile. apply read_records_all.
Qed.

(** The file of six records. *)
Lemma read_blockchain_reads_every_record_witness :
  chainLength
    (blockchain
       (BlockchainOps.read_blockchain demo_platform
          (initial_process (Some six_records))))
  = 0 + Z.of_nat (length six_records).
Proof.
  exact (proj1 read_blockchain_reads_every_record demo_platform six_records
           (initial_process (Some six_records)) eq_refl).
Defined.

(* ===================================================================== *)
(** ** Ledger reconciliation *)
(* ===================================================================== *)

Section Reconciliation.

(** The scan returns the maximum of the lengths and of the start value;
    the rank it returns is the start rank when no length exceeds the start
    value, and the position of a strictly larger length otherwise. *)
Lemma scan_lengths_spec : forall (l : list Z) (i : nat) (m : Z) (mr : nat),
  (Forall (fun x => x <= m) l /\ MPI.scan_lengths i l m mr = (m, mr))
  \/ exists j : nat,
       l !! j = Some (fst (MPI.scan_lengths i l m mr))
       /\ snd (MPI.scan_lengths i l m mr) = (i + j)%nat
       /\ m < fst (MPI.scan_lengths i l m mr).
Proof.
  induction l as [|x rest IH]; intros i m mr.
  - left. split; [constructor | reflexivity].
  - cbn [MPI.scan_lengths]. destruct (x >? m) eqn:Hx.
    + right. assert (m < x) by lia.
      destruct (IH (S i) x i) as [[Hall ->] | (j & Hj & Hr & Hlt)].
      * exists 0%nat. cbn. split; [reflexivity|]. split; lia.
      * exists (S j). split; [exact Hj|]. split; lia.
    + assert (x <= m) by lia.
      destruct (IH (S i) m mr) as [[Hall ->] | (j & Hj & Hr & Hlt)].
      * left. split; [constructor; assumption | reflexivity].
      * right. exists (S j). split; [exact Hj|]. split; lia.
Qed.

Lemma needSync_false (rank : nat) (len : Z) (l : list Z) :
  Forall (fun x => x <= len) l -> MPI.needSync rank len l = false.
Proof.
  intros Hall. unfold MPI.needSync.
  destruct (scan_lengths_spec l 0 len rank) as [[_ ->] | (j & Hj & _ & Hlt)].
  - cbn. rewrite Nat.eqb_refl. reflexivity.
  - rewrite List.Forall_forall in Hall.
    apply list_elem_of_lookup_2, list_elem_of_In, Hall in Hj. lia.
Qed.

Lemma needSync_true (rank : nat) (len x : Z) (l : list Z) :
  l !! rank = Some len -> In x l -> len < x -> MPI.needSync rank len l = true.
Proof.
  intros Hrank Hin Hlt. unfold MPI.needSync.
  destruct (scan_lengths_spec l 0 len rank) as [[Hall _] | (j & Hj & Hr & Hgt)].
  - rewrite List.Forall_forall in Hall. apply Hall in Hin. lia.
  - rewrite Hr. cbn. apply negb_true_iff, Nat.eqb_neq. intros ->.
    rewrite Hrank in Hj. injection Hj as Hj. lia.
Qed.

Lemma posted_for_serve_before (ledger : pickled_ledger) :
  forall (flags : list bool) (i r : nat),
    (r < i)%nat -> MPI.posted_for r (MPI.serve i flags ledger) = None.
Proof.
  induction flags as [|f rest IH]; intros i r Hr; [reflexivity|].
  cbn [MPI.serve]. destruct f; cbn [app MPI.posted_for].
  - destruct (Nat.eqb_spec i r); [lia|]. apply IH. lia.
  - apply IH. lia.
Qed.

(** Rank 0 sends its ledger exactly to the members whose flag is set. *)
Lemma posted_for_serve (ledger : pickled_ledger) :
  forall (flags : list bool) (i r : nat),
    (i <= r)%nat ->
    MPI.posted_for r (MPI.serve i flags ledger)
    = match flags !! (r - i)%nat with
      | Some true => Some ledger
      | _ => None
      end.
Proof.
  induction flags as [|f rest IH]; intros i r Hr; [reflexivity|].
  cbn [MPI.serve].
  destruct (decide (r = i)) as [->|Hne].
  - rewrite Nat.sub_diag. cbn [lookup list_lookup].
    destruct f; cbn [app MPI.posted_for].
    + rewrite Nat.eqb_refl. reflexivity.
    + apply posted_for_serve_before. lia.
  - replace (r - i)%nat with (S (r - S i)) by lia.
    change ((f :: rest) !! S (r - S i)%nat) with (rest !! (r - S i)%nat).
    rewrite <- IH by lia.
    destruct f; cbn [app MPI.posted_for]; [|reflexivity].
    destruct (Nat.eqb_spec i r); [lia | reflexivity].
Qed.

Lemma rebuild_spec (P : Platform) (src : gmap addr Block) :
  forall (refs : list addr) (memo : gmap addr addr) (st : process),
    length (fst (MPI.rebuild P src refs memo st)) = length refs
    /\ blockchain (snd (MPI.rebuild P src refs memo st)) = blockchain st.
Proof.
  induction refs as [|a rest IH]; intros memo st; [split; reflexivity|].
  cbn [MPI.rebuild]. destruct (memo !! a) as [a'|].
  - destruct (MPI.rebuild P src rest memo st) as [l st'] eqn:Hr.
    specialize (IH memo st). rewrite Hr in IH. cbn [fst snd length] in *.
    destruct IH as [-> ->]. split; reflexivity.
  - unfold allocate.
    match goal with
    | |- context [MPI.rebuild P src rest ?m ?s] =>
        destruct (MPI.rebuild P src rest m s) as [l st'] eqn:Hr;
        specialize (IH m s); rewrite Hr in IH
    end.
    cbn [fst snd length] in *. destruct IH as [-> ->]. split; reflexivity.
Qed.

Lemma adopt_blockchain (P : Platform) (ledger : pickled_ledger)
  (st : process) :
  chainLength (blockchain (MPI.adopt P ledger st))
    = chainLength (ledger_root ledger)
  /\ latest_block_hash (blockchain (MPI.adopt P ledger st))
    = latest_block_hash (ledger_root ledger)
  /\ length (chain (blockchain (MPI.adopt P ledger st)))
    = length (chain (ledger_root ledger)).
Proof.
  unfold MPI.adopt.
  pose proof (rebuild_spec P (ledger_blocks ledger)
                (chain (ledger_root ledger)) ∅ st) as [Hlen _].
  destruct (MPI.rebuild P (ledger_blocks ledger) (chain (ledger_root ledger)) ∅ st)
    as [refs st1].
  cbn [fst] in Hlen. fields. auto.
Qed.

(** The outcome of the protocol for one member that is not held in a send
    to itself, in terms of its flag. *)
Lemma synchronize_ledgers_spec (P : Platform) (rank : nat) (io : MPI.sync_io)
  (ledger : pickled_ledger) (st : process) :
  MPI.held_by_own_send (MPI.eager io) (MPI.syncList io) = false ->
  MPI.ledger_arrival io
    = (if MPI.needSync rank (chainLength (blockchain st)) (MPI.ledgerLengths io)
       then Some ledger else None) ->
  exists st' : process,
    MPI.synchronize_ledgers P rank io st = Py.Ok st'
    /\ if MPI.needSync rank (chainLength (blockchain st)) (MPI.ledgerLengths io)
       then chainLength (blockchain st') = chainLength (ledger_root ledger)
            /\ latest_block_hash (blockchain st')
               = latest_block_hash (ledger_root ledger)
            /\ length (chain (blockchain st'))
               = length (chain (ledger_root ledger))
       else blockchain st' = blockchain st /\ objects st' = objects st.
Proof.
  intros Hfree Harr. unfold MPI.synchronize_ledgers, BlockchainOps.get_chain_length.
  rewrite Harr, Hfree.
  destruct (MPI.needSync rank (chainLength (blockchain st)) (MPI.ledgerLengths io)).
  - destruct (Nat.eqb rank 0);
      cbn [mbind result_bind Py.bind mret result_ret];
      (eexists; split; [reflexivity|]);
      unfold BlockchainOps.persist; fields; apply adopt_blockchain.
  - destruct (Nat.eqb rank 0);
      cbn [mbind result_bind Py.bind mret result_ret];
      (eexists; split; [reflexivity|]); fields; split; reflexivity.
Qed.

(** A member enters the barrier or waits for ever; the protocol raises
    nothing. *)
Lemma synchronize_ledgers_outcome (P : Platform) (rank : nat)
  (io : MPI.sync_io) (st : process) :
  (exists st' : process, MPI.synchronize_ledgers P rank io st = Py.Ok st')
  \/ MPI.synchronize_ledgers P rank io st = Py.Stall.
Proof.
  unfold MPI.synchronize_ledgers.
  destruct (Nat.eqb rank 0);
    [destruct (MPI.held_by_own_send _ _); [right; reflexivity|]|];
    cbn [mbind result_bind Py.bind mret result_ret];
    (destruct (MPI.needSync _ _ _);
     [destruct (MPI.ledger_arrival io); [left; eexists; reflexivity | right; reflexivity]
     | left; eexists; reflexivity]).
Qed.

End Reconciliation.

(* ===================================================================== *)
(** ** Start-up and configuration errors *)
(* ===================================================================== *)

(** C6, as amended.  A malformed argument count is detected by [main], that
    is after the statements of the module have split the world communicator
    and passed the world barrier; it is reported with the usage line, and
    the process ends there: no call on the sub-communicator is made (no
    all-gather, gather, broadcast, barrier of the group, send or receive),
    and the ledger, the pool and the data file are untouched.  The group
    count is the constant 3 of the module; [create_subcomm] does not check
    its argument: a count of 0 raises [ZeroDivisionError] before the split
    is invoked, and any other count, negative ones included, reaches the
    split with the color [rank % numBlockchains]. *)
Theorem malformed_arguments_reported_after_split :
  (forall (T : MPI.transport) (P : Platform) (fuel : nat) (rank : Z)
          (argv : list string) (io : MPI.sync_io)
          (replica : list Transaction) (file : option (list Block)),
     check_cla argv = false ->
     exists st : process,
       MPI.program T P fuel rank argv io replica file = Py.Ok st
       /\ trace st = [Split (rank mod 3) rank; WorldBarrier; Print MPI.usage]
       /\ forallb (fun e => negb (is_group_call e)) (trace st) = true
       /\ blockchain st = new_blockchain
       /\ memPool st = []
       /\ blockchain_data st = file)
  /\ (forall (rank : Z) (st : process),
        MPI.create_subcomm rank 0 st = Py.Raise Py.ZeroDivisionError)
  /\ (forall (rank numBlockchains : Z) (st : process),
        numBlockchains <> 0 ->
        MPI.create_subcomm rank numBlockchains st
        = Py.Ok (rank mod numBlockchains,
                 emit [Split (rank mod numBlockchains) rank] st)).
Proof.
  split; [|split].
  - intros T P fuel rank argv io replica file Hcla.
    unfold MPI.program, MPI.module_level, MPI.create_subcomm, MPI.main.
    change (3 =? 0) with false. cbn iota.
    cbn [mbind result_bind Py.bind mret result_ret].
    rewrite Hcla. eexists. split; [reflexivity|].
    repeat split.
  - reflexivity.
  - intros rank numBlockchains st Hne. unfold MPI.create_subcomm.
    destruct (Z.eqb_spec numBlockchains 0); [contradiction | reflexivity].
Qed.

(** A launch with one argument missing, on rank 0. *)
Lemma malformed_arguments_reported_after_split_witness :
  exists st : process,
    MPI.program solo demo_platform 10 0 short_argv solo_io [] None = Py.Ok st
    /\ trace st = [Split 0 0; WorldBarrier; Print MPI.usage].
Proof.
  destruct (proj1 malformed_arguments_reported_after_split
              solo demo_platform 10%nat 0 short_argv solo_io [] None eq_refl)
    as (st & Hrun & Htrace & _).
  exists st. split; [exact Hrun | exact Htrace].
Defined.

(** C6, as stated, fails: with one argument missing, the split of the
    communicator and the world barrier have been invoked by the time the
    usage line is printed. *)
Lemma fails_before_collectives_fails :
  ~ fails_before_collectives solo demo_platform 10 0 short_argv solo_io [] None.
Proof.
  intros H. destruct (H eq_refl) as (st & Hrun & Hnone).
  vm_compute in Hrun. injection Hrun as <-.
  vm_compute in Hnone. discriminate.
Qed.

(* ===================================================================== *)
(** ** What a mining session leaves in the ledger and in the data file *)
(* ===================================================================== *)

Section Sessions.

Context (P : Platform).

Lemma demo_heap_injective : injective_ids demo_heap.
Proof.
  unfold injective_ids. intros m n H.
  destruct m as [|[|[|[|m]]]]; destruct n as [|[|[|[|n]]]];
    cbn [new_id demo_heap] in H; try reflexivity; try discriminate; lia.
Qed.

(** One turn of the single-node loop, field by field. *)
Lemma dynamic_turn_exact (st : process) :
  exists (digest : Py.value) (st' : process),
    Dynamic.mining_turn P st = Py.Ok st'
    /\ let a := new_id P (created st) in
       let b := candidate (firstn (Z.to_nat (block_quota st)) (memPool st))
                          digest (chainLength (blockchain st) + 1) in
       objects st' = <[a := b]> (objects st)
       /\ created st' = S (created st)
       /\ memPool st' = skipn (Z.to_nat (block_quota st)) (memPool st)
       /\ blockchain st'
          = {| latest_block_hash := Py.Int (object_hash P a);
               chainLength := chainLength (blockchain st) + 1;
               chain := chain (blockchain st) ++ [a];
               difficulty := difficulty (blockchain st) |}
       /\ blockchain_data st' = Some (file_records st ++ [b])
       /\ clock st' = clock st
       /\ trace st' = trace st.
Proof.
  unfold Dynamic.mining_turn.
  destruct (allocate P new_block st) as [a st1] eqn:Ha.
  pose proof (prepare_spec P st) as Hp. rewrite Ha in Hp.
  unfold allocate in Ha. injection Ha as Ha _. rewrite Ha in Hp.
  cbn [snd] in Hp. rewrite Hp. cbn [mbind result_bind Py.bind].
  unfold Dynamic.mine. change (2 >=? 1) with true.
  cbn [mbind result_bind Py.bind mret result_ret].
  set (digest := Dynamic.mine_for _ _ _ _ _).
  exists digest. eexists. split; [reflexivity|].
  cbv zeta. fields. rewrite Ha, !alter_insert_eq.
  unfold deref, file_records. rewrite lookup_insert_eq.
  repeat split.
Qed.

Lemma deref_insert (o : gmap addr Block) (a a' : addr) (b : Block) :
  deref (<[a := b]> o) a' = if decide (a = a') then b else deref o a'.
Proof.
  destruct (decide (a = a')) as [->|Hne];
    [apply deref_insert_eq | apply deref_insert_ne; exact Hne].
Qed.

(** A block created now is none of the blocks of the ledger. *)
Lemma next_id_not_in_chain (st : process) :
  injective_ids P -> well_allocated P st ->
  ~ In (new_id P (created st)) (chain (blockchain st)).
Proof.
  intros Hinj [_ Hown] Hin. apply Hown in Hin as (k & Hk & Heq).
  apply Hinj in Heq. lia.
Qed.

Lemma map_deref_insert_fresh (o : gmap addr Block) (a : addr) (b : Block)
  (l : list addr) :
  ~ In a l -> List.map (deref (<[a := b]> o)) l = List.map (deref o) l.
Proof.
  intros Hnot. apply map_ext_in. intros a' Hin.
  apply deref_insert_ne. intros ->. contradiction.
Qed.

Lemma well_allocated_insert (st st' : process) (b : Block) :
  injective_ids P -> well_allocated P st ->
  objects st' = <[new_id P (created st) := b]> (objects st) ->
  created st' = S (created st) ->
  chain (blockchain st')
    = chain (blockchain st) ++ [new_id P (created st)]
    \/ chain (blockchain st') = chain (blockchain st) ->
  well_allocated P st'.
Proof.
  intros Hinj [Hfree Hown] Hobj Hcr Hchain. split.
  - intros n Hn. rewrite Hobj, lookup_insert_ne.
    + apply Hfree. lia.
    + intros Heq. apply Hinj in Heq. lia.
  - intros a Hin. rewrite Hcr.
    destruct Hchain as [Hchain | Hchain]; rewrite Hchain in Hin.
    + apply in_app_or in Hin as [Hin | [<- | []]].
      * apply Hown in Hin as (k & Hk & ->). exists k. split; [lia | reflexivity].
      * exists (created st). split; [lia | reflexivity].
    + apply Hown in Hin as (k & Hk & ->). exists k. split; [lia | reflexivity].
Qed.

End Sessions.

Section SessionEffects.

Context (P : Platform).

Lemma quota_firstn (st : process) :
  firstn (Z.to_nat (block_quota st)) (memPool st) = firstn 3 (memPool st)
  /\ skipn (Z.to_nat (block_quota st)) (memPool st) = skipn 3 (memPool st).
Proof.
  unfold block_quota, MemPool.get_size.
  destruct (Z.ltb_spec (Z.of_nat (length (memPool st))) 3) as [Hlt|Hge].
  - rewrite Nat2Z.id. rewrite !firstn_all2, !skipn_all2 by lia. split; reflexivity.
  - split; reflexivity.
Qed.

Lemma concat_chunks : forall (fuel : nat) (pool : list Transaction),
  (length pool <= fuel)%nat -> concat (chunks fuel pool) = pool.
Proof.
  induction fuel as [|fuel IH]; intros pool Hlen.
  - destruct pool; [reflexivity | simpl in Hlen; lia].
  - destruct pool as [|t rest]; [reflexivity|].
    cbn [chunks concat]. rewrite IH.
    + apply firstn_skipn.
    + rewrite length_skipn. simpl in *. lia.
Qed.

Lemma chunks_more_fuel : forall (fuel fuel' : nat) (pool : list Transaction),
  (length pool <= fuel)%nat -> (length pool <= fuel')%nat ->
  chunks fuel pool = chunks fuel' pool.
Proof.
  induction fuel as [|fuel IH]; intros fuel' pool H H'.
  - destruct pool; [destruct fuel'; reflexivity | simpl in H; lia].
  - destruct pool as [|t rest]; [destruct fuel'; reflexivity|].
    destruct fuel' as [|fuel']; [simpl in H'; lia|].
    cbn [chunks]. f_equal. apply IH; rewrite length_skipn; simpl in *; lia.
Qed.

(** What one turn of the single-node loop adds to the ledger and to the
    data file, for a process whose objects are its own. *)
Lemma dynamic_turn_contents (st : process) :
  injective_ids P -> well_allocated P st ->
  (MemPool.get_size (memPool st) >? 0) = true ->
  exists (b : Block) (st' : process),
    Dynamic.mining_turn P st = Py.Ok st'
    /\ well_allocated P st'
    /\ memPool st' = skipn 3 (memPool st)
    /\ verified_transactions b = firstn 3 (memPool st)
    /\ previous_block_hash b = Py.Str ""
    /\ block_height b = chainLength (blockchain st) + 1
    /\ contents st' = contents st ++ [b]
    /\ file_records st' = file_records st ++ [b]
    /\ chainLength (blockchain st') = chainLength (blockchain st) + 1
    /\ trace st' = trace st.
Proof.
  intros Hinj Hwa Hsize.
  destruct (dynamic_turn_exact P st)
    as (digest & st' & Hrun & Hobj & Hcr & Hpool & Hbc & Hfile & _ & Htr).
  destruct (quota_firstn st) as [Hfirst Hskip].
  rewrite Hfirst in Hobj, Hfile. rewrite Hskip in Hpool.
  exists (candidate (firstn 3 (memPool st)) digest
                    (chainLength (blockchain st) + 1)), st'.
  split; [exact Hrun|].
  split.
  { eapply well_allocated_insert; eauto. left. rewrite Hbc. reflexivity. }
  split; [exact Hpool|].
  split; [reflexivity|]. split; [reflexivity|]. split; [reflexivity|].
  split.
  { unfold contents. rewrite Hbc, Hobj. cbn [chain].
    rewrite List.map_app. cbn [List.map]. rewrite deref_insert_eq.
    rewrite map_deref_insert_fresh by (apply next_id_not_in_chain; assumption).
    reflexivity. }
  split; [unfold file_records at 1; rewrite Hfile; reflexivity|].
  split; [rewrite Hbc; reflexivity | exact Htr].
Qed.

(** The single-node loop, for a process whose objects are its own: the
    blocks it appends hold the pool, cut into runs of three. *)
Lemma dynamic_loop_contents : forall (budget : nat) (st : process),
  injective_ids P -> well_allocated P st ->
  (length (memPool st) <= budget)%nat ->
  exists (new : list Block) (st' : process),
    Dynamic.mining_loop P budget st = Py.Ok st'
    /\ well_allocated P st'
    /\ memPool st' = []
    /\ contents st' = contents st ++ new
    /\ file_records st' = file_records st ++ new
    /\ List.map verified_transactions new = chunks budget (memPool st)
    /\ Forall (fun b => previous_block_hash b = Py.Str "") new
    /\ List.map block_height new
       = List.map (fun i => chainLength (blockchain st) + Z.of_nat (S i))
                  (seq 0 (length new))
    /\ chainLength (blockchain st')
       = chainLength (blockchain st) + Z.of_nat (length new)
    /\ trace st' = trace st.
Proof.
  induction budget as [|budget IH]; intros st Hinj Hwa Hlen.
  - destruct (memPool st) eqn:Hpool; [|simpl in Hlen; lia].
    exists [], st. cbn [Dynamic.mining_loop]. rewrite Hpool.
    rewrite !app_nil_r.
    repeat split; try apply Hwa; try reflexivity; try constructor.
    cbn [length Z.of_nat]. lia.
  - cbn [Dynamic.mining_loop].
    destruct (MemPool.get_size (memPool st) >? 0) eqn:Hsize.
    + destruct (dynamic_turn_contents st Hinj Hwa Hsize)
        as (b & st1 & Hturn & Hwa1 & Hpool1 & Htx & Hprev & Hh & Hc1 & Hf1 & Hcl1 & Htr1).
      rewrite Hturn. cbn [mbind result_bind Py.bind].
      destruct (IH st1 Hinj Hwa1) as
        (new & st' & Hloop & Hwa' & Hnil & Hc & Hf & Htxs & Hprevs & Hhs & Hcl & Htr).
      { rewrite Hpool1, length_skipn. lia. }
      exists (b :: new), st'. split; [exact Hloop|]. split; [exact Hwa'|].
      split; [exact Hnil|].
      split; [rewrite Hc, Hc1, <- app_assoc; reflexivity|].
      split; [rewrite Hf, Hf1, <- app_assoc; reflexivity|].
      split.
      { cbn [List.map]. rewrite Htxs, Htx, Hpool1.
        destruct (memPool st) as [|t rest] eqn:Hpool.
        - discriminate Hsize.
        - reflexivity. }
      split; [constructor; assumption|].
      split.
      { cbn [List.map length]. rewrite Hhs, Hh, Hcl1.
        cbn [seq List.map]. apply (f_equal2 cons); [lia|].
        rewrite <- seq_shift, List.map_map. apply map_ext. intros i. lia. }
      split; [rewrite Hcl, Hcl1; cbn [length]; lia | congruence].
    + apply pool_drained in Hsize.
      exists [], st. rewrite Hsize, !app_nil_r.
      repeat split; try apply Hwa; try reflexivity; try constructor.
      cbn [length Z.of_nat]. lia.
Qed.

End SessionEffects.

Section ReadingBack.

Context (P : Platform).

(** Reading the data file creates one object per record, appends them in
    file order and rewrites their heights to continue the count of the
    ledger; the file itself, the pool and the trace are left alone. *)
Lemma read_records_contents : forall (rs : list Block) (st : process),
  injective_ids P -> well_allocated P st ->
  let st' := BlockchainOps.read_records P 0 rs st in
  well_allocated P st'
  /\ contents st' = contents st ++ renumber (chainLength (blockchain st)) rs
  /\ chainLength (blockchain st')
     = chainLength (blockchain st) + Z.of_nat (length rs)
  /\ length (chain (blockchain st'))
     = (length (chain (blockchain st)) + length rs)%nat
  /\ blockchain_data st' = blockchain_data st
  /\ memPool st' = memPool st
  /\ trace st' = trace st.
Proof.
  induction rs as [|r rest IH]; intros st Hinj Hwa.
  - cbn [BlockchainOps.read_records renumber length]. change (0 <? 5) with true.
    cbn iota. rewrite app_nil_r, Nat.add_0_r.
    repeat split; try apply Hwa. cbn [Z.of_nat]. lia.
  - cbn [BlockchainOps.read_records]. change (0 <? 5) with true. cbn iota.
    unfold allocate.
    set (st1 := BlockchainOps.add_block P (new_id P (created st)) true _).
    assert (Hobj1 : objects st1
                    = <[new_id P (created st) :=
                          BlockOps.set_block_height (chainLength (blockchain st) + 1) r]>
                        (objects st)).
    { subst st1. rewrite add_block_objects. fields. apply alter_insert_eq. }
    assert (Hbc1 : blockchain st1
                   = {| latest_block_hash := Py.Int (object_hash P (new_id P (created st)));
                        chainLength := chainLength (blockchain st) + 1;
                        chain := chain (blockchain st) ++ [new_id P (created st)];
                        difficulty := difficulty (blockchain st) |}).
    { subst st1. rewrite add_block_blockchain. reflexivity. }
    assert (Hwa1 : well_allocated P st1).
    { eapply well_allocated_insert; [exact Hinj | exact Hwa | exact Hobj1 | |].
      - subst st1. reflexivity.
      - left. rewrite Hbc1. reflexivity. }
    assert (Hc1 : contents st1
                  = contents st
                    ++ [BlockOps.set_block_height (chainLength (blockchain st) + 1) r]).
    { unfold contents. rewrite Hbc1, Hobj1. cbn [chain].
      rewrite List.map_app. cbn [List.map]. rewrite deref_insert_eq.
      rewrite map_deref_insert_fresh by (apply next_id_not_in_chain; assumption).
      reflexivity. }
    destruct (IH st1 Hinj Hwa1) as (Hwa' & Hc & Hcl & Hlen & Hfile & Hpool & Htr).
    split; [exact Hwa'|].
    split.
    { rewrite Hc, Hc1, Hbc1, <- app_assoc. reflexivity. }
    split; [rewrite Hcl, Hbc1; cbn [chainLength length]; lia|].
    split; [rewrite Hlen, Hbc1; cbn [chain]; rewrite length_app; cbn [length]; lia|].
    split; [rewrite Hfile; subst st1; reflexivity|].
    split; [rewrite Hpool; subst st1; rewrite add_block_memPool; reflexivity|].
    rewrite Htr. subst st1. reflexivity.
Qed.

Lemma renumber_numbered : forall (rs : list Block) (h : Z),
  List.map block_height rs
  = List.map (fun i => h + Z.of_nat (S i)) (seq 0 (length rs)) ->
  renumber h rs = rs.
Proof.
  induction rs as [|r rest IH]; intros h Hn; [reflexivity|].
  cbn [renumber]. cbn [List.map length seq] in Hn.
  injection Hn as Hr Hrest.
  assert (Hfix : BlockOps.set_block_height (h + 1) r = r).
  { destruct r as [ts prev v height]. unfold BlockOps.set_block_height.
    cbn [verified_transactions previous_block_hash nonce block_height] in *.
    f_equal. lia. }
  rewrite Hfix. f_equal. apply IH.
  rewrite Hrest, <- seq_shift, List.map_map. apply map_ext. intros i. lia.
Qed.

Lemma renumber_spec : forall (rs : list Block) (h : Z),
  length (renumber h rs) = length rs
  /\ List.map verified_transactions (renumber h rs)
     = List.map verified_transactions rs
  /\ List.map block_height (renumber h rs)
     = List.map (fun i => h + Z.of_nat (S i)) (seq 0 (length rs)).
Proof.
  induction rs as [|r rest IH]; intros h; [repeat split|].
  cbn [renumber List.map length seq].
  destruct (IH (h + 1)) as (Hlen & Htx & Hh).
  rewrite Hlen, Htx, Hh. split; [reflexivity|]. split; [reflexivity|].
  cbn [block_height BlockOps.set_block_height].
  apply (f_equal2 cons); [lia|].
  rewrite <- seq_shift, List.map_map. apply map_ext. intros i. lia.
Qed.

Lemma map_seq_offset {A : Type} (f : nat -> A) : forall (m n : nat),
  List.map f (seq n m) = List.map (fun i => f (n + i)%nat) (seq 0 m).
Proof.
  induction m as [|m IH]; intros n; [reflexivity|].
  cbn [seq List.map]. rewrite Nat.add_0_r. f_equal.
  rewrite IH, <- seq_shift, List.map_map. apply map_ext. intros i.
  f_equal. lia.
Qed.

Lemma initial_well_allocated (file : option (list Block)) :
  well_allocated P (initial_process file).
Proof.
  split.
  - intros n _. apply lookup_empty.
  - intros a [].
Qed.

End ReadingBack.

Section SessionTheorems.

Context (P : Platform).

Lemma read_blockchain_contents (st : process) :
  injective_ids P -> well_allocated P st ->
  let st' := BlockchainOps.read_blockchain P st in
  well_allocated P st'
  /\ contents st' = contents st ++ renumber (chainLength (blockchain st)) (file_records st)
  /\ chainLength (blockchain st')
     = chainLength (blockchain st) + Z.of_nat (length (file_records st))
  /\ length (chain (blockchain st'))
     = (length (chain (blockchain st)) + length (file_records st))%nat
  /\ blockchain_data st' = blockchain_data st
  /\ memPool st' = memPool st.
Proof.
  intros Hinj Hwa. unfold BlockchainOps.read_blockchain, file_records.
  destruct (blockchain_data st) as [rs|] eqn:Hfile; cbn [default].
  - destruct (read_records_contents P rs st Hinj Hwa)
      as (Hwa' & Hc & Hcl & Hlen & Hf & Hpool & _).
    rewrite Hf, Hfile. repeat split; try apply Hwa'; assumption.
  - cbn [renumber length]. rewrite app_nil_r, Nat.add_0_r.
    repeat split; try apply Hwa; try assumption. cbn [Z.of_nat]. fields. lia.
Qed.

(** A whole session of the single-node program whose arguments are read
    as ints and whose transactions get generated. *)
Lemma dynamic_main_spec (W : Dynamic.World) (fuel : nat) (argv : list string)
  (numClients numTransactions : Z) (generated : list Transaction)
  (file : option (list Block)) :
  injective_ids P -> check_cla argv = true ->
  parsed W argv numClients numTransactions ->
  Dynamic.generate W fuel (Dynamic.clients W numClients)
    (Z.to_nat numTransactions) 0 0 = Py.Ok generated ->
  exists (new : list Block) (st' : process),
    Dynamic.main P W fuel argv (initial_process file) = Py.Ok st'
    /\ memPool st' = []
    /\ contents st' = renumber 0 (default [] file) ++ new
    /\ file_records st' = default [] file ++ new
    /\ List.map verified_transactions new = blocks_of generated
    /\ Forall (fun b => previous_block_hash b = Py.Str "") new
    /\ List.map block_height new
       = List.map (fun i => Z.of_nat (length (default [] file)) + Z.of_nat (S i))
                  (seq 0 (length new))
    /\ chainLength (blockchain st')
       = Z.of_nat (length (default [] file)) + Z.of_nat (length new)
    /\ length (chain (blockchain st'))
       = (length (default [] file) + length new)%nat.
Proof.
  intros Hinj Hcla [Hn Hc] Hgen. unfold Dynamic.main. rewrite Hcla, Hn.
  cbn [mbind result_bind Py.bind]. rewrite Hc.
  cbn [mbind result_bind Py.bind]. rewrite Hgen.
  cbn [mbind result_bind Py.bind]. clear Hc.
  set (st0 := initial_process file).
  destruct (read_blockchain_contents st0 Hinj (initial_well_allocated P file))
    as (Hwa1 & Hc1 & Hcl1 & Hlen1 & Hf1 & Hpool1).
  set (st1 := BlockchainOps.read_blockchain P st0) in *.
  change (contents st0) with (@nil Block) in Hc1.
  change (chainLength (blockchain st0)) with 0 in Hc1, Hcl1.
  change (length (chain (blockchain st0))) with 0%nat in Hlen1.
  change (file_records st0) with (default [] file) in Hc1, Hcl1, Hlen1.
  change (memPool st0) with (@nil Transaction) in Hpool1.
  change (blockchain_data st0) with file in Hf1.
  cbn [app] in Hc1. rewrite Hpool1. cbn [app].
  set (st2 := with_memPool generated st1).
  assert (Hwa2 : well_allocated P st2) by exact Hwa1.
  destruct (dynamic_loop_contents P (length (memPool st2)) st2 Hinj Hwa2 (le_n _))
    as (new & st' & Hloop & _ & Hnil & Hc & Hf & Htxs & Hprev & Hh & Hcl & _).
  change (memPool st2) with generated in *.
  change (contents st2) with (contents st1) in Hc.
  change (file_records st2) with (file_records st1) in Hf.
  change (chainLength (blockchain st2)) with (chainLength (blockchain st1)) in Hh, Hcl.
  rewrite Hloop. cbn [mbind result_bind Py.bind mret result_ret].
  exists new. eexists. split; [reflexivity|].
  unfold contents, file_records in *. fields.
  split; [exact Hnil|].
  split; [rewrite Hc, Hc1; reflexivity|].
  split; [rewrite Hf, Hf1; reflexivity|].
  split; [exact Htxs|]. split; [exact Hprev|].
  split; [rewrite Hh; apply map_ext; intros i; lia|].
  split; [lia|].
  assert (Hl := f_equal (@length Block) Hc).
  rewrite length_app, !length_map in Hl. rewrite Hl, Hlen1. reflexivity.
Qed.

Lemma choice_in (W : Dynamic.World) (clientList : list Client) (k : nat) (c : Client) :
  Dynamic.choice W clientList k = Py.Ok c -> In c clientList.
Proof.
  unfold Dynamic.choice. destruct clientList as [|c0 rest]; [discriminate|].
  set (l := c0 :: rest).
  assert (Hi : (Dynamic.draw W k mod length l < length l)%nat)
    by (apply Nat.mod_upper_bound; discriminate).
  revert Hi. generalize (Dynamic.draw W k mod length l)%nat. intros i Hi H.
  injection H as <-. exact (nth_In l c0 Hi).
Qed.

Lemma redraw_spec (W : Dynamic.World) (clientList : list Client) (sender : Client) :
  forall (fuel : nat) (recipient : Client) (k : nat) (r : Client) (k' : nat),
    In recipient clientList ->
    Dynamic.redraw W fuel clientList sender recipient k = Py.Ok (r, k') ->
    In r clientList /\ name sender <> name r.
Proof.
  induction fuel as [|fuel IH]; intros recipient k r k' Hin Hrun;
    cbn [Dynamic.redraw] in Hrun;
    destruct (Dynamic.same_client sender recipient) eqn:Hsame;
    try discriminate.
  - injection Hrun as <- <-. split; [exact Hin|].
    unfold Dynamic.same_client in Hsame. lia.
  - destruct (Dynamic.choice W clientList k) as [c| | |] eqn:Hc; try discriminate.
    cbn [mbind result_bind Py.bind] in Hrun.
    eapply IH; [eapply choice_in; exact Hc | exact Hrun].
  - injection Hrun as <- <-. split; [exact Hin|].
    unfold Dynamic.same_client in Hsame. lia.
Qed.

(** The transactions that the generation adds to the pool: as many as
    asked for, each between two different clients of the list, of value
    1. *)
Lemma generate_spec (W : Dynamic.World) (fuel : nat) (clientList : list Client) :
  forall (n k t : nat) (generated : list Transaction),
    Dynamic.generate W fuel clientList n k t = Py.Ok generated ->
    length generated = n
    /\ Forall (fun tx =>
                 In (sender tx) clientList /\ In (recipient tx) clientList
                 /\ name (sender tx) <> name (recipient tx)
                 /\ value tx = VInt 1) generated.
Proof.
  induction n as [|n IH]; intros k t generated Hrun; cbn [Dynamic.generate] in Hrun.
  - injection Hrun as <-. split; [reflexivity | constructor].
  - destruct (Dynamic.choice W clientList k) as [s| | |] eqn:Hs; try discriminate.
    cbn [mbind result_bind Py.bind] in Hrun.
    destruct (Dynamic.choice W clientList (S k)) as [r| | |] eqn:Hr;
      try discriminate.
    cbn [mbind result_bind Py.bind] in Hrun.
    destruct (Dynamic.redraw W fuel clientList s r (S (S k)))
      as [[r' k']| | |] eqn:Hre; try discriminate.
    cbn [mbind result_bind Py.bind] in Hrun.
    destruct (Dynamic.generate W fuel clientList n k' (S t))
      as [rest| | |] eqn:Hrest; try discriminate.
    cbn [mbind result_bind Py.bind mret result_ret] in Hrun.
    injection Hrun as <-.
    destruct (IH k' (S t) rest Hrest) as [Hlen Hall].
    apply choice_in in Hs, Hr.
    destruct (redraw_spec W clientList s fuel r (S (S k)) r' k' Hr Hre)
      as [Hin Hne].
    split; [cbn [length]; rewrite Hlen; reflexivity|].
    constructor; [|exact Hall]. cbn [sender recipient value].
    repeat split; assumption.
Qed.

(** With one client every draw is that client: the search for a recipient
    does not end. *)
Lemma redraw_alone (W : Dynamic.World) (c : Client) :
  forall (fuel : nat) (k : nat),
    Dynamic.redraw W fuel [c] c c k = Py.Diverge.
Proof.
  induction fuel as [|fuel IH]; intros k; cbn [Dynamic.redraw];
    unfold Dynamic.same_client; rewrite Z.eqb_refl; [reflexivity|].
  unfold Dynamic.choice. cbn [length]. rewrite Nat.mod_1_r. cbn [nth].
  cbn [mbind result_bind Py.bind]. apply IH.
Qed.

End SessionTheorems.

(** X1.  A session of blockchainDynamicPersist.py whose two arguments are
    read as ints and whose generation of transactions returns: the session
    returns; its ledger holds the blocks read from the data file followed by
    new blocks that hold the generated transactions, as many as the second
    argument says, cut into consecutive runs of three in the order of the
    pool: no transaction is lost, duplicated or reordered.  The new blocks
    are appended to the data file, behind the records it held, and the pool
    is left empty. *)
Theorem dynamic_session_keeps_every_transaction (P : Platform) (W : Dynamic.World)
  (fuel : nat) (argv : list string) (numClients numTransactions : Z)
  (generated : list Transaction) (file : option (list Block)) :
  injective_ids P -> check_cla argv = true ->
  parsed W argv numClients numTransactions ->
  Dynamic.generate W fuel (Dynamic.clients W numClients)
    (Z.to_nat numTransactions) 0 0 = Py.Ok generated ->
  exists (new : list Block) (st' : process),
    Dynamic.main P W fuel argv (initial_process file) = Py.Ok st'
    /\ memPool st' = []
    /\ length generated = Z.to_nat numTransactions
    /\ List.map verified_transactions (contents st')
       = List.map verified_transactions (default [] file) ++ blocks_of generated
    /\ ledger_transactions st'
       = concat (List.map verified_transactions (default [] file)) ++ generated
    /\ List.map verified_transactions new = blocks_of generated
    /\ file_records st' = default [] file ++ new.
Proof.
  intros Hinj Hcla Hargs Hgen.
  destruct (dynamic_main_spec P W fuel argv numClients numTransactions
              generated file Hinj Hcla Hargs Hgen)
    as (new & st' & Hrun & Hnil & Hc & Hf & Htxs & _).
  exists new, st'. split; [exact Hrun|]. split; [exact Hnil|].
  split; [exact (proj1 (generate_spec W fuel _ _ _ _ _ Hgen))|].
  assert (Hmap : List.map verified_transactions (contents st')
                 = List.map verified_transactions (default [] file) ++ blocks_of generated).
  { rewrite Hc, List.map_app, Htxs.
    rewrite (proj1 (proj2 (renumber_spec (default [] file) 0))). reflexivity. }
  split; [exact Hmap|]. split.
  - unfold ledger_transactions. rewrite Hmap, concat_app.
    unfold blocks_of. rewrite concat_chunks by apply le_n. reflexivity.
  - split; [exact Htxs | exact Hf].
Qed.

(** Arguments 2 and 4, no data file, the two clients drawn in turn: the
    ledger holds the four transactions generated, and nothing else. *)
Lemma dynamic_session_keeps_every_transaction_witness :
  exists st' : process,
    Dynamic.main demo_heap alternating 1 dynamic_argv (initial_process None)
      = Py.Ok st'
    /\ length alternating_pool = 4%nat
    /\ ledger_transactions st' = alternating_pool.
Proof.
  destruct (dynamic_session_keeps_every_transaction demo_heap alternating 1
              dynamic_argv 2 4 alternating_pool None demo_heap_injective eq_refl)
    as (new & st' & Hrun & _ & Hlen & _ & Htx & _).
  - split; vm_compute; reflexivity.
  - vm_compute. reflexivity.
  - exists st'. split; [exact Hrun|]. split; [exact Hlen | exact Htx].
Defined.

(** X2.  When the heights of the records of the data file count from 1 (no
    file, an empty file, or a file written by the program), a session of
    blockchainDynamicPersist.py whose arguments are read as ints and whose
    generation of transactions returns ends with the data file holding
    exactly the
    blocks of the ledger, as they are in the ledger, with heights that count
    from 1 again: [add_block] persisted every block it appended, after
    writing its height. *)
Theorem dynamic_session_file_in_step (P : Platform) (W : Dynamic.World)
  (fuel : nat) (argv : list string) (numClients numTransactions : Z)
  (generated : list Transaction) (file : option (list Block)) :
  injective_ids P -> check_cla argv = true ->
  parsed W argv numClients numTransactions ->
  Dynamic.generate W fuel (Dynamic.clients W numClients)
    (Z.to_nat numTransactions) 0 0 = Py.Ok generated ->
  numbered_records (default [] file) ->
  exists st' : process,
    Dynamic.main P W fuel argv (initial_process file) = Py.Ok st'
    /\ mirrored st'
    /\ numbered st'
    /\ counted st'
    /\ numbered_records (file_records st').
Proof.
  intros Hinj Hcla Hargs Hgen Hnum.
  destruct (dynamic_main_spec P W fuel argv numClients numTransactions
              generated file Hinj Hcla Hargs Hgen)
    as (new & st' & Hrun & _ & Hc & Hf & _ & _ & Hh & Hcl & Hlen).
  rewrite renumber_numbered in Hc by exact Hnum.
  assert (Hheights : List.map block_height (default [] file ++ new)
                     = List.map (fun i => Z.of_nat (S i))
                                (seq 0 (length (default [] file) + length new))).
  { rewrite List.map_app, seq_app, List.map_app, Hnum, Hh. f_equal.
    cbn [Nat.add]. rewrite (map_seq_offset (fun i => Z.of_nat (S i))).
    apply map_ext. intros i. lia. }
  exists st'. split; [exact Hrun|].
  split; [unfold mirrored; congruence|].
  split; [unfold numbered; rewrite Hc, Hlen; exact Hheights|].
  split; [unfold counted; rewrite Hcl, Hlen; lia|].
  unfold numbered_records. rewrite Hf, length_app. exact Hheights.
Qed.

(** A data file of six records numbered 1 to 6, and four new transactions. *)
Lemma dynamic_session_file_in_step_witness :
  exists st' : process,
    Dynamic.main demo_heap alternating 1 dynamic_argv
      (initial_process (Some six_records)) = Py.Ok st'
    /\ mirrored st'.
Proof.
  destruct (dynamic_session_file_in_step demo_heap alternating 1 dynamic_argv
              2 4 alternating_pool (Some six_records) demo_heap_injective eq_refl)
    as (st' & Hrun & Hm & _).
  - split; vm_compute; reflexivity.
  - vm_compute. reflexivity.
  - reflexivity.
  - exists st'. split; [exact Hrun | exact Hm].
Defined.

(** X3.  A process that starts on the data file left by another reads back
    one block per record, in file order, with the transactions, the
    [previous_block_hash] and the nonce of the record and with heights
    rewritten to count from 1; the file is not modified.  When the file was
    in step with the ledger of the process that left it, the new ledger has
    the same blocks, by value, as the old one. *)
Theorem restart_restores_ledger (P : Platform) (st : process) :
  injective_ids P ->
  contents (restart P st) = renumber 0 (file_records st)
  /\ chainLength (blockchain (restart P st))
     = Z.of_nat (length (file_records st))
  /\ length (chain (blockchain (restart P st))) = length (file_records st)
  /\ blockchain_data (restart P st) = blockchain_data st
  /\ (mirrored st -> numbered st -> contents (restart P st) = contents st).
Proof.
  intros Hinj. unfold restart.
  destruct (read_blockchain_contents P (initial_process (blockchain_data st)) Hinj
              (initial_well_allocated P _))
    as (_ & Hc & Hcl & Hlen & Hf & _).
  change (file_records (initial_process (blockchain_data st)))
    with (file_records st) in *.
  split; [exact Hc|]. split; [exact Hcl|]. split; [exact Hlen|].
  split; [exact Hf|].
  intros Hm Hn. rewrite Hc. cbn [app].
  unfold mirrored in Hm. rewrite Hm. apply renumber_numbered.
  unfold numbered in Hn. rewrite Hn. unfold contents. rewrite length_map.
  apply map_ext. intros i.
  change (chainLength (blockchain (initial_process (blockchain_data st)))) with 0.
  lia.
Qed.

(** A process that read six records and is restarted. *)
Lemma restart_restores_ledger_witness :
  contents (restart demo_heap (member_with 6)) = contents (member_with 6).
Proof.
  destruct (restart_restores_ledger demo_heap (member_with 6) demo_heap_injective)
    as (_ & _ & _ & _ & H).
  apply H; vm_compute; reflexivity.
Defined.

(** X15.  What the two arguments of blockchainDynamicPersist.py lead to.
    A second argument that [int] does not read ends the session in
    [ValueError], and so does a first one, once the second was read.  With
    a positive number of transactions, a number of clients of zero or less
    ends it in [IndexError], the list to choose from being empty, and a
    single client keeps it in the search for a recipient that differs from
    the sender, however many draws are made: the session does not return.
    With a number of transactions of zero or less nothing is generated or
    mined: the session returns with the ledger as the data file gave it and
    the file as it was.  The transactions of a generation that returns are
    as many as asked for, each between two different clients. *)
Theorem dynamic_arguments_decide_outcome (P : Platform) (W : Dynamic.World)
  (fuel : nat) (argv : list string) (file : option (list Block)) :
  check_cla argv = true ->
  let read := Py.int (Dynamic.max_str_digits W) in
  let session := Dynamic.main P W fuel argv (initial_process file) in
  (read (Dynamic.argument argv 2) = Py.Raise Py.ValueError ->
   session = Py.Raise Py.ValueError)
  /\ (forall n : Z,
        read (Dynamic.argument argv 2) = Py.Ok n ->
        read (Dynamic.argument argv 1) = Py.Raise Py.ValueError ->
        session = Py.Raise Py.ValueError)
  /\ (forall c n : Z,
        parsed W argv c n -> 0 < n -> c <= 0 ->
        session = Py.Raise Py.IndexError)
  /\ (forall n : Z,
        parsed W argv 1 n -> 0 < n -> session = Py.Diverge)
  /\ (forall c n : Z,
        parsed W argv c n -> n <= 0 -> injective_ids P ->
        exists st' : process,
          session = Py.Ok st'
          /\ contents st' = renumber 0 (default [] file)
          /\ file_records st' = default [] file
          /\ memPool st' = [])
  /\ (forall (c n : Z) (generated : list Transaction),
        Dynamic.generate W fuel (Dynamic.clients W c) (Z.to_nat n) 0 0
          = Py.Ok generated ->
        length generated = Z.to_nat n
        /\ Forall (fun tx => name (sender tx) <> name (recipient tx)) generated
        /\ (0 < n -> 2 <= c)).
Proof.
  intros Hcla read session. subst read session. unfold Dynamic.main.
  rewrite Hcla. split; [|split; [|split; [|split; [|split]]]].
  - intros ->. reflexivity.
  - intros n -> ->. reflexivity.
  - intros c n [-> ->] Hn Hc. cbn [mbind result_bind Py.bind].
    unfold Dynamic.clients. replace (Z.to_nat c) with 0%nat by lia.
    destruct (Z.to_nat n) as [|m] eqn:Hm; [lia|]. reflexivity.
  - intros n [-> ->] Hn. cbn [mbind result_bind Py.bind].
    destruct (Z.to_nat n) as [|m] eqn:Hm; [lia|].
    change (Dynamic.clients W 1)
      with [{| name := 0; identity := Dynamic.keypair W 0 |}].
    cbn [Dynamic.generate]. unfold Dynamic.choice at 1 2. cbn [length].
    rewrite !Nat.mod_1_r. cbn [nth mbind result_bind Py.bind].
    rewrite redraw_alone. reflexivity.
  - intros c n Hargs Hn Hinj.
    assert (Hgen : Dynamic.generate W fuel (Dynamic.clients W c) (Z.to_nat n) 0 0
                   = Py.Ok []).
    { replace (Z.to_nat n) with 0%nat by lia. reflexivity. }
    destruct (dynamic_main_spec P W fuel argv c n [] file Hinj Hcla Hargs Hgen)
      as (new & st' & Hrun & Hnil & Hc & Hf & Htxs & _).
    unfold Dynamic.main in Hrun. rewrite Hcla in Hrun.
    destruct new as [|b new]; [|discriminate Htxs].
    rewrite app_nil_r in Hc, Hf.
    exists st'. split; [exact Hrun|]. split; [exact Hc|].
    split; [exact Hf | exact Hnil].
  - intros c n generated Hgen.
    destruct (generate_spec W fuel _ _ _ _ _ Hgen) as [Hlen Hall].
    split; [exact Hlen|]. split.
    + eapply Forall_impl; [exact Hall|]. intros tx (_ & _ & Hne & _). exact Hne.
    + intros Hn. destruct generated as [|tx rest]; [cbn in Hlen; lia|].
      inversion Hall as [|? ? (Hs & Hr & Hne & _) _]; subst.
      unfold Dynamic.clients in Hs, Hr.
      apply in_map_iff in Hs as (x & Hsx & Hx), Hr as (y & Hry & Hy).
      apply in_seq in Hx, Hy. rewrite <- Hsx, <- Hry in Hne. cbn [name] in Hne.
      destruct (Z.to_nat c) as [|[|k]] eqn:Hk; lia.
Qed.

(** Arguments [1 5]: the session does not return; [0 5]: [IndexError];
    [abc xyz]: [ValueError]. *)
Lemma dynamic_arguments_decide_outcome_witness :
  Dynamic.main demo_heap alternating 7 ["blockchainDynamicPersist.py"; "1"; "5"]
    (initial_process None) = Py.Diverge
  /\ Dynamic.main demo_heap alternating 7 ["blockchainDynamicPersist.py"; "0"; "5"]
       (initial_process None) = Py.Raise Py.IndexError
  /\ Dynamic.main demo_heap alternating 7 ["blockchainDynamicPersist.py"; "abc"; "xyz"]
       (initial_process None) = Py.Raise Py.ValueError.
Proof.
  split; [|split].
  - destruct (dynamic_arguments_decide_outcome demo_heap alternating 7
                ["blockchainDynamicPersist.py"; "1"; "5"] None eq_refl)
      as (_ & _ & _ & H & _).
    apply (H 5); [split; vm_compute; reflexivity | lia].
  - destruct (dynamic_arguments_decide_outcome demo_heap alternating 7
                ["blockchainDynamicPersist.py"; "0"; "5"] None eq_refl)
      as (_ & _ & H & _).
    apply (H 0 5); [split; vm_compute; reflexivity | lia | lia].
  - destruct (dynamic_arguments_decide_outcome demo_heap alternating 7
                ["blockchainDynamicPersist.py"; "abc"; "xyz"] None eq_refl)
      as (H & _).
    apply H. vm_compute. reflexivity.
Defined.

(* ===================================================================== *)
(** ** The miner: first fit, and what it announces *)
(* ===================================================================== *)

Section FirstFit.

Context (T : MPI.transport) (P : Platform).

Lemma mine_for_first (message : addr) (prefix : string) :
  forall (n : nat) (i : Z),
    match Dynamic.mine_for P n message prefix i with
    | Py.Str s =>
        exists j : Z,
          i <= j < i + Z.of_nat n
          /\ s = tested_digest P message j
          /\ Py.startswith (tested_digest P message j) prefix = true
          /\ no_nonce P message prefix i j
    | Py.None_ => no_nonce P message prefix i (i + Z.of_nat n)
    | Py.Int _ => False
    end.
Proof.
  induction n as [|n IH]; intros i.
  - cbn [Dynamic.mine_for]. intros k Hk. lia.
  - cbn [Dynamic.mine_for]. fold (tested_digest P message i).
    destruct (Py.startswith (tested_digest P message i) prefix) eqn:Hp.
    + exists i. split; [lia|]. split; [reflexivity|]. split; [exact Hp|].
      intros k Hk. lia.
    + specialize (IH (i + 1)).
      destruct (Dynamic.mine_for P n message prefix (i + 1)) as [s|z|].
      * destruct IH as (j & Hj & Hs & Hgood & Hnone).
        exists j. split; [lia|]. split; [exact Hs|]. split; [exact Hgood|].
        intros k Hk. destruct (decide (k = i)) as [->|Hne]; [exact Hp|].
        apply Hnone. lia.
      * exact IH.
      * intros k Hk. destruct (decide (k = i)) as [->|Hne]; [exact Hp|].
        apply IH. lia.
Qed.

Lemma clock_ticks (n : nat) (st : process) :
  clock (ticks n st) = (clock st + n)%nat.
Proof.
  induction n as [|n IH].
  - change (ticks 0 st) with st. lia.
  - change (ticks (S n) st) with (tick (ticks n st)). fields. rewrite IH. lia.
Qed.

Lemma ticks_succ (n : nat) (st : process) :
  ticks (S n) st = ticks n (tick st).
Proof.
  induction n as [|n IH]; [reflexivity|].
  change (ticks (S (S n)) st) with (tick (ticks (S n) st)).
  rewrite IH. reflexivity.
Qed.

(** The loop of the group miner finds the first successful counter value,
    as long as no announcement arrives before. *)
Lemma mine_loop_local_exact (message : addr) (prefix : string) :
  forall (j fuel : nat) (i : Z) (st : process),
    (j < fuel)%nat ->
    (forall k : nat, (k <= j)%nat -> MPI.arrival T (clock st + k)%nat = None) ->
    no_nonce P message prefix i (i + Z.of_nat j) ->
    Py.startswith (tested_digest P message (i + Z.of_nat j)) prefix = true ->
    MPI.mine_loop T P fuel message prefix i st
    = Py.Ok (Py.Str (tested_digest P message (i + Z.of_nat j)), true,
             emit (MPI.send_to_others T NONCE_TAG
                     (DigestMsg (Py.Str (tested_digest P message (i + Z.of_nat j)))))
                  (ticks (S j) st)).
Proof.
  induction j as [|j IH]; intros fuel i st Hfuel Hquiet Hnone Hgood;
    (destruct fuel as [|fuel]; [lia|]); cbn [MPI.mine_loop];
    rewrite <- (Nat.add_0_r (clock st)), (Hquiet 0%nat) by lia;
    fold (tested_digest P message i).
  - replace (i + Z.of_nat 0) with i in * by lia. rewrite Hgood. reflexivity.
  - rewrite (Hnone i) by lia.
    rewrite (IH fuel (i + 1) (tick st)).
    + replace (i + 1 + Z.of_nat j) with (i + Z.of_nat (S j)) by lia.
      rewrite <- ticks_succ. reflexivity.
    + lia.
    + intros k Hk. fields. replace (S (clock st) + k)%nat with (clock st + S k)%nat by lia.
      apply Hquiet. lia.
    + intros k Hk. apply Hnone. lia.
    + replace (i + 1 + Z.of_nat j) with (i + Z.of_nat (S j)) by lia. exact Hgood.
Qed.

(** The loop hands back the first announcement that arrives before a
    counter value succeeds. *)
Lemma mine_loop_remote_exact (message : addr) (prefix : string) :
  forall (j fuel : nat) (i : Z) (st : process) (v : Py.value),
    (j < fuel)%nat ->
    (forall k : nat, (k < j)%nat -> MPI.arrival T (clock st + k)%nat = None) ->
    MPI.arrival T (clock st + j)%nat = Some v ->
    no_nonce P message prefix i (i + Z.of_nat j) ->
    MPI.mine_loop T P fuel message prefix i st
    = Py.Ok (v, false, emit [Recv None] (ticks (S j) st)).
Proof.
  induction j as [|j IH]; intros fuel i st v Hfuel Hquiet Hv Hnone;
    (destruct fuel as [|fuel]; [lia|]); cbn [MPI.mine_loop].
  - rewrite Nat.add_0_r in Hv. rewrite Hv. reflexivity.
  - rewrite <- (Nat.add_0_r (clock st)), (Hquiet 0%nat) by lia.
    fold (tested_digest P message i). rewrite (Hnone i) by lia.
    rewrite (IH fuel (i + 1) (tick st) v).
    + rewrite <- ticks_succ. reflexivity.
    + lia.
    + intros k Hk. fields. replace (S (clock st) + k)%nat with (clock st + S k)%nat by lia.
      apply Hquiet. lia.
    + fields. replace (S (clock st) + j)%nat with (clock st + S j)%nat by lia. exact Hv.
    + intros k Hk. apply Hnone. lia.
Qed.

Lemma filter_others_length (r : nat) : forall (n s : nat),
  length (List.filter (fun j => negb (Nat.eqb j r)) (seq s n))
  = if decide (s <= r < s + n)%nat then (n - 1)%nat else n.
Proof.
  induction n as [|n IH]; intros s.
  - cbn. destruct (decide _); lia.
  - cbn [seq List.filter]. destruct (Nat.eqb_spec s r) as [->|Hne]; cbn [negb].
    + rewrite IH. repeat destruct (decide _); lia.
    + cbn [length]. rewrite IH. repeat destruct (decide _); lia.
Qed.

End FirstFit.

(** X4.  For a difficulty [d >= 1], [Miner.mine] of the single-node programs
    answers with the digest of the first counter value, in the order
    0, 1, 2, ... below 10000, whose digest starts with [d] zeros, and
    with [None] exactly when no counter value below 10000 does. *)
Theorem single_node_miner_first_fit (P : Platform) (message : addr) (d : Z) :
  1 <= d ->
  let prefix := Py.repeat_str "0" d in
  (forall j : Z,
     0 <= j < 10000 ->
     Py.startswith (tested_digest P message j) prefix = true ->
     no_nonce P message prefix 0 j ->
     Dynamic.mine P message d = Py.Ok (Py.Str (tested_digest P message j)))
  /\ (no_nonce P message prefix 0 10000 <->
      Dynamic.mine P message d = Py.Ok Py.None_).
Proof.
  intros Hd prefix. unfold Dynamic.mine.
  assert (Hb : (d >=? 1) = true) by lia. rewrite Hb. fold prefix.
  pose proof (mine_for_first P message prefix (Z.to_nat 10000) 0) as Hfirst.
  replace (0 + Z.of_nat (Z.to_nat 10000)) with 10000 in Hfirst by lia.
  destruct (Dynamic.mine_for P (Z.to_nat 10000) message prefix 0) as [s|z|];
    [| destruct Hfirst |].
  - destruct Hfirst as (j0 & Hj0 & -> & Hgood0 & Hnone0). split.
    + intros j Hj Hgood Hnone. do 2 f_equal.
      destruct (Z.lt_trichotomy j j0) as [Hlt | [-> | Hgt]]; [|reflexivity|].
      * rewrite Hnone0 in Hgood by lia. discriminate.
      * rewrite Hnone in Hgood0 by lia. discriminate.
    + split; [|discriminate].
      intros Hnone. rewrite Hnone in Hgood0 by lia. discriminate.
  - split.
    + intros j Hj Hgood _. rewrite Hfirst in Hgood by lia. discriminate.
    + split; [reflexivity | intros _; exact Hfirst].
Qed.

(** The first candidate of the demonstration heap at difficulty 2: counter
    value 0 succeeds at once. *)
Lemma single_node_miner_first_fit_witness :
  Dynamic.mine demo_heap (new_id demo_heap 0) 2
  = Py.Ok (Py.Str (tested_digest demo_heap (new_id demo_heap 0) 0)).
Proof.
  destruct (single_node_miner_first_fit demo_heap (new_id demo_heap 0) 2
              ltac:(lia)) as [H _].
  apply H; [lia | vm_compute; reflexivity | intros k Hk; lia].
Defined.

(** X5.  [Miner.mine] of the group program, for a difficulty [d >= 1] and
    enough turns.  When no announcement arrives during the first [j + 1]
    turns and [j] is the first counter value whose digest starts with [d]
    zeros, the member returns that digest with [foundLocal] true after
    exactly [j + 1] turns and announces it: one [NONCE_TAG] message carrying
    the digest to every other rank of the group, in rank order, none to
    itself.  When an announcement arrives at turn [j], before any counter
    value succeeded, the member returns the announced value with
    [foundLocal] false, and sends nothing. *)
Theorem group_miner_first_fit (T : MPI.transport) (P : Platform)
  (fuel : nat) (message : addr) (d : Z) (st : process) (j : nat) :
  1 <= d -> (j < fuel)%nat ->
  let prefix := Py.repeat_str "0" d in
  no_nonce P message prefix 0 (Z.of_nat j) ->
  (forall k : nat, (k < j)%nat -> MPI.arrival T (clock st + k)%nat = None) ->
  (MPI.arrival T (clock st + j)%nat = None ->
   Py.startswith (tested_digest P message (Z.of_nat j)) prefix = true ->
   exists st' : process,
     MPI.mine T P fuel message d st
       = Py.Ok (Py.Str (tested_digest P message (Z.of_nat j)), true, st')
     /\ clock st' = (clock st + S j)%nat
     /\ trace st'
        = trace st
          ++ List.map (fun r => Send r NONCE_TAG
                          (DigestMsg (Py.Str (tested_digest P message (Z.of_nat j)))))
               (List.filter (fun r => negb (Nat.eqb r (MPI.subcommRank T)))
                            (seq 0 (MPI.subcommSize T)))
     /\ (forall (r : nat) (tag : Z) (msg : payload),
           In (Send r tag msg) (skipn (length (trace st)) (trace st')) ->
           r <> MPI.subcommRank T /\ (r < MPI.subcommSize T)%nat)
     /\ ((MPI.subcommRank T < MPI.subcommSize T)%nat ->
         length (trace st') = (length (trace st) + (MPI.subcommSize T - 1))%nat))
  /\ (forall v : Py.value,
        MPI.arrival T (clock st + j)%nat = Some v ->
        exists st' : process,
          MPI.mine T P fuel message d st = Py.Ok (v, false, st')
          /\ clock st' = (clock st + S j)%nat
          /\ trace st' = trace st ++ [Recv None]).
Proof.
  intros Hd Hfuel prefix Hnone Hquiet. unfold MPI.mine.
  assert (Hb : (d >=? 1) = true) by lia. rewrite Hb. fold prefix. split.
  - intros Hj Hgood.
    eexists. split.
    + apply (mine_loop_local_exact T P message prefix j fuel 0 st Hfuel).
      * intros k Hk. destruct (decide (k = j)) as [->|Hne]; [exact Hj|].
        apply Hquiet. lia.
      * exact Hnone.
      * exact Hgood.
    + fields. rewrite clock_ticks.
      assert (Htr : forall n s, trace (ticks n s) = trace s).
      { induction n as [|n IHn]; intros s; [reflexivity|].
        change (ticks (S n) s) with (tick (ticks n s)). fields. apply IHn. }
      rewrite Htr. unfold MPI.send_to_others. cbn [Z.add].
      split; [reflexivity|]. split; [reflexivity|]. split.
      * intros r tag msg Hin. rewrite skipn_app, Nat.sub_diag in Hin.
        rewrite skipn_all in Hin. cbn [app skipn] in Hin.
        apply in_map_iff in Hin as (r' & Heq & Hr'). injection Heq as -> _ _.
        apply filter_In in Hr' as [Hseq Hne]. apply in_seq in Hseq.
        apply negb_true_iff, Nat.eqb_neq in Hne. split; [exact Hne | lia].
      * intros Hrank. rewrite length_app, length_map, filter_others_length.
        destruct (decide _); lia.
  - intros v Hv. eexists. split.
    + apply (mine_loop_remote_exact T P message prefix j fuel 0 st v Hfuel Hquiet Hv).
      exact Hnone.
    + fields. rewrite clock_ticks.
      assert (Htr : forall n s, trace (ticks n s) = trace s).
      { induction n as [|n IHn]; intros s; [reflexivity|].
        change (ticks (S n) s) with (tick (ticks n s)). fields. apply IHn. }
      rewrite Htr. split; reflexivity.
Qed.

(** The first candidate of the demonstration heap, mined alone at
    difficulty 5: counter value 0 fails, counter value 1 succeeds. *)
Lemma group_miner_first_fit_witness :
  exists st' : process,
    MPI.mine solo demo_heap 10 (new_id demo_heap 0) 5 (initial_process None)
    = Py.Ok (Py.Str (tested_digest demo_heap (new_id demo_heap 0) 1), true, st')
    /\ clock st' = 2%nat.
Proof.
  destruct (group_miner_first_fit solo demo_heap 10 (new_id demo_heap 0) 5
              (initial_process None) 1 ltac:(lia) ltac:(lia)) as [H _].
  - intros k Hk. assert (k = 0) as -> by lia. vm_compute. reflexivity.
  - intros k Hk. reflexivity.
  - destruct (H eq_refl ltac:(vm_compute; reflexivity)) as (st' & Hrun & Hclock & _).
    exists st'. split; [exact Hrun | exact Hclock].
Defined.

(* ===================================================================== *)
(** ** Menu choice 3 of basicBlockchain.py *)
(* ===================================================================== *)

Section BasicMining.

Context (P : Platform).

(** The filling loop on a block that carries a previous hash. *)
Lemma mine_block_exact (st : process) :
  1 <= difficulty (blockchain st) ->
  exists (digest : Py.value) (st' : process),
    Basic.mine_block P st = Py.Ok st'
    /\ let a := new_id P (created st) in
       let b := {| verified_transactions := firstn 3 (memPool st);
                   previous_block_hash := latest_block_hash (blockchain st);
                   nonce := digest;
                   block_height := chainLength (blockchain st) + 1 |} in
       objects st' = <[a := b]> (objects st)
       /\ created st' = S (created st)
       /\ memPool st' = skipn 3 (memPool st)
       /\ blockchain st'
          = {| latest_block_hash := Py.Int (object_hash P a);
               chainLength := chainLength (blockchain st) + 1;
               chain := chain (blockchain st) ++ [a];
               difficulty := difficulty (blockchain st) |}
       /\ blockchain_data st' = Some (file_records st ++ [b]).
Proof.
  intros Hd. unfold Basic.mine_block.
  destruct (allocate P new_block st) as [a st1] eqn:Ha.
  pose proof (prepare_spec P st) as Hp. rewrite Ha in Hp.
  unfold allocate in Ha. injection Ha as Ha _. rewrite Ha in Hp.
  cbn [snd] in Hp. rewrite Hp. cbn [mbind result_bind Py.bind].
  unfold Basic.mine, Dynamic.mine. fields.
  assert (Hb : (difficulty (blockchain st) >=? 1) = true) by lia. rewrite Hb.
  cbn [mbind result_bind Py.bind mret result_ret].
  set (digest := Dynamic.mine_for _ _ _ _ _).
  exists digest. eexists. split; [reflexivity|].
  cbv zeta. fields. unfold BlockchainOps.get_last_hash. fields.
  rewrite Ha, !alter_insert_eq.
  destruct (quota_firstn st) as [-> ->].
  unfold deref, file_records. rewrite lookup_insert_eq.
  repeat split.
Qed.

Lemma last_lookup_pred (l : list addr) (a : addr) :
  last l = Some a -> l !! Nat.pred (length l) = Some a.
Proof. intros H. rewrite <- last_lookup. exact H. Qed.

End BasicMining.

(** X6.  Menu choice 3 of basicBlockchain.py keeps the ledger chained.  On a
    ledger that is chained (as the fresh ledger is) the choice always
    returns; it appends one block that holds the first three transactions of
    the pool (fewer when the pool holds fewer, none when it is empty) and the
    hash of the previous last block; the ledger is chained again, and
    [verify_chain] answers true on it. *)
Theorem basic_mine_block_keeps_chain (P : Platform) :
  injective_ids P ->
  (forall (file : option (list Block)) (pool : list Transaction),
     chained P (with_memPool pool (initial_process file)))
  /\ forall st : process,
       chained P st ->
       exists st' : process,
         Basic.mine_block P st = Py.Ok st'
         /\ chained P st'
         /\ BlockchainOps.verify_chain P st' = Py.Ok true
         /\ chainLength (blockchain st') = chainLength (blockchain st) + 1
         /\ memPool st' = skipn 3 (memPool st)
         /\ ledger_transactions st'
            = ledger_transactions st ++ firstn 3 (memPool st).
Proof.
  intros Hinj. split.
  - intros file pool. split; [reflexivity|]. split; [reflexivity|].
    split; [intros i a b Ha; discriminate|].
    split; [apply (initial_well_allocated P file) | cbn; lia].
  - intros st (Hc & Hlast & Hlinked & Hwa & Hd).
    destruct (mine_block_exact P st Hd)
      as (digest & st' & Hrun & Hobj & Hcr & Hpool & Hbc & Hfile).
    cbv zeta in *.
    set (a := new_id P (created st)) in *.
    set (b := {| verified_transactions := firstn 3 (memPool st);
                 previous_block_hash := latest_block_hash (blockchain st);
                 nonce := digest;
                 block_height := chainLength (blockchain st) + 1 |}) in *.
    assert (Hfresh : ~ In a (chain (blockchain st)))
      by (apply next_id_not_in_chain; assumption).
    assert (Hc' : counted st').
    { unfold counted in *. rewrite Hbc. cbn [chainLength chain].
      rewrite length_app. cbn [length]. lia. }
    assert (Hlinked' : linked P st').
    { intros i x y Hx Hy. rewrite Hbc in Hx, Hy. cbn [chain] in Hx, Hy.
      rewrite Hobj.
      destruct (decide (S i < length (chain (blockchain st)))%nat) as [Hin|Hout].
      - rewrite lookup_app_l in Hx, Hy by lia.
        rewrite deref_insert_ne.
        + apply (Hlinked i x y Hx Hy).
        + intros ->. apply Hfresh. apply list_elem_of_In.
          eapply list_elem_of_lookup_2. exact Hy.
      - assert (S i = length (chain (blockchain st))) as Hi.
        { apply lookup_lt_Some in Hy. rewrite length_app in Hy. cbn in Hy. lia. }
        rewrite lookup_app_r in Hy by lia. rewrite Hi, Nat.sub_diag in Hy.
        injection Hy as <-. rewrite deref_insert_eq. cbn [previous_block_hash b].
        rewrite lookup_app_l in Hx by lia.
        rewrite Hlast.
        assert (Hl : last (chain (blockchain st)) = Some x).
        { rewrite last_lookup, <- Hi. exact Hx. }
        rewrite Hl. reflexivity. }
    exists st'. split; [exact Hrun|].
    split.
    { split; [exact Hc'|]. split.
      - rewrite Hbc. cbn [latest_block_hash chain]. rewrite last_snoc. reflexivity.
      - split; [exact Hlinked'|]. split.
        + eapply well_allocated_insert; eauto. left. rewrite Hbc. reflexivity.
        + rewrite Hbc. exact Hd. }
    split.
    { unfold BlockchainOps.verify_chain.
      apply (verify_pairs_spec P (objects st') (chain (blockchain st'))
               (Z.to_nat (chainLength (blockchain st') - 1)) 0).
      - unfold counted in Hc'. lia.
      - intros i x y _ Hx Hy. apply (Hlinked' i x y Hx Hy). }
    split; [rewrite Hbc; reflexivity|]. split; [exact Hpool|].
    unfold ledger_transactions, contents. rewrite Hbc, Hobj. cbn [chain].
    rewrite !List.map_app, concat_app. cbn [List.map concat].
    rewrite deref_insert_eq, app_nil_r.
    rewrite map_deref_insert_fresh by exact Hfresh. reflexivity.
Qed.

(** Two blocks mined from a pool of four transactions. *)
Lemma basic_mine_block_keeps_chain_witness :
  exists st1 st2 : process,
    Basic.mine_block demo_heap
      (with_memPool (demo_pool 4) (initial_process None)) = Py.Ok st1
    /\ Basic.mine_block demo_heap st1 = Py.Ok st2
    /\ BlockchainOps.verify_chain demo_heap st2 = Py.Ok true
    /\ chainLength (blockchain st2) = 2.
Proof.
  destruct (basic_mine_block_keeps_chain demo_heap demo_heap_injective)
    as [Hinit Hstep].
  destruct (Hstep _ (Hinit None (demo_pool 4)))
    as (st1 & Hrun1 & Hch1 & _ & Hcl1 & _).
  destruct (Hstep st1 Hch1) as (st2 & Hrun2 & _ & Hv & Hcl2 & _).
  exists st1, st2. split; [exact Hrun1|]. split; [exact Hrun2|].
  split; [exact Hv|]. rewrite Hcl2, Hcl1. reflexivity.
Defined.

(* ===================================================================== *)
(** ** Reconciliation, member by member *)
(* ===================================================================== *)

Section ReconciliationOutcome.

Lemma needSync_behind (rank : nat) (len : Z) (l : list Z) :
  l !! rank = Some len ->
  MPI.needSync rank len l = existsb (fun x => len <? x) l.
Proof.
  intros Hrank. destruct (existsb (fun x => len <? x) l) eqn:Hex.
  - apply existsb_exists in Hex as (x & Hin & Hlt).
    apply (needSync_true rank len x l Hrank Hin). lia.
  - apply needSync_false. apply List.Forall_forall. intros x Hin.
    destruct (Z.ltb_spec len x) as [Hlt|Hge]; [|exact Hge].
    assert (Htrue : existsb (fun x => len <? x) l = true).
    { apply existsb_exists. exists x. split; [exact Hin | lia]. }
    congruence.
Qed.

Lemma group_needSync (group : list process) (r : nat) (st : process) :
  group !! r = Some st ->
  MPI.needSync r (chainLength (blockchain st)) (MPI.group_lengths group)
  = behind st group.
Proof.
  intros Hr. rewrite needSync_behind.
  - unfold behind, MPI.group_lengths, BlockchainOps.get_chain_length.
    induction group as [|s rest IH] in |- *; [reflexivity|].
    cbn [List.map existsb]. f_equal. exact IH.
  - unfold MPI.group_lengths. change (@List.map) with (@fmap list _).
    rewrite list_lookup_fmap, Hr. reflexivity.
Qed.

(** What the protocol hands to member [r]: the ledger of rank 0 when the
    member is behind, nothing otherwise. *)
Lemma group_delivery (authority : process) (others : list process)
  (r : nat) (st : process) :
  (authority :: others) !! r = Some st ->
  MPI.posted_for r (MPI.group_posted (authority :: others))
  = if behind st (authority :: others)
    then Some (MPI.pickle_ledger authority) else None.
Proof.
  intros Hr. unfold MPI.group_posted.
  rewrite posted_for_serve by lia. rewrite Nat.sub_0_r.
  unfold MPI.group_flags. rewrite list_lookup_imap, Hr.
  cbn [fmap option_fmap option_map].
  unfold BlockchainOps.get_chain_length. rewrite (group_needSync _ r st Hr).
  destruct (behind st (authority :: others)); reflexivity.
Qed.

Lemma serve_idle (ledger : pickled_ledger) : forall (flags : list bool) (i : nat),
  Forall (fun f => f = false) flags -> MPI.serve i flags ledger = [].
Proof.
  induction flags as [|f rest IH]; intros i Hall; [reflexivity|].
  inversion Hall as [|? ? Hf Hrest]; subst. cbn [MPI.serve app]. apply IH. exact Hrest.
Qed.

Lemma deref_list_to_map (f : addr -> Block) (l : list addr) (a : addr) :
  In a l ->
  deref (list_to_map (List.map (fun x => (x, f x)) l)) a = f a.
Proof.
  induction l as [|x rest IH]; intros Hin; [destruct Hin|].
  cbn [List.map list_to_map foldr]. rewrite deref_insert. cbn [fst snd].
  destruct (decide (x = a)) as [->|Hne]; [reflexivity|].
  apply IH. destruct Hin as [Heq|Hin]; [contradiction | exact Hin].
Qed.

(** Unpickling: one new object per object of the sender, with the same
    attributes; the objects that the process had are left as they were. *)
Lemma rebuild_contents (P : Platform) (src : gmap addr Block) :
  injective_ids P ->
  forall (refs : list addr) (memo : gmap addr addr) (st : process),
    (forall n : nat, (created st <= n)%nat -> objects st !! new_id P n = None) ->
    (forall a a' : addr,
       memo !! a = Some a' ->
       exists k : nat,
         (k < created st)%nat /\ a' = new_id P k
         /\ deref (objects st) a' = deref src a) ->
    let l := fst (MPI.rebuild P src refs memo st) in
    let st' := snd (MPI.rebuild P src refs memo st) in
    List.map (deref (objects st')) l = List.map (deref src) refs
    /\ (created st <= created st')%nat
    /\ (forall n : nat, (created st' <= n)%nat -> objects st' !! new_id P n = None)
    /\ (forall k : nat,
          (k < created st)%nat ->
          objects st' !! new_id P k = objects st !! new_id P k)
    /\ (forall a : addr,
          In a l -> exists k : nat, (k < created st')%nat /\ a = new_id P k)
    /\ memPool st' = memPool st
    /\ trace st' = trace st.
Proof.
  intros Hinj. induction refs as [|a rest IH]; intros memo st Hfree Hmemo.
  - cbn [MPI.rebuild fst snd List.map]. repeat split; try lia; auto.
    intros a [].
  - cbn [MPI.rebuild]. destruct (memo !! a) as [a'|] eqn:Hma.
    + specialize (IH memo st Hfree Hmemo).
      destruct (MPI.rebuild P src rest memo st) as [l st'] eqn:Hr.
      cbn [fst snd] in *.
      destruct IH as (Hmap & Hcr & Hfree' & Hframe & Hown & Hpool & Htr).
      destruct (Hmemo a a' Hma) as (k & Hk & -> & Hval).
      split.
      { cbn [List.map]. rewrite Hmap. f_equal.
        unfold deref in *. rewrite (Hframe k Hk). exact Hval. }
      split; [exact Hcr|]. split; [exact Hfree'|]. split; [exact Hframe|].
      split; [|split; assumption].
      intros x [<-|Hx]; [exists k; split; [lia | reflexivity] | apply Hown; exact Hx].
    + unfold allocate.
      set (st1 := with_created (S (created st))
                    (with_objects (<[new_id P (created st) := deref src a]>
                                     (objects st)) st)).
      assert (Hcr1 : created st1 = S (created st)) by reflexivity.
      assert (Hobj1 : objects st1
                      = <[new_id P (created st) := deref src a]> (objects st))
        by reflexivity.
      assert (Hfree1 : forall n : nat, (created st1 <= n)%nat ->
                                       objects st1 !! new_id P n = None).
      { intros n Hn. rewrite Hcr1 in Hn. rewrite Hobj1, lookup_insert_ne.
        - apply Hfree. lia.
        - intros Heq. apply Hinj in Heq. lia. }
      assert (Hmemo1 : forall x x' : addr,
                 <[a := new_id P (created st)]> memo !! x = Some x' ->
                 exists k : nat,
                   (k < created st1)%nat /\ x' = new_id P k
                   /\ deref (objects st1) x' = deref src x).
      { intros x x' Hx. rewrite Hcr1, Hobj1.
        destruct (decide (a = x)) as [->|Hne].
        - rewrite lookup_insert_eq in Hx. injection Hx as <-.
          exists (created st). split; [lia|]. split; [reflexivity|].
          apply deref_insert_eq.
        - rewrite lookup_insert_ne in Hx by exact Hne.
          destruct (Hmemo x x' Hx) as (k & Hk & -> & Hval).
          exists k. split; [lia|]. split; [reflexivity|].
          rewrite deref_insert_ne; [exact Hval|].
          intros Heq. apply Hinj in Heq. lia. }
      specialize (IH (<[a := new_id P (created st)]> memo) st1 Hfree1 Hmemo1).
      destruct (MPI.rebuild P src rest (<[a := new_id P (created st)]> memo) st1)
        as [l st'] eqn:Hr.
      cbn [fst snd] in *.
      destruct IH as (Hmap & Hcr & Hfree' & Hframe & Hown & Hpool & Htr).
      split.
      { cbn [List.map]. rewrite Hmap. f_equal.
        unfold deref. rewrite (Hframe (created st)) by lia.
        rewrite Hobj1, lookup_insert_eq. reflexivity. }
      split; [lia|]. split; [exact Hfree'|].
      split.
      { intros k Hk. rewrite Hframe by lia. rewrite Hobj1.
        apply lookup_insert_ne. intros Heq. apply Hinj in Heq. lia. }
      split; [|split; [rewrite Hpool | rewrite Htr]; reflexivity].
      intros x [<-|Hx]; [exists (created st); split; [lia | reflexivity] | apply Hown; exact Hx].
Qed.

(** The ledger that a member adopts has the blocks of the sender, by
    value, and its first fields. *)
Lemma adopt_contents (P : Platform) (sender st : process) :
  injective_ids P ->
  (forall n : nat, (created st <= n)%nat -> objects st !! new_id P n = None) ->
  let st' := MPI.adopt P (MPI.pickle_ledger sender) st in
  contents st' = contents sender
  /\ well_allocated P st'
  /\ memPool st' = memPool st
  /\ trace st' = trace st.
Proof.
  intros Hinj Hfree. unfold MPI.adopt, MPI.pickle_ledger.
  cbn [ledger_root ledger_blocks].
  pose proof (rebuild_contents P
                (list_to_map (List.map (fun a => (a, deref (objects sender) a))
                                       (chain (blockchain sender))))
                Hinj (chain (blockchain sender)) ∅ st Hfree) as Hreb.
  destruct (MPI.rebuild P _ (chain (blockchain sender)) ∅ st) as [l st1] eqn:Hr.
  cbn [fst snd] in Hreb.
  destruct Hreb as (Hmap & Hcr & Hfree' & Hframe & Hown & Hpool & Htr).
  { intros a a' Ha. rewrite lookup_empty in Ha. discriminate. }
  unfold contents. fields. split.
  - rewrite Hmap. apply map_ext_in. intros a Hin.
    apply (deref_list_to_map (deref (objects sender))). exact Hin.
  - split; [split; [exact Hfree' | exact Hown]|]. split; assumption.
Qed.

(** Rank 0 is held in the send to itself exactly when it is behind some
    member and the library does not buffer. *)
Lemma group_held (eager : bool) (authority : process) (others : list process) :
  MPI.held_by_own_send eager (MPI.group_flags (authority :: others))
  = negb eager && behind authority (authority :: others).
Proof.
  unfold MPI.held_by_own_send. f_equal.
  unfold MPI.group_flags. rewrite list_lookup_imap.
  cbn [lookup list_lookup fmap option_fmap option_map default].
  apply (group_needSync (authority :: others) 0 authority). reflexivity.
Qed.

(** The outcome for one member of a group whose rank 0 is not held. *)
Lemma member_enters (P : nat -> Platform) (eager : bool)
  (authority : process) (others : list process) (r : nat) (st : process) :
  negb eager && behind authority (authority :: others) = false ->
  (authority :: others) !! r = Some st ->
  MPI.ledger_arrival (MPI.group_io eager (authority :: others) r)
  = (if behind st (authority :: others)
     then Some (MPI.pickle_ledger authority) else None)
  /\ exists st' : process,
       MPI.synchronize_ledgers (P r) r
         (MPI.group_io eager (authority :: others) r) st = Py.Ok st'
       /\ if behind st (authority :: others)
          then chainLength (blockchain st') = chainLength (blockchain authority)
               /\ latest_block_hash (blockchain st')
                  = latest_block_hash (blockchain authority)
               /\ length (chain (blockchain st'))
                  = length (chain (blockchain authority))
          else blockchain st' = blockchain st /\ objects st' = objects st.
Proof.
  intros Hfree Hr. rewrite <- group_held in Hfree.
  set (group := authority :: others) in *.
  assert (Harr : MPI.ledger_arrival (MPI.group_io eager group r)
                 = if behind st group
                   then Some (MPI.pickle_ledger authority) else None).
  { unfold MPI.group_io. cbn [MPI.ledger_arrival]. rewrite Hfree.
    subst group. apply group_delivery. exact Hr. }
  split; [exact Harr|].
  destruct (synchronize_ledgers_spec (P r) r (MPI.group_io eager group r)
              (MPI.pickle_ledger authority) st) as (st' & Hrun & Hres).
  - exact Hfree.
  - rewrite Harr. cbn [MPI.group_io MPI.ledgerLengths].
    rewrite (group_needSync group r st Hr). reflexivity.
  - exists st'. split; [exact Hrun|].
    cbn [MPI.group_io MPI.ledgerLengths] in Hres.
    rewrite (group_needSync group r st Hr) in Hres. exact Hres.
Qed.

(** When rank 0 is not held every member enters the barrier, which lets
    all of them through. *)
Lemma synchronize_group_free (P : nat -> Platform) (eager : bool)
  (authority : process) (others : list process) :
  negb eager && behind authority (authority :: others) = false ->
  MPI.synchronize_group P eager (authority :: others)
  = imap (fun r st =>
            MPI.synchronize_ledgers (P r) r
              (MPI.group_io eager (authority :: others) r) st)
         (authority :: others).
Proof.
  intros Hfree. unfold MPI.synchronize_group, MPI.group_barrier.
  replace (forallb MPI.entered _) with true; [reflexivity|].
  symmetry. apply forallb_forall. intros o Ho.
  apply list_elem_of_In, list_elem_of_lookup_1 in Ho as (r & Hr).
  rewrite list_lookup_imap in Hr.
  destruct ((authority :: others) !! r) as [st|] eqn:Hst; [|discriminate].
  cbn [fmap option_fmap option_map] in Hr. injection Hr as <-.
  destruct (member_enters P eager authority others r st Hfree Hst)
    as (_ & st' & Hrun & _).
  rewrite Hrun. reflexivity.
Qed.

(** When rank 0 is held nobody gets through the protocol. *)
Lemma synchronize_group_held (P : nat -> Platform) (eager : bool)
  (authority : process) (others : list process) (r : nat) (st : process) :
  negb eager && behind authority (authority :: others) = true ->
  (authority :: others) !! r = Some st ->
  MPI.synchronize_group P eager (authority :: others) !! r = Some Py.Stall.
Proof.
  intros Hheld Hr. rewrite <- group_held in Hheld.
  unfold MPI.synchronize_group, MPI.group_barrier.
  set (group := authority :: others) in *.
  set (outcomes := imap _ group).
  assert (Hfirst : outcomes !! 0%nat = Some Py.Stall).
  { subst outcomes. rewrite list_lookup_imap. subst group.
    cbn [lookup list_lookup fmap option_fmap option_map].
    unfold MPI.synchronize_ledgers. cbn [Nat.eqb MPI.group_io MPI.eager MPI.syncList].
    rewrite Hheld. reflexivity. }
  assert (Hnot : forallb MPI.entered outcomes = false).
  { destruct (forallb MPI.entered outcomes) eqn:Hall; [|reflexivity].
    rewrite forallb_forall in Hall.
    specialize (Hall Py.Stall).
    discriminate Hall.
    apply list_elem_of_In. eapply list_elem_of_lookup_2. exact Hfirst. }
  rewrite Hnot. change (@List.map) with (@fmap list _).
  rewrite list_lookup_fmap. subst outcomes. rewrite list_lookup_imap, Hr.
  cbn [fmap option_fmap option_map]. f_equal.
  destruct (synchronize_ledgers_outcome (P r) r (MPI.group_io eager group r) st)
    as [(st' & ->) | ->]; reflexivity.
Qed.

End ReconciliationOutcome.

(** X7.  [synchronize_ledgers] run by a whole group, whatever the lengths
    are.  When rank 0 is itself behind some member, its loop starts with a
    send to itself that comes before its receive: unless the library
    buffers the message, rank 0 stays in that call, serves nobody, and no
    member of the group comes out of the protocol.  In every other case
    the protocol completes for each member.  A member that holds a ledger
    of maximum length keeps its ledger and its objects.  Every other member
    ends with the ledger of rank 0: its length, its last hash and as many
    blocks, also when rank 0 is not the longest, so that a member longer
    than rank 0 but shorter than the maximum ends with a shorter ledger
    than it had. *)
Theorem reconciliation_member_outcome (P : nat -> Platform) (eager : bool)
  (authority : process) (others : list process) (r : nat) (st : process) :
  (authority :: others) !! r = Some st ->
  (eager = false -> behind authority (authority :: others) = true ->
   MPI.synchronize_group P eager (authority :: others) !! r = Some Py.Stall)
  /\ (eager = true \/ behind authority (authority :: others) = false ->
      exists st' : process,
        MPI.synchronize_group P eager (authority :: others) !! r
        = Some (Py.Ok st')
        /\ (behind st (authority :: others) = false ->
            blockchain st' = blockchain st /\ objects st' = objects st)
        /\ (behind st (authority :: others) = true ->
            chainLength (blockchain st') = chainLength (blockchain authority)
            /\ latest_block_hash (blockchain st')
               = latest_block_hash (blockchain authority)
            /\ length (chain (blockchain st'))
               = length (chain (blockchain authority)))
        /\ (behind st (authority :: others) = true ->
            chainLength (blockchain authority) < chainLength (blockchain st) ->
            chainLength (blockchain st') < chainLength (blockchain st))).
Proof.
  intros Hr. split.
  - intros -> Hb.
    apply (synchronize_group_held P false authority others r st);
      [rewrite Hb; reflexivity | exact Hr].
  - intros Hcase.
    assert (Hfree : negb eager && behind authority (authority :: others) = false).
    { destruct Hcase as [-> | ->]; [reflexivity | apply andb_false_r]. }
    rewrite (synchronize_group_free P eager authority others Hfree).
    rewrite list_lookup_imap, Hr. cbn [fmap option_fmap option_map].
    destruct (member_enters P eager authority others r st Hfree Hr)
      as (_ & st' & Hrun & Hres).
    exists st'. split; [rewrite Hrun; reflexivity|].
    destruct (behind st (authority :: others)).
    + split; [discriminate|]. split; [intros _; exact Hres|].
      intros _ Hlt. destruct Hres as (-> & _). exact Hlt.
    + split; [intros _; exact Hres|]. split; discriminate.
Qed.

(** Lengths 2, 3, 1, 3, rank 0 behind.  Without buffering the member at
    rank 1 never comes out; with buffering it keeps its ledger of length 3
    and the member at rank 2 ends with the length 2 of rank 0. *)
Lemma reconciliation_member_outcome_witness :
  MPI.synchronize_group (fun _ => demo_heap) false uneven_group !! 1%nat
  = Some Py.Stall
  /\ exists st1 st2 : process,
       MPI.synchronize_group (fun _ => demo_heap) true uneven_group !! 1%nat
       = Some (Py.Ok st1)
       /\ MPI.synchronize_group (fun _ => demo_heap) true uneven_group !! 2%nat
          = Some (Py.Ok st2)
       /\ blockchain st1 = blockchain (heap_member 3)
       /\ chainLength (blockchain st2) = 2.
Proof.
  split.
  - destruct (reconciliation_member_outcome (fun _ => demo_heap) false
                (heap_member 2) [heap_member 3; heap_member 1; heap_member 3]
                1 (heap_member 3) eq_refl) as (Hheld & _).
    apply Hheld; [reflexivity | vm_compute; reflexivity].
  - destruct (reconciliation_member_outcome (fun _ => demo_heap) true
                (heap_member 2) [heap_member 3; heap_member 1; heap_member 3]
                1 (heap_member 3) eq_refl) as (_ & H1).
    destruct (H1 (or_introl eq_refl)) as (st1 & Hrun1 & Hkeep & _).
    destruct (reconciliation_member_outcome (fun _ => demo_heap) true
                (heap_member 2) [heap_member 3; heap_member 1; heap_member 3]
                2 (heap_member 1) eq_refl) as (_ & H2).
    destruct (H2 (or_introl eq_refl)) as (st2 & Hrun2 & _ & Htake & _).
    exists st1, st2. split; [exact Hrun1|]. split; [exact Hrun2|]. split.
    + apply Hkeep. vm_compute. reflexivity.
    + rewrite (proj1 (Htake ltac:(vm_compute; reflexivity))). vm_compute. reflexivity.
Defined.

Section ReconciliationCopies.

Lemma behind_level (authority : process) (group : list process) (st : process) :
  Forall (fun s => chainLength (blockchain s) = chainLength (blockchain authority))
         group ->
  chainLength (blockchain st) = chainLength (blockchain authority) ->
  behind st group = false.
Proof.
  intros Hall Hst. unfold behind.
  destruct (existsb _ group) eqn:Hex; [|reflexivity].
  apply existsb_exists in Hex as (s & Hin & Hlt).
  rewrite List.Forall_forall in Hall. specialize (Hall s Hin). lia.
Qed.

Lemma level_flags (authority : process) (others : list process) :
  Forall (fun s => chainLength (blockchain s) = chainLength (blockchain authority))
         (authority :: others) ->
  Forall (fun f => f = false) (MPI.group_flags (authority :: others)).
Proof.
  intros Hall. apply Forall_lookup. intros i f Hi.
  unfold MPI.group_flags in Hi. rewrite list_lookup_imap in Hi.
  destruct ((authority :: others) !! i) as [st|] eqn:Hst; [|discriminate].
  cbn [fmap option_fmap option_map] in Hi. injection Hi as Hi. subst f.
  transitivity (behind st (authority :: others));
    [exact (group_needSync (authority :: others) i st Hst)|].
  apply (behind_level authority); [exact Hall|].
  rewrite List.Forall_forall in Hall. apply Hall.
  apply list_elem_of_In. eapply list_elem_of_lookup_2. exact Hst.
Qed.

(** A member that is behind, in a group whose rank 0 is not held: what it
    holds after the protocol. *)
Lemma behind_member_copies (P : nat -> Platform) (eager : bool)
  (authority : process) (others : list process) (r : nat) (st : process) :
  negb eager && behind authority (authority :: others) = false ->
  (authority :: others) !! r = Some st ->
  behind st (authority :: others) = true ->
  injective_ids (P r) ->
  (forall n : nat, (created st <= n)%nat -> objects st !! new_id (P r) n = None) ->
  exists st' : process,
    MPI.synchronize_group P eager (authority :: others) !! r = Some (Py.Ok st')
    /\ contents st' = contents authority
    /\ file_records st' = contents authority
    /\ mirrored st'
    /\ well_allocated (P r) st'
    /\ memPool st' = memPool st.
Proof.
  intros Hfree Hr Hbehind Hinj Hnew.
  rewrite (synchronize_group_free P eager authority others Hfree).
  rewrite list_lookup_imap, Hr. cbn [fmap option_fmap option_map].
  destruct (member_enters P eager authority others r st Hfree Hr) as (Harr & _).
  rewrite Hbehind in Harr.
  unfold MPI.synchronize_ledgers. rewrite Harr.
  cbn [MPI.group_io MPI.ledgerLengths MPI.syncList MPI.eager].
  unfold BlockchainOps.get_chain_length.
  rewrite (group_needSync _ r st Hr), Hbehind.
  rewrite group_held, Hfree.
  match goal with
  | |- context [Py.bind _ ?m] => set (before := m)
  | |- context [mbind _ ?m] => set (before := m)
  end.
  assert (Hbefore : exists s0 : process,
             before = Py.Ok s0 /\ objects s0 = objects st
             /\ created s0 = created st /\ memPool s0 = memPool st).
  { subst before. destruct (Nat.eqb r 0); eexists; (split; [reflexivity|]);
      repeat split. }
  destruct Hbefore as (s0 & -> & Hobj0 & Hcr0 & Hpool0).
  cbn [mbind result_bind Py.bind mret result_ret].
  set (s1 := emit [Recv (Some BC_TAG)] (tick s0)).
  assert (Hnew1 : forall n : nat, (created s1 <= n)%nat ->
                                  objects s1 !! new_id (P r) n = None).
  { subst s1. fields. rewrite Hobj0, Hcr0. exact Hnew. }
  destruct (adopt_contents (P r) authority s1 Hinj Hnew1)
    as (Hc & Hwa & Hpool & _).
  eexists. split; [reflexivity|].
  unfold mirrored, file_records, contents, BlockchainOps.persist in *. fields.
  split; [exact Hc|]. split; [exact Hc|]. split; [reflexivity|].
  split.
  - destruct Hwa as [Hf Ho]. split; fields; assumption.
  - rewrite Hpool. subst s1. fields. exact Hpool0.
Qed.

End ReconciliationCopies.

(** X8.  A member that is behind replaces its ledger wholesale, in every
    group where the protocol completes (rank 0 is not behind, or the library
    buffers its send to itself): after [synchronize_ledgers] the ledger of
    the member has the blocks of rank 0, equal by value and in the same
    order, held in objects of its own; its data file has been rewritten with
    exactly these blocks; its pool is untouched. *)
Theorem reconciliation_copies_authority (P : nat -> Platform) (eager : bool)
  (authority : process) (others : list process) (r : nat) (st : process) :
  eager = true \/ behind authority (authority :: others) = false ->
  (authority :: others) !! r = Some st ->
  behind st (authority :: others) = true ->
  injective_ids (P r) ->
  (forall n : nat, (created st <= n)%nat -> objects st !! new_id (P r) n = None) ->
  exists st' : process,
    MPI.synchronize_group P eager (authority :: others) !! r = Some (Py.Ok st')
    /\ contents st' = contents authority
    /\ file_records st' = contents authority
    /\ mirrored st'
    /\ well_allocated (P r) st'
    /\ memPool st' = memPool st.
Proof.
  intros Hcase. apply behind_member_copies.
  destruct Hcase as [-> | ->]; [reflexivity | apply andb_false_r].
Qed.

(** Lengths 3, 3, 1, 3 and a library that does not buffer: the member at
    rank 2 ends with the three blocks of rank 0. *)
Lemma reconciliation_copies_authority_witness :
  exists st' : process,
    MPI.synchronize_group (fun _ => demo_heap) false led_group !! 2%nat
      = Some (Py.Ok st')
    /\ contents st' = contents (heap_member 3).
Proof.
  destruct (reconciliation_copies_authority (fun _ => demo_heap) false
              (heap_member 3) [heap_member 3; heap_member 1; heap_member 3]
              2 (heap_member 1))
    as (st' & Hrun & Hc & _).
  - right. vm_compute. reflexivity.
  - reflexivity.
  - vm_compute. reflexivity.
  - exact demo_heap_injective.
  - apply (read_blockchain_contents demo_heap
             (initial_process (Some (firstn 1 six_records)))
             demo_heap_injective (initial_well_allocated demo_heap _)).
  - exists st'. split; [exact Hrun | exact Hc].
Defined.

(** X9.  [synchronize_ledgers] on a group whose ledgers all have the same
    length is idle: rank 0 sends its ledger to nobody, and every member
    comes out with its ledger, objects, pool and data file as they were,
    having made the all-gather, the gather and the barrier of the protocol
    and nothing else. *)
Theorem reconciliation_of_level_group_is_idle (P : nat -> Platform)
  (eager : bool) (authority : process) (others : list process) :
  Forall (fun s => chainLength (blockchain s) = chainLength (blockchain authority))
         (authority :: others) ->
  MPI.group_posted (authority :: others) = []
  /\ forall (r : nat) (st : process),
       (authority :: others) !! r = Some st ->
       exists st' : process,
         MPI.synchronize_group P eager (authority :: others) !! r
         = Some (Py.Ok st')
         /\ blockchain st' = blockchain st
         /\ objects st' = objects st
         /\ memPool st' = memPool st
         /\ blockchain_data st' = blockchain_data st
         /\ trace st' = trace st ++ [Allgather; Gather; Barrier].
Proof.
  intros Hall.
  assert (Hidle : forall ledger,
             MPI.serve 0 (MPI.group_flags (authority :: others)) ledger = []).
  { intros ledger. apply serve_idle. apply level_flags. exact Hall. }
  split; [apply Hidle|].
  intros r st Hr.
  assert (Hlevel : forall s, In s (authority :: others) ->
                             behind s (authority :: others) = false).
  { intros s Hs. apply (behind_level authority); [exact Hall|].
    rewrite List.Forall_forall in Hall. apply Hall. exact Hs. }
  assert (Hfree : negb eager && behind authority (authority :: others) = false).
  { rewrite (Hlevel authority) by (left; reflexivity). apply andb_false_r. }
  rewrite (synchronize_group_free P eager authority others Hfree).
  rewrite list_lookup_imap, Hr. cbn [fmap option_fmap option_map].
  unfold MPI.synchronize_ledgers.
  cbn [MPI.group_io MPI.ledgerLengths MPI.ledger_arrival MPI.syncList MPI.eager].
  unfold BlockchainOps.get_chain_length.
  rewrite (group_needSync _ r st Hr), (Hlevel st)
    by (apply list_elem_of_In; eapply list_elem_of_lookup_2; exact Hr).
  rewrite group_held, Hfree, Hidle.
  destruct (Nat.eqb r 0); cbn [mbind result_bind Py.bind mret result_ret];
    (eexists; split; [reflexivity|]);
    fields; rewrite ?app_nil_r, <- ?app_assoc; repeat split.
Qed.

(** Four members with ledgers of length 3. *)
Lemma reconciliation_of_level_group_is_idle_witness :
  MPI.group_posted [heap_member 3; heap_member 3; heap_member 3; heap_member 3]
  = [].
Proof.
  apply (reconciliation_of_level_group_is_idle (fun _ => demo_heap) false
           (heap_member 3) [heap_member 3; heap_member 3; heap_member 3]).
  repeat constructor.
Defined.

(** C4.  In a group whose rank-0 member holds a ledger of maximum length,
    [synchronize_ledgers] completes for every member, whether the library
    buffers messages or not, and leaves every member with a ledger of that
    length.  A member that was not behind keeps its own ledger.  A member
    that was behind has replaced its ledger wholesale with the copy of the
    ledger of rank 0: its length and last hash, and (for objects that are
    the member's own, identities being handed out once) the blocks of
    rank 0, equal by value and in the same order, which are also what its
    data file now holds.  Put the other way round: after the protocol,
    either all members report the same length, or some member had a longer
    ledger than rank 0. *)
Theorem reconciliation_equalizes_lengths (P : nat -> Platform) (eager : bool)
  (authority : process) (others : list process) :
  let group := authority :: others in
  let top := BlockchainOps.get_chain_length (blockchain authority) in
  (Forall (fun st => BlockchainOps.get_chain_length (blockchain st) <= top) group ->
   forall (r : nat) (st : process),
     group !! r = Some st ->
     exists st' : process,
       MPI.synchronize_group P eager group !! r = Some (Py.Ok st')
       /\ BlockchainOps.get_chain_length (blockchain st') = top
       /\ (BlockchainOps.get_chain_length (blockchain st) = top ->
           blockchain st' = blockchain st /\ objects st' = objects st)
       /\ (BlockchainOps.get_chain_length (blockchain st) < top ->
           latest_block_hash (blockchain st')
             = latest_block_hash (blockchain authority)
           /\ length (chain (blockchain st'))
             = length (chain (blockchain authority))
           /\ (injective_ids (P r) ->
               (forall n : nat, (created st <= n)%nat ->
                                objects st !! new_id (P r) n = None) ->
               contents st' = contents authority
               /\ file_records st' = contents authority)))
  /\ ((forall (r : nat) (st : process),
         group !! r = Some st ->
         exists st' : process,
           MPI.synchronize_group P eager group !! r = Some (Py.Ok st')
           /\ BlockchainOps.get_chain_length (blockchain st') = top)
      \/ exists st : process,
           In st group
           /\ top < BlockchainOps.get_chain_length (blockchain st)).
Proof.
  intros group top. subst group top. unfold BlockchainOps.get_chain_length.
  assert (Hled : Forall (fun st => chainLength (blockchain st)
                                   <= chainLength (blockchain authority))
                        (authority :: others) ->
                 forall (r : nat) (st : process),
                   (authority :: others) !! r = Some st ->
                   negb eager && behind authority (authority :: others) = false
                   /\ behind st (authority :: others)
                      = (chainLength (blockchain st)
                         <? chainLength (blockchain authority))).
  { intros Hmax r st Hr. rewrite List.Forall_forall in Hmax.
    assert (Hnone : forall s, In s (authority :: others) ->
                              chainLength (blockchain authority)
                              <= chainLength (blockchain s) ->
                              behind s (authority :: others) = false).
    { intros s Hs Hle. unfold behind.
      destruct (existsb _ _) eqn:Hex; [|reflexivity].
      apply existsb_exists in Hex as (x & Hx & Hlt). specialize (Hmax x Hx). lia. }
    split.
    - rewrite (Hnone authority); [apply andb_false_r | left; reflexivity | lia].
    - assert (Hin : In st (authority :: others))
        by (apply list_elem_of_In; eapply list_elem_of_lookup_2; exact Hr).
      destruct (Z.ltb_spec (chainLength (blockchain st))
                           (chainLength (blockchain authority))) as [Hlt | Hge].
      + unfold behind. apply existsb_exists. exists authority.
        split; [left; reflexivity | lia].
      + apply Hnone; assumption. }
  assert (Hmember : Forall (fun st => chainLength (blockchain st)
                                      <= chainLength (blockchain authority))
                           (authority :: others) ->
                    forall (r : nat) (st : process),
                      (authority :: others) !! r = Some st ->
                      exists st' : process,
                        MPI.synchronize_group P eager (authority :: others) !! r
                        = Some (Py.Ok st')
                        /\ chainLength (blockchain st')
                           = chainLength (blockchain authority)
                        /\ (chainLength (blockchain st)
                            = chainLength (blockchain authority) ->
                            blockchain st' = blockchain st
                            /\ objects st' = objects st)
                        /\ (chainLength (blockchain st)
                            < chainLength (blockchain authority) ->
                            latest_block_hash (blockchain st')
                            = latest_block_hash (blockchain authority)
                            /\ length (chain (blockchain st'))
                               = length (chain (blockchain authority))
                            /\ (injective_ids (P r) ->
                                (forall n : nat, (created st <= n)%nat ->
                                   objects st !! new_id (P r) n = None) ->
                                contents st' = contents authority
                                /\ file_records st' = contents authority))).
  { intros Hmax r st Hr. destruct (Hled Hmax r st Hr) as [Hfree Hb].
    assert (Hle : chainLength (blockchain st) <= chainLength (blockchain authority)).
    { rewrite List.Forall_forall in Hmax. apply Hmax.
      apply list_elem_of_In. eapply list_elem_of_lookup_2. exact Hr. }
    pose proof (synchronize_group_free P eager authority others Hfree) as Hgroup.
    destruct (member_enters P eager authority others r st Hfree Hr)
      as (_ & st' & Hrun & Hres).
    exists st'. split.
    { rewrite Hgroup, list_lookup_imap, Hr. cbn [fmap option_fmap option_map].
      rewrite Hrun. reflexivity. }
    rewrite Hb in Hres.
    destruct (Z.ltb_spec (chainLength (blockchain st))
                         (chainLength (blockchain authority))) as [Hlt | Hge].
    - destruct Hres as (Hcl & Hlast & Hlen).
      split; [exact Hcl|]. split; [intros Heq; lia|].
      intros _. split; [exact Hlast|]. split; [exact Hlen|].
      intros Hinj Hnew.
      destruct (behind_member_copies P eager authority others r st Hfree Hr)
        as (st2 & Hrun2 & Hc & Hf & _); [|exact Hinj|exact Hnew|].
      { exact Hb. }
      rewrite Hgroup, list_lookup_imap, Hr in Hrun2.
      cbn [fmap option_fmap option_map] in Hrun2. rewrite Hrun in Hrun2.
      injection Hrun2 as <-. split; assumption.
    - destruct Hres as (Hbc & Hobj). rewrite Hbc.
      split; [lia|]. split; [intros _; split; [reflexivity | exact Hobj]|].
      intros Hlt. lia. }
  split; [exact Hmember|].
  destruct (decide (Forall (fun st => chainLength (blockchain st)
                                        <= chainLength (blockchain authority))
                           (authority :: others))) as [Hall | Hex].
  - left. intros r st Hr.
    destruct (Hmember Hall r st Hr) as (st' & Hrun & Hcl & _).
    exists st'. split; assumption.
  - right. apply not_Forall_Exists in Hex; [|intros st; apply _].
    apply Exists_exists in Hex as (st & Hin & Hgt).
    exists st. split; [apply list_elem_of_In; exact Hin | cbn in Hgt; lia].
Qed.

(** Scenario 2 of the design document on the demonstration heap: after
    reconciliation of ledgers of lengths 3, 3, 1, 3 the member that was
    behind reports length 3 and holds the three blocks of rank 0. *)
Lemma reconciliation_equalizes_lengths_witness :
  exists st' : process,
    MPI.synchronize_group (fun _ => demo_heap) false led_group !! 2%nat
      = Some (Py.Ok st')
    /\ BlockchainOps.get_chain_length (blockchain st') = 3
    /\ contents st' = contents (heap_member 3).
Proof.
  destruct (reconciliation_equalizes_lengths (fun _ => demo_heap) false
              (heap_member 3) [heap_member 3; heap_member 1; heap_member 3])
    as [H _].
  destruct (H ltac:(repeat constructor; vm_compute; discriminate)
              2%nat (heap_member 1) eq_refl) as (st' & Hrun & Hcl & _ & Hbehind).
  destruct (Hbehind ltac:(vm_compute; reflexivity)) as (_ & _ & Hcopy).
  exists st'. split; [exact Hrun|]. split; [exact Hcl|].
  apply Hcopy; [exact demo_heap_injective|].
  apply (read_blockchain_contents demo_heap
           (initial_process (Some (firstn 1 six_records)))
           demo_heap_injective (initial_well_allocated demo_heap _)).
Defined.

(* ===================================================================== *)
(** ** Filling a block, and the mined ledger of the group program *)
(* ===================================================================== *)

Section Filling.

Context (P : Platform).

Lemma add_transactions_nil (b : Block) : add_transactions [] b = b.
Proof. destruct b. unfold add_transactions. cbn. rewrite app_nil_r. reflexivity. Qed.

Lemma add_transactions_cons (t : Transaction) (ts : list Transaction) (b : Block) :
  add_transactions ts (BlockOps.add_transaction t b) = add_transactions (t :: ts) b.
Proof.
  unfold add_transactions, BlockOps.add_transaction. cbn.
  rewrite <- app_assoc. reflexivity.
Qed.

Lemma process_eta (st : process) :
  with_memPool (memPool st) (with_objects (objects st) st) = st.
Proof. destruct st. reflexivity. Qed.

End Filling.

(** X10.  The filling loop of a mining turn,
    [for i in range(n): newBlock.add_transaction(memPool.pull_transaction())].
    When the pool holds at least [n] transactions the loop moves the first
    [n] of them, in order, behind the transactions that the block already
    holds, and leaves the others in the pool; nothing else changes.  When
    the pool holds fewer than [n], the loop ends in [IndexError]. *)
Theorem fill_block_moves_oldest (n : nat) (newBlock : addr) (st : process) :
  ((n <= length (memPool st))%nat ->
   fill_block n newBlock st
   = Py.Ok (with_memPool (skipn n (memPool st))
              (with_objects
                 (alter (add_transactions (firstn n (memPool st))) newBlock
                        (objects st)) st)))
  /\ ((length (memPool st) < n)%nat ->
      fill_block n newBlock st = Py.Raise Py.IndexError).
Proof.
  revert st. induction n as [|n IH]; intros st.
  - split; [|lia]. intros _. cbn [fill_block firstn skipn].
    rewrite alter_id by (intros b _; apply add_transactions_nil).
    destruct st. reflexivity.
  - cbn [fill_block]. unfold pull_transaction.
    destruct (memPool st) as [|t rest] eqn:Hpool.
    + split; [cbn; lia | reflexivity].
    + cbn [MemPool.pull_transaction mbind result_bind Py.bind mret result_ret].
      specialize (IH (mutate (BlockOps.add_transaction t) newBlock
                             (with_memPool rest st))).
      revert IH. fields. intros [IHok IHerr]. split.
      * intros Hn. rewrite IHok by (cbn in Hn; lia).
        unfold with_memPool, with_objects. cbn [firstn skipn]. fields.
        rewrite alter_alter_eq. do 2 f_equal. apply alter_ext.
        intros b _. apply add_transactions_cons.
      * intros Hn. apply IHerr. cbn in Hn. lia.
Qed.

(** Two of four transactions moved into a new block; five asked of four. *)
Lemma fill_block_moves_oldest_witness :
  (exists st' : process,
     fill_block 2 (new_id demo_heap 0)
       (snd (allocate demo_heap new_block
               (with_memPool (demo_pool 4) (initial_process None))))
     = Py.Ok st'
     /\ memPool st' = skipn 2 (demo_pool 4))
  /\ fill_block 5 (new_id demo_heap 0)
       (snd (allocate demo_heap new_block
               (with_memPool (demo_pool 4) (initial_process None))))
     = Py.Raise Py.IndexError.
Proof.
  destruct (fill_block_moves_oldest 2 (new_id demo_heap 0)
              (snd (allocate demo_heap new_block
                      (with_memPool (demo_pool 4) (initial_process None)))))
    as [Hok _].
  destruct (fill_block_moves_oldest 5 (new_id demo_heap 0)
              (snd (allocate demo_heap new_block
                      (with_memPool (demo_pool 4) (initial_process None)))))
    as [_ Herr].
  split.
  - eexists. split; [apply Hok; cbn; lia | reflexivity].
  - apply Herr. cbn. lia.
Defined.

(* ===================================================================== *)
(** ** The mining loop of the group program, call by call *)
(* ===================================================================== *)

Section GroupSession.

Context (T : MPI.transport) (P : Platform).

(** The calls of one nonce search: the announcement of the digest it
    found, or the receive of a peer's. *)
Lemma mine_loop_trace (message : addr) (prefix : string) :
  forall (fuel : nat) (i : Z) (st : process) digest foundLocal st',
    MPI.mine_loop T P fuel message prefix i st
      = Py.Ok (digest, foundLocal, st') ->
    trace st'
    = trace st ++ (if foundLocal
                   then MPI.send_to_others T NONCE_TAG (DigestMsg digest)
                   else [Recv None]).
Proof.
  induction fuel as [|fuel IH]; intros i st digest foundLocal st' Hm;
    [discriminate|].
  cbn [MPI.mine_loop] in Hm. destruct (MPI.arrival T (clock st)).
  - injection Hm as _ <- <-. reflexivity.
  - destruct (Py.startswith _ _).
    + injection Hm as <- <- <-. reflexivity.
    + apply IH in Hm. exact Hm.
Qed.

(** One returning turn of the loop of the group program, field by field:
    the member mined the block itself, or took the block of a peer. *)
Lemma mpi_turn_exact (fuel : nat) (st st' : process) :
  MPI.mining_turn T P fuel st = Py.Ok st' ->
  let a := new_id P (created st) in
  let h := chainLength (blockchain st) + 1 in
  let ts := firstn 3 (memPool st) in
  memPool st' = skipn 3 (memPool st)
  /\ ((exists (digest : string) (st3 : process),
         MPI.mine_loop T P fuel a "00000" 0 (prepared P st)
         = Py.Ok (Py.Str digest, true, st3)
         /\ Py.startswith digest "00000" = true
         /\ objects st' = <[a := candidate ts (Py.Str digest) h]> (objects st)
         /\ created st' = S (created st)
         /\ blockchain st'
            = {| latest_block_hash := Py.Int (object_hash P a);
                 chainLength := h;
                 chain := chain (blockchain st) ++ [a];
                 difficulty := difficulty (blockchain st) |}
         /\ blockchain_data st'
            = Some (file_records st ++ [candidate ts (Py.Str digest) h])
         /\ trace st'
            = trace st
              ++ MPI.send_to_others T NONCE_TAG (DigestMsg (Py.Str digest))
              ++ MPI.send_to_others T BLOCK_TAG
                   (BlockMsg (candidate ts (Py.Str digest) h))
              ++ [Barrier])
      \/ (exists (v : Py.value) (rb : Block) (t : nat) (st3 : process),
            let a2 := new_id P (S (created st)) in
            MPI.mine_loop T P fuel a "00000" 0 (prepared P st)
            = Py.Ok (v, false, st3)
            /\ MPI.arrival T t = Some v
            /\ MPI.block_arrival T (clock st3) = Some rb
            /\ objects st'
               = <[a2 := BlockOps.set_block_height h rb]>
                   (<[a := candidate ts v 0]> (objects st))
            /\ created st' = S (S (created st))
            /\ blockchain st'
               = {| latest_block_hash := Py.Int (object_hash P a2);
                    chainLength := h;
                    chain := chain (blockchain st) ++ [a2];
                    difficulty := difficulty (blockchain st) |}
            /\ blockchain_data st'
               = Some (file_records st ++ [BlockOps.set_block_height h rb])
            /\ trace st'
               = trace st ++ [Recv None; Recv (Some BLOCK_TAG); Barrier])).
Proof.
  unfold MPI.mining_turn.
  destruct (allocate P new_block st) as [a st1] eqn:Ha.
  pose proof (prepare_spec P st) as Hp. rewrite Ha in Hp.
  unfold allocate in Ha. injection Ha as Ha _. rewrite Ha in Hp.
  cbn [snd] in Hp. rewrite Hp. cbn [mbind result_bind Py.bind].
  destruct (MPI.mine T P fuel a 5 (prepared P st))
    as [[[digest minedLocal] st3]| | |] eqn:Hm; try discriminate.
  cbn [mbind result_bind Py.bind].
  unfold MPI.mine in Hm. change (5 >=? 1) with true in Hm. cbn iota in Hm.
  change (Py.repeat_str "0" 5) with "00000" in Hm.
  pose proof Hm as Hst.
  apply mine_loop_state in Hst as (Hobj & Hcr & Hpool & Hbc & Hfile).
  pose proof (mine_loop_trace _ _ _ _ _ _ _ _ Hm) as Htr.
  revert Hobj Hcr Hpool Hbc Hfile Htr. fields. intros Hobj Hcr Hpool Hbc Hfile Htr.
  destruct (quota_firstn st) as [Hfirst Hskip].
  unfold MPI.broadcast_block. destruct minedLocal.
  - pose proof Hm as Hloop. apply mine_loop_local in Hm as (j & _ & -> & Hgood).
    cbn [mret result_ret]. intros Hst'. injection Hst' as Hst'. cbv zeta.
    rewrite <- Hst'. fields. rewrite Hobj, Hcr, Hpool, Hbc, Hfile, Htr.
    rewrite Ha, !alter_insert_eq, Hfirst, Hskip.
    unfold deref, file_records. rewrite lookup_insert_eq.
    split; [reflexivity|]. left. exists (tested_digest P a j), st3.
    split; [exact Hloop|]. split; [exact Hgood|]. split; [reflexivity|]. split; [reflexivity|].
    split; [reflexivity|]. split; [reflexivity|].
    rewrite <- !app_assoc. reflexivity.
  - pose proof Hm as Hloop. apply mine_loop_remote in Hm as (t & Ht).
    match goal with
    | |- context [MPI.block_arrival T ?c] =>
        destruct (MPI.block_arrival T c) as [rb|] eqn:Hrb;
          [|intros; discriminate]
    end.
    destruct (allocate P rb _) as [a2 st4] eqn:Ha2.
    unfold allocate in Ha2. injection Ha2 as Ha2 Hst4.
    cbn [mret result_ret]. intros Hst'. injection Hst' as Hst'. cbv zeta.
    rewrite <- Hst'. fields. rewrite <- Hst4. fields.
    rewrite Hobj, Hcr, Hpool, Hbc, Hfile, Htr.
    revert Ha2. fields. rewrite Hcr. intros Ha2.
    rewrite Ha, Ha2, !alter_insert_eq, Hfirst, Hskip.
    split; [reflexivity|]. right.
    exists digest, rb, t, st3.
    split; [exact Hloop|]. split; [exact Ht|]. split; [exact Hrb|].
    unfold deref, file_records. rewrite lookup_insert_eq.
    split; [reflexivity|]. split; [reflexivity|]. split; [reflexivity|].
    split; [reflexivity|].
    rewrite <- !app_assoc. reflexivity.
Qed.

Lemma fresh_not_in_chain (st : process) (n : nat) :
  injective_ids P -> well_allocated P st -> (created st <= n)%nat ->
  ~ In (new_id P n) (chain (blockchain st)).
Proof.
  intros Hinj [_ Hown] Hn Hin. apply Hown in Hin as (k & Hk & Heq).
  apply Hinj in Heq. lia.
Qed.

(** What one returning turn of the group loop adds to the ledger, to the
    data file and to the calls of the member, for a process whose objects
    are its own. *)
Lemma mpi_turn_contents (fuel : nat) (st st' : process) :
  injective_ids P -> well_allocated P st ->
  MPI.mining_turn T P fuel st = Py.Ok st' ->
  exists (b : Block) (calls : list event),
    well_allocated P st'
    /\ memPool st' = skipn 3 (memPool st)
    /\ contents st' = contents st ++ [b]
    /\ file_records st' = file_records st ++ [b]
    /\ chainLength (blockchain st') = chainLength (blockchain st) + 1
    /\ block_height b = chainLength (blockchain st) + 1
    /\ trace st' = trace st ++ calls ++ [Barrier]
    /\ forallb point_to_point calls = true
    /\ ((verified_transactions b = firstn 3 (memPool st)
         /\ previous_block_hash b = Py.Str ""
         /\ (exists digest : string,
               nonce b = Py.Str digest
               /\ Py.startswith digest "00000" = true)
         /\ created st' = S (created st))
        \/ (exists (t t' : nat) (rb : Block),
              MPI.arrival T t <> None
              /\ MPI.block_arrival T t' = Some rb
              /\ b = BlockOps.set_block_height
                       (chainLength (blockchain st) + 1) rb)).
Proof.
  intros Hinj Hwa Hturn.
  destruct (mpi_turn_exact fuel st st' Hturn) as [Hpool [Hlocal | Hremote]].
  - destruct Hlocal as (digest & st3 & _ & Hgood & Hobj & Hcr & Hbc & Hfile & Htr).
    exists (candidate (firstn 3 (memPool st)) (Py.Str digest)
                      (chainLength (blockchain st) + 1)),
           (MPI.send_to_others T NONCE_TAG (DigestMsg (Py.Str digest))
            ++ MPI.send_to_others T BLOCK_TAG
                 (BlockMsg (candidate (firstn 3 (memPool st)) (Py.Str digest)
                                      (chainLength (blockchain st) + 1)))).
    split.
    { eapply well_allocated_insert; eauto. left. rewrite Hbc. reflexivity. }
    split; [exact Hpool|]. split.
    { unfold contents. rewrite Hbc, Hobj. cbn [chain].
      rewrite List.map_app. cbn [List.map]. rewrite deref_insert_eq.
      rewrite map_deref_insert_fresh by (apply next_id_not_in_chain; assumption).
      reflexivity. }
    split; [unfold file_records at 1; rewrite Hfile; reflexivity|].
    split; [rewrite Hbc; reflexivity|]. split; [reflexivity|].
    split; [rewrite Htr, <- app_assoc; reflexivity|].
    split.
    { rewrite forallb_app. apply andb_true_intro.
      unfold MPI.send_to_others. rewrite !forallb_forall.
      split; intros e He; apply in_map_iff in He as (r & <- & _); reflexivity. }
    left. split; [reflexivity|]. split; [reflexivity|].
    split; [exists digest; split; [reflexivity | exact Hgood] | exact Hcr].
  - destruct Hremote as (v & rb & t & st3 & _ & Ht & Hrb & Hobj & Hcr & Hbc & Hfile & Htr).
    exists (BlockOps.set_block_height (chainLength (blockchain st) + 1) rb),
           [Recv None; Recv (Some BLOCK_TAG)].
    split.
    { destruct Hwa as [Hfree Hown]. split.
      - intros n Hn. rewrite Hcr in Hn. rewrite Hobj, !lookup_insert_ne.
        + apply Hfree. lia.
        + intros Heq. apply Hinj in Heq. lia.
        + intros Heq. apply Hinj in Heq. lia.
      - intros a Hin. rewrite Hcr. rewrite Hbc in Hin. cbn [chain] in Hin.
        apply in_app_or in Hin as [Hin | [<- | []]].
        + apply Hown in Hin as (k & Hk & ->). exists k. split; [lia | reflexivity].
        + exists (S (created st)). split; [lia | reflexivity]. }
    split; [exact Hpool|]. split.
    { unfold contents. rewrite Hbc, Hobj. cbn [chain].
      rewrite List.map_app. cbn [List.map]. rewrite deref_insert_eq.
      rewrite !map_deref_insert_fresh
        by (apply fresh_not_in_chain; [assumption | assumption | lia]).
      reflexivity. }
    split; [unfold file_records at 1; rewrite Hfile; reflexivity|].
    split; [rewrite Hbc; reflexivity|]. split; [reflexivity|].
    split; [rewrite Htr; reflexivity|]. split; [reflexivity|].
    right. exists t, (clock st3), rb. split; [congruence|].
    split; [exact Hrb | reflexivity].
Qed.

Lemma barriers_app (l l' : list event) :
  barriers (l ++ l') = (barriers l + barriers l')%nat.
Proof. unfold barriers. rewrite List.filter_app, length_app. reflexivity. Qed.

Lemma barriers_point_to_point (l : list event) :
  forallb point_to_point l = true -> barriers l = 0%nat.
Proof.
  induction l as [|e l IH]; [reflexivity|]. cbn [forallb]. intros H.
  apply andb_prop in H as [He Hl]. unfold barriers in *. cbn [List.filter].
  destruct e; try discriminate; apply IH; exact Hl.
Qed.

Lemma forallb_weaken (f g : event -> bool) (l : list event) :
  (forall e, f e = true -> g e = true) ->
  forallb f l = true -> forallb g l = true.
Proof.
  intros Hfg. rewrite !forallb_forall. intros H e He. apply Hfg, H, He.
Qed.

(** The calls of a returning run of the group loop, with no assumption on
    the process or on the peers. *)
Lemma mpi_loop_calls (fuel : nat) : forall (budget : nat) (st st' : process),
  MPI.mining_loop T P fuel budget st = Py.Ok st' ->
  exists calls : list event,
    trace st' = trace st ++ calls
    /\ forallb (fun e => point_to_point e || is_barrier e) calls = true
    /\ barriers calls = length (chunks budget (memPool st))
    /\ length (chain (blockchain st'))
       = (length (chain (blockchain st)) + length (chunks budget (memPool st)))%nat
    /\ chainLength (blockchain st')
       = chainLength (blockchain st)
         + Z.of_nat (length (chunks budget (memPool st)))
    /\ memPool st' = [].
Proof.
  induction budget as [|budget IH]; intros st st' Hrun;
    cbn [MPI.mining_loop] in Hrun;
    destruct (MemPool.get_size (memPool st) >? 0) eqn:Hsize; try discriminate.
  - injection Hrun as <-. apply pool_drained in Hsize. exists [].
    rewrite app_nil_r, Hsize. cbn. repeat split; lia.
  - destruct (MPI.mining_turn T P fuel st) as [st1| | |] eqn:Hturn;
      try discriminate.
    cbn [mbind result_bind Py.bind] in Hrun.
    destruct (mpi_turn_exact fuel st st1 Hturn) as [Hpool Hcases].
    destruct (IH st1 st' Hrun) as (calls & Htr & Hall & Hbar & Hlen & Hcl & Hnil).
    assert (Hchunks : chunks (S budget) (memPool st)
                      = firstn 3 (memPool st) :: chunks budget (memPool st1)).
    { rewrite Hpool. destruct (memPool st); [discriminate Hsize | reflexivity]. }
    rewrite Hchunks. cbn [length].
    assert (Hone : exists sent,
               trace st1 = trace st ++ sent ++ [Barrier]
               /\ forallb point_to_point sent = true
               /\ length (chain (blockchain st1))
                  = S (length (chain (blockchain st)))
               /\ chainLength (blockchain st1) = chainLength (blockchain st) + 1).
    { destruct Hcases as [(d & s3 & _ & _ & _ & _ & Hbc & _ & Htr1)
                         | (v & rb & t & s3 & _ & _ & _ & _ & _ & Hbc & _ & Htr1)].
      - eexists (_ ++ _). split; [rewrite Htr1, <- app_assoc; reflexivity|].
        split.
        + rewrite forallb_app. apply andb_true_intro.
          unfold MPI.send_to_others. rewrite !forallb_forall.
          split; intros e He; apply in_map_iff in He as (r & <- & _); reflexivity.
        + rewrite Hbc. cbn [chain chainLength]. rewrite length_app. cbn [length].
          split; lia.
      - exists [Recv None; Recv (Some BLOCK_TAG)].
        split; [rewrite Htr1; reflexivity|]. split; [reflexivity|].
        rewrite Hbc. cbn [chain chainLength]. rewrite length_app. cbn [length].
        split; lia. }
    destruct Hone as (sent & Htr1 & Hsent & Hlen1 & Hcl1).
    exists ((sent ++ [Barrier]) ++ calls).
    split; [rewrite Htr, Htr1, <- !app_assoc; reflexivity|].
    split.
    { rewrite !forallb_app, Hall.
      rewrite (forallb_weaken point_to_point
                 (fun e => point_to_point e || is_barrier e) sent);
        [reflexivity | intros e He; rewrite He; reflexivity | exact Hsent]. }
    split.
    { rewrite !barriers_app, Hbar, (barriers_point_to_point sent Hsent).
      reflexivity. }
    split; [rewrite Hlen, Hlen1; lia|].
    split; [rewrite Hcl, Hcl1; lia | exact Hnil].
  - injection Hrun as <-. apply pool_drained in Hsize. exists [].
    rewrite app_nil_r, Hsize. cbn. repeat split; lia.
Qed.

Lemma length_chunks : forall (fuel : nat) (pool : list Transaction),
  (length pool <= fuel)%nat ->
  Z.of_nat (length (chunks fuel pool)) = ceil_div (Z.of_nat (length pool)) 3.
Proof.
  unfold ceil_div.
  induction fuel as [|fuel IH]; intros pool Hlen.
  - destruct pool; [reflexivity | simpl in Hlen; lia].
  - destruct pool as [|t rest]; [reflexivity|].
    cbn [chunks length]. rewrite Nat2Z.inj_succ, IH
      by (rewrite length_skipn; simpl in *; lia).
    rewrite length_skipn. cbn [length].
    destruct rest as [|t2 [|t3 rest]]; [reflexivity | reflexivity |].
    cbn [length]. replace (S (S (S (length rest))) - 3)%nat with (length rest) by lia.
    rewrite !Nat2Z.inj_succ.
    replace (Z.succ (Z.succ (Z.succ (Z.of_nat (length rest)))) + 3 - 1)
      with ((Z.of_nat (length rest) + 3 - 1) + 1 * 3) by lia.
    rewrite Z.div_add by lia. lia.
Qed.

(** The blocks of a returning run of the group loop, for a process whose
    objects are its own: one block per run of three transactions of the
    pool, each the member's own candidate holding that run, or a block
    taken from a peer. *)
Lemma mpi_loop_contents (fuel : nat) : forall (budget : nat) (st st' : process),
  injective_ids P -> well_allocated P st ->
  MPI.mining_loop T P fuel budget st = Py.Ok st' ->
  exists new : list Block,
    well_allocated P st'
    /\ contents st' = contents st ++ new
    /\ file_records st' = file_records st ++ new
    /\ List.map block_height new
       = List.map (fun i => chainLength (blockchain st) + Z.of_nat (S i))
                  (seq 0 (length new))
    /\ Forall2 (fun b ts =>
                  (verified_transactions b = ts
                   /\ previous_block_hash b = Py.Str ""
                   /\ exists digest : string,
                        nonce b = Py.Str digest
                        /\ Py.startswith digest "00000" = true)
                  \/ (exists (t t' : nat) (rb : Block) (h : Z),
                        MPI.arrival T t <> None
                        /\ MPI.block_arrival T t' = Some rb
                        /\ b = BlockOps.set_block_height h rb))
               new (chunks budget (memPool st)).
Proof.
  induction budget as [|budget IH]; intros st st' Hinj Hwa Hrun;
    cbn [MPI.mining_loop] in Hrun;
    destruct (MemPool.get_size (memPool st) >? 0) eqn:Hsize; try discriminate.
  - injection Hrun as <-. apply pool_drained in Hsize. exists [].
    rewrite !app_nil_r, Hsize. repeat split; try apply Hwa. constructor.
  - destruct (MPI.mining_turn T P fuel st) as [st1| | |] eqn:Hturn;
      try discriminate.
    cbn [mbind result_bind Py.bind] in Hrun.
    destruct (mpi_turn_contents fuel st st1 Hinj Hwa Hturn)
      as (b & calls & Hwa1 & Hpool1 & Hc1 & Hf1 & Hcl1 & Hh1 & _ & _ & Hb).
    destruct (IH st1 st' Hinj Hwa1 Hrun) as (new & Hwa' & Hc & Hf & Hhs & Hall).
    exists (b :: new). split; [exact Hwa'|].
    split; [rewrite Hc, Hc1, <- app_assoc; reflexivity|].
    split; [rewrite Hf, Hf1, <- app_assoc; reflexivity|].
    split.
    { cbn [List.map length]. rewrite Hhs, Hh1, Hcl1.
      cbn [seq List.map]. apply (f_equal2 cons); [lia|].
      rewrite <- seq_shift, List.map_map. apply map_ext. intros i. lia. }
    assert (Hchunks : chunks (S budget) (memPool st)
                      = firstn 3 (memPool st) :: chunks budget (memPool st1)).
    { rewrite Hpool1. destruct (memPool st); [discriminate Hsize | reflexivity]. }
    rewrite Hchunks. constructor; [|exact Hall].
    destruct Hb as [(Htx & Hprev & Hn & _) | (t & t' & rb & Ht & Hrb & ->)].
    + left. split; [exact Htx|]. split; [exact Hprev | exact Hn].
    + right. exists t, t', rb, (chainLength (blockchain st) + 1).
      split; [exact Ht|]. split; [exact Hrb | reflexivity].
  - injection Hrun as <-. apply pool_drained in Hsize. exists [].
    rewrite !app_nil_r, Hsize. repeat split; try apply Hwa. constructor.
Qed.

End GroupSession.

(** X11.  Every returning run of the mining loop of multiblockchainDP.py,
    whatever the peers send: the calls the member makes on the group are
    sends, receives and barriers only, and it enters the barrier of the
    group once per block it appends, [ceil(T/3)] times for a pool of [T]
    transactions.  The count depends on the pool alone, not on who mined
    the blocks: members that hold the same broadcast pool enter the same
    number of barriers. *)
Theorem group_mining_one_barrier_per_block (T : MPI.transport) (P : Platform)
  (fuel budget : nat) (st st' : process) :
  (length (memPool st) <= budget)%nat ->
  MPI.mining_loop T P fuel budget st = Py.Ok st' ->
  let calls := calls_since (length (trace st)) st' in
  trace st' = trace st ++ calls
  /\ forallb (fun e => point_to_point e || is_barrier e) calls = true
  /\ barriers calls = length (blocks_of (memPool st))
  /\ Z.of_nat (barriers calls) = ceil_div (Z.of_nat (length (memPool st))) 3
  /\ length (chain (blockchain st'))
     = (length (chain (blockchain st)) + barriers calls)%nat
  /\ memPool st' = [].
Proof.
  intros Hbudget Hrun. cbv zeta.
  destruct (mpi_loop_calls T P fuel budget st st' Hrun)
    as (calls & Htr & Hall & Hbar & Hlen & _ & Hnil).
  assert (Hcalls : calls_since (length (trace st)) st' = calls).
  { unfold calls_since. rewrite Htr, skipn_app, skipn_all, Nat.sub_diag.
    reflexivity. }
  rewrite Hcalls.
  assert (Hchunks : chunks budget (memPool st) = blocks_of (memPool st)).
  { apply chunks_more_fuel; [exact Hbudget | lia]. }
  rewrite Hchunks in Hbar, Hlen.
  split; [exact Htr|]. split; [exact Hall|]. split; [exact Hbar|].
  split; [rewrite Hbar; apply length_chunks; lia|].
  split; [rewrite Hbar; exact Hlen | exact Hnil].
Qed.

(** A member of a group of two that takes both blocks of a pool of four
    transactions from its peer: two barriers. *)
Lemma group_mining_one_barrier_per_block_witness :
  exists st' : process,
    MPI.mining_loop outpaced demo_heap 1 4 outpaced_member = Py.Ok st'
    /\ barriers (calls_since 0 st') = 2%nat.
Proof.
  assert (Hrun : exists st' : process,
             MPI.mining_loop outpaced demo_heap 1 4 outpaced_member = Py.Ok st')
    by (vm_compute; eexists; reflexivity).
  destruct Hrun as (st' & Hrun). exists st'. split; [exact Hrun|].
  exact (proj1 (proj2 (proj2
           (group_mining_one_barrier_per_block outpaced demo_heap 1 4
              outpaced_member st' (le_n 4) Hrun)))).
Defined.

(** With no announcement from a peer, every block of a run is the member's
    own candidate. *)
Lemma own_blocks (T : MPI.transport) (new : list Block)
  (tss : list (list Transaction)) :
  (forall t, MPI.arrival T t = None) ->
  Forall2 (fun b ts =>
             (verified_transactions b = ts
              /\ previous_block_hash b = Py.Str ""
              /\ exists digest : string,
                   nonce b = Py.Str digest
                   /\ Py.startswith digest "00000" = true)
             \/ (exists (t t' : nat) (rb : Block) (h : Z),
                   MPI.arrival T t <> None
                   /\ MPI.block_arrival T t' = Some rb
                   /\ b = BlockOps.set_block_height h rb))
          new tss ->
  List.map verified_transactions new = tss
  /\ Forall (fun b =>
               previous_block_hash b = Py.Str ""
               /\ exists digest : string,
                    nonce b = Py.Str digest
                    /\ Py.startswith digest "00000" = true) new.
Proof.
  intros Hq Hall.
  induction Hall as [|b ts new' tss' Hb Hall IH]; [split; constructor|].
  destruct Hb as [(Htx & Hprev & Hn) | (t & _ & _ & _ & Ht & _)].
  - destruct IH as [IH1 IH2]. split.
    + cbn [List.map]. rewrite Htx, IH1. reflexivity.
    + constructor; [split; assumption | exact IH2].
  - destruct Ht. apply Hq.
Qed.

(** X12.  In a group where no peer sends anything, for a process whose
    objects are its own and candidates that have a nonce within the turns
    allowed: the mining loop of multiblockchainDP.py returns with the pool
    empty, the ledger and the data file extended by the same blocks, and
    these blocks hold the transactions of the pool, each exactly once, in
    pool order, three to a block; every such block has the initial [""] as
    [previous_block_hash] and a nonce with five leading zeros; a data file
    that was in step with the ledger stays in step. *)
Theorem quiet_group_mining_keeps_every_transaction (T : MPI.transport)
  (P : Platform) (fuel budget : nat) (st : process) :
  injective_ids P -> well_allocated P st -> quiet T ->
  (length (memPool st) <= budget)%nat ->
  (forall k : nat,
     (created st <= k
      < created st + Z.to_nat (ceil_div (Z.of_nat (length (memPool st))) 3))%nat ->
     nonce_within P fuel (new_id P k) = true) ->
  exists (new : list Block) (st' : process),
    MPI.mining_loop T P fuel budget st = Py.Ok st'
    /\ memPool st' = []
    /\ contents st' = contents st ++ new
    /\ file_records st' = file_records st ++ new
    /\ List.map verified_transactions new = blocks_of (memPool st)
    /\ ledger_transactions st' = ledger_transactions st ++ memPool st
    /\ Forall (fun b =>
                 previous_block_hash b = Py.Str ""
                 /\ exists digest : string,
                      nonce b = Py.Str digest
                      /\ Py.startswith digest "00000" = true) new
    /\ (mirrored st -> mirrored st').
Proof.
  intros Hinj Hwa Hq Hbudget Hnonce.
  destruct (mpi_loop_progress P T fuel Hq budget st Hbudget Hnonce)
    as (st' & Hrun).
  destruct (mpi_loop_contents T P fuel budget st st' Hinj Hwa Hrun)
    as (new & _ & Hc & Hf & _ & Hall).
  destruct (mpi_loop_calls T P fuel budget st st' Hrun)
    as (_ & _ & _ & _ & _ & _ & Hnil).
  destruct (own_blocks T new _ (proj1 Hq) Hall) as [Htxs Hprev].
  rewrite (chunks_more_fuel budget (length (memPool st))) in Htxs
    by (exact Hbudget || lia).
  exists new, st'. split; [exact Hrun|]. split; [exact Hnil|].
  split; [exact Hc|]. split; [exact Hf|]. split; [exact Htxs|].
  split.
  { unfold ledger_transactions. rewrite Hc, List.map_app, concat_app, Htxs.
    unfold blocks_of. rewrite concat_chunks by lia. reflexivity. }
  split; [exact Hprev|].
  unfold mirrored. intros Hm. rewrite Hc, Hf, Hm. reflexivity.
Qed.

(** One member on the demonstration heap with a pool of five transactions:
    both candidates have a nonce at counter value 0 or 1. *)
Lemma quiet_group_mining_keeps_every_transaction_witness :
  exists st' : process,
    MPI.mining_loop solo demo_heap 2 5
      (with_memPool (demo_pool 5) (initial_process None)) = Py.Ok st'
    /\ ledger_transactions st' = demo_pool 5.
Proof.
  destruct (quiet_group_mining_keeps_every_transaction solo demo_heap 2 5
              (with_memPool (demo_pool 5) (initial_process None))
              demo_heap_injective (initial_well_allocated demo_heap None))
    as (new & st' & Hrun & _ & _ & _ & _ & Htx & _).
  - split; reflexivity.
  - apply le_n.
  - intros k Hk.
    change (created (with_memPool (demo_pool 5) (initial_process None)))
      with 0%nat in Hk.
    change (ceil_div (Z.of_nat (length (memPool
              (with_memPool (demo_pool 5) (initial_process None))))) 3)
      with 2 in Hk.
    destruct k as [|[|k]]; [vm_compute; reflexivity .. | lia].
  - exists st'. split; [exact Hrun | exact Htx].
Defined.

(** X13.  A turn of the mining loop of multiblockchainDP.py in which a
    peer's announcement arrives before the member's own counter succeeds,
    followed by the peer's block: the member appends the peer's block, as
    received but for the height, to its ledger and to its data file; the
    candidate it had filled stays out of the ledger, carrying the announced
    value as nonce, and the transactions it had pulled for the candidate
    are back in no pool: the ledger gains the transactions of the peer's
    block, whichever they are.  The member receives twice, enters the
    barrier once, and sends nothing. *)
Theorem block_taken_from_peer_replaces_candidate (T : MPI.transport)
  (P : Platform) (fuel : nat) (st : process) (j : nat) (v : Py.value)
  (rb : Block) :
  injective_ids P -> well_allocated P st ->
  (j < fuel)%nat ->
  no_nonce P (new_id P (created st)) "00000" 0 (Z.of_nat j) ->
  (forall k : nat, (k < j)%nat -> MPI.arrival T (clock st + k)%nat = None) ->
  MPI.arrival T (clock st + j)%nat = Some v ->
  MPI.block_arrival T (clock st + S j)%nat = Some rb ->
  exists st' : process,
    let taken :=
      BlockOps.set_block_height (chainLength (blockchain st) + 1) rb in
    MPI.mining_turn T P fuel st = Py.Ok st'
    /\ memPool st' = skipn 3 (memPool st)
    /\ contents st' = contents st ++ [taken]
    /\ file_records st' = file_records st ++ [taken]
    /\ ledger_transactions st'
       = ledger_transactions st ++ verified_transactions rb
    /\ deref (objects st') (new_id P (created st))
       = candidate (firstn 3 (memPool st)) v 0
    /\ ~ In (new_id P (created st)) (chain (blockchain st'))
    /\ calls_since (length (trace st)) st'
       = [Recv None; Recv (Some BLOCK_TAG); Barrier].
Proof.
  intros Hinj Hwa Hfuel Hnone Hquiet Hv Hrb.
  pose proof (mine_loop_remote_exact T P (new_id P (created st)) "00000"
                j fuel 0 (prepared P st) v Hfuel Hquiet Hv Hnone) as Hm.
  assert (Hturn : exists st', MPI.mining_turn T P fuel st = Py.Ok st').
  { unfold MPI.mining_turn.
    destruct (allocate P new_block st) as [a st1] eqn:Ha.
    pose proof (prepare_spec P st) as Hp. rewrite Ha in Hp.
    unfold allocate in Ha. injection Ha as Ha _. rewrite Ha in Hp, Hm.
    cbn [snd] in Hp. rewrite Hp. cbn [mbind result_bind Py.bind].
    unfold MPI.mine. change (5 >=? 1) with true. cbn iota.
    change (Py.repeat_str "0" 5) with "00000". rewrite Hm.
    cbn [mbind result_bind Py.bind]. unfold MPI.broadcast_block.
    fields. rewrite clock_ticks. fields. rewrite <- ?Nat.add_succ_r, Hrb.
    eexists. reflexivity. }
  destruct Hturn as (st' & Hturn). exists st'. cbv zeta.
  split; [exact Hturn|].
  destruct (mpi_turn_exact T P fuel st st' Hturn) as [Hpool [Hlocal | Hremote]].
  { destruct Hlocal as (d & s3 & Hloop & _). rewrite Hm in Hloop. discriminate. }
  destruct Hremote as (v' & rb' & t & s3 & Hloop & _ & Hrb' & Hobj & Hcr & Hbc & Hfile & Htr).
  rewrite Hm in Hloop. injection Hloop as <- <-.
  revert Hrb'. fields. rewrite clock_ticks. fields.
  rewrite <- ?Nat.add_succ_r, Hrb.
  intros Hrb'. injection Hrb' as <-.
  assert (Hne : new_id P (S (created st)) <> new_id P (created st)).
  { intros Heq. apply Hinj in Heq. lia. }
  assert (Hc : contents st'
               = contents st
                 ++ [BlockOps.set_block_height (chainLength (blockchain st) + 1) rb]).
  { unfold contents. rewrite Hbc, Hobj. cbn [chain].
    rewrite List.map_app. cbn [List.map]. rewrite deref_insert_eq.
    rewrite !map_deref_insert_fresh
      by (apply fresh_not_in_chain; [assumption | assumption | lia]).
    reflexivity. }
  split; [exact Hpool|]. split; [exact Hc|].
  split; [unfold file_records at 1; rewrite Hfile; reflexivity|].
  split.
  { unfold ledger_transactions. rewrite Hc, List.map_app, concat_app.
    cbn [List.map concat]. rewrite app_nil_r. reflexivity. }
  split.
  { rewrite Hobj, deref_insert_ne by exact Hne. apply deref_insert_eq. }
  split.
  { rewrite Hbc. cbn [chain]. intros Hin.
    apply in_app_or in Hin as [Hin | [Heq | []]].
    - revert Hin. apply fresh_not_in_chain; [assumption | assumption | lia].
    - apply Hne. exact Heq. }
  unfold calls_since. rewrite Htr, skipn_app, skipn_all, Nat.sub_diag.
  reflexivity.
Qed.

(** The member of rank 1 outpaced at its first probe: the three
    transactions it pulled are in no block of its ledger, which holds the
    three of the peer's block. *)
Lemma block_taken_from_peer_replaces_candidate_witness :
  exists st' : process,
    MPI.mining_turn outpaced demo_heap 1 outpaced_member = Py.Ok st'
    /\ ledger_transactions st' = [demo_tx 7; demo_tx 8; demo_tx 9]
    /\ memPool st' = [demo_tx 4].
Proof.
  destruct (block_taken_from_peer_replaces_candidate outpaced demo_heap 1
              outpaced_member 0 (Py.Str "00000c2f") peer_block
              demo_heap_injective (initial_well_allocated demo_heap None))
    as (st' & Hrun & Hpool & _ & _ & Htx & _).
  - lia.
  - intros k Hk. lia.
  - intros k Hk. lia.
  - reflexivity.
  - reflexivity.
  - exists st'. split; [exact Hrun|]. split; [exact Htx | exact Hpool].
Defined.

(* ===================================================================== *)
(** ** basicBlockchain.py: who a transaction of the menu names *)
(* ===================================================================== *)

Lemma select_spec (sender recipient : string) :
  forall (clientList : list Menu.Client) (vars : option Menu.Client * option Menu.Client),
    fold_left (Menu.select_step sender recipient) clientList vars
    = (match Menu.last_named sender clientList with
       | Some c => Some c
       | None => fst vars
       end,
       match last clientList with
       | Some c => Some c
       | None => snd vars
       end).
Proof.
  induction clientList as [|c l IH] using rev_ind; intros vars.
  - destruct vars; reflexivity.
  - rewrite fold_left_app. cbn [fold_left]. rewrite IH.
    unfold Menu.select_step, Menu.last_named. cbn [fst snd].
    rewrite String.eqb_refl, rev_app_distr, last_snoc. cbn [rev app List.find].
    destruct (Menu.eq c sender); reflexivity.
Qed.

(** X14.  Menu choice 2 of basicBlockchain.py on a client list that is not
    empty (the list of [main] always ends with the clients appended since
    start-up, "Genesis" at least): the transaction appended to the pool has
    the identity of the last client of the list as recipient, whatever the
    operator typed as recipient; its sender is the last client whose name
    is the one typed, [None] when there is none; the pool is otherwise
    unchanged.  On an empty list the choice ends in UnboundLocalError. *)
Theorem transaction_recipient_is_last_client (clientList : list Menu.Client)
  (c : Menu.Client) (memPool : list Menu.Transaction)
  (sender recipient amount : string) (now : Z) :
  Menu.create_transaction (clientList ++ [c]) memPool sender recipient amount now
  = inr (memPool
         ++ [{| Menu.sender := Menu.last_named sender (clientList ++ [c]);
                Menu.recipient := Menu.identity c;
                Menu.value := amount;
                Menu.time := now |}])
  /\ (forall typed : string,
        Menu.create_transaction (clientList ++ [c]) memPool sender typed amount now
        = Menu.create_transaction (clientList ++ [c]) memPool sender recipient
            amount now)
  /\ ((forall k : Menu.Client, In k (clientList ++ [c]) ->
         Menu.name k <> sender) ->
      Menu.last_named sender (clientList ++ [c]) = None)
  /\ Menu.create_transaction [] memPool sender recipient amount now
     = inl Menu.UnboundLocalError.
Proof.
  assert (Hrun : forall typed,
             Menu.create_transaction (clientList ++ [c]) memPool sender typed
               amount now
             = inr (memPool
                    ++ [{| Menu.sender := Menu.last_named sender (clientList ++ [c]);
                           Menu.recipient := Menu.identity c;
                           Menu.value := amount;
                           Menu.time := now |}])).
  { intros typed. unfold Menu.create_transaction, Menu.select.
    rewrite select_spec, last_snoc. cbn [fst].
    destruct (Menu.last_named sender (clientList ++ [c])); reflexivity. }
  split; [apply Hrun|]. split; [intros typed; rewrite !Hrun; reflexivity|].
  split; [|reflexivity].
  intros Hnone. unfold Menu.last_named.
  destruct (List.find _ _) as [k|] eqn:Hfind; [|reflexivity].
  apply find_some in Hfind as [Hin Heq]. apply in_rev in Hin.
  unfold Menu.eq in Heq. apply String.eqb_eq in Heq.
  destruct (Hnone k Hin Heq).
Qed.

(** With "Genesis" and one client created since, a transaction typed as
    from an unknown "carol" to "Genesis" names the newcomer as recipient and
    no sender. *)
Lemma transaction_recipient_is_last_client_witness :
  Menu.create_transaction [genesis_client; newcomer] [] "carol" "Genesis" "10" 0
  = inr [{| Menu.sender := None;
            Menu.recipient := Menu.identity newcomer;
            Menu.value := "10";
            Menu.time := 0 |}].
Proof.
  destruct (transaction_recipient_is_last_client [genesis_client] newcomer []
              "carol" "Genesis" "10" 0) as (Hrun & _ & Hnone & _).
  change ([genesis_client; newcomer]) with ([genesis_client] ++ [newcomer]).
  rewrite Hrun, Hnone; [reflexivity|].
  intros k [<- | [<- | []]]; discriminate.
Defined.

(* ===================================================================== *)
(** ** The difficulty of a mined digest *)
(* ===================================================================== *)

Section Difficulty.

Lemma hex_word_length (x : Z) : forall n : nat,
  String.length (SHA256.hex_word n x) = n.
Proof.
  induction n as [|n IH]; [reflexivity|].
  cbn [SHA256.hex_word String.length]. rewrite IH. reflexivity.
Qed.

Lemma string_length_app (s t : string) :
  String.length (s ++ t)%string = (String.length s + String.length t)%nat.
Proof.
  induction s as [|c s IH]; [reflexivity|].
  simpl. rewrite IH. reflexivity.
Qed.

(** A digest has 64 characters. *)
Lemma sha256_length (message : string) :
  String.length (SHA256.sha256 message) = 64%nat.
Proof.
  unfold SHA256.sha256, SHA256.hexdigest. cbv zeta.
  rewrite !string_length_app, !hex_word_length. reflexivity.
Qed.

Lemma startswith_length : forall (p s : string),
  Py.startswith s p = true -> (String.length p <= String.length s)%nat.
Proof.
  induction p as [|c p IH]; intros s H; [cbn; lia|].
  destruct s as [|d s]; [discriminate|].
  cbn [Py.startswith] in H. apply andb_prop in H as [_ H].
  apply IH in H. cbn [String.length]. lia.
Qed.

Lemma replicate_char_length (c : ascii) : forall n : nat,
  String.length (Py.replicate_char n c) = n.
Proof.
  induction n as [|n IH]; [reflexivity|].
  cbn [Py.replicate_char String.length]. rewrite IH. reflexivity.
Qed.

(** No digest starts with more than 64 zeros. *)
Lemma no_nonce_beyond (P : Platform) (message : addr) (d lo hi : Z) :
  64 < d -> no_nonce P message (Py.repeat_str "0" d) lo hi.
Proof.
  intros Hd k _. unfold tested_digest.
  destruct (Py.startswith _ _) eqn:Hs; [|reflexivity].
  apply startswith_length in Hs.
  unfold Py.repeat_str in Hs.
  rewrite replicate_char_length, sha256_length in Hs. lia.
Qed.

(** Beyond difficulty 64 the single-node miner finds nothing. *)
Lemma mine_beyond_64 (P : Platform) (message : addr) (d : Z) :
  64 < d -> Dynamic.mine P message d = Py.Ok Py.None_.
Proof.
  intros Hd. unfold Dynamic.mine.
  assert (Hb : (d >=? 1) = true) by lia. rewrite Hb. f_equal.
  pose proof (mine_for_first P message (Py.repeat_str "0" d) (Z.to_nat 10000) 0)
    as Hfirst.
  destruct (Dynamic.mine_for P (Z.to_nat 10000) message (Py.repeat_str "0" d) 0)
    as [s|z|]; [| destruct Hfirst | reflexivity].
  destruct Hfirst as (j & Hj & _ & Hgood & _).
  rewrite (no_nonce_beyond P message d 0 (0 + Z.of_nat (Z.to_nat 10000)) Hd j)
    in Hgood by lia.
  discriminate.
Qed.

Lemma announced_app (l l' : list event) :
  announced (l ++ l') = announced l ++ announced l'.
Proof. unfold announced. apply flat_map_app. Qed.

Lemma announced_digest (T : MPI.transport) (v : Py.value) :
  Forall (fun x => x = v)
         (announced (MPI.send_to_others T NONCE_TAG (DigestMsg v))).
Proof.
  unfold MPI.send_to_others.
  induction (List.filter _ _) as [|r rest IH]; [constructor|].
  cbn [List.map announced flat_map]. change (NONCE_TAG =? NONCE_TAG) with true.
  cbn [app]. constructor; [reflexivity | exact IH].
Qed.

End Difficulty.

(** C7, as amended.  [Miner.mine] rejects a difficulty below 1 with an
    assertion error, in the group program and in the single-node programs.
    For a difficulty [d >= 1], in the group program: a digest that the
    caller found itself ([foundLocal] true) has at least [d] leading ['0']
    characters, and so has every digest the caller announces; a digest taken
    from a peer ([foundLocal] false) is the announcement of the peer, so
    that, the peers mining at the same difficulty, every digest returned has
    at least [d] leading zeros; the call returns within [n + 1] turns
    whenever the digest tested at counter value [n] carries the prefix.  The
    single-node miner returns the first digest with [d] leading zeros among
    the counter values below 10000, and [None] exactly when there is none,
    which is always so for [d > 64]. *)
Theorem mined_digest_leading_zeros (T : MPI.transport) (P : Platform)
  (fuel : nat) (message : addr) (d : Z) (st : process) :
  (d < 1 ->
     MPI.mine T P fuel message d st
       = Py.Raise (Py.AssertionError "Difficulty is invalid")
     /\ Dynamic.mine P message d
       = Py.Raise (Py.AssertionError "Difficulty is invalid"))
  /\ (1 <= d ->
      let prefix := Py.repeat_str "0" d in
      (forall (digest : Py.value) (foundLocal : bool) (st' : process),
         MPI.mine T P fuel message d st = Py.Ok (digest, foundLocal, st') ->
         (foundLocal = true ->
          exists s : string,
            digest = Py.Str s
            /\ Py.startswith s prefix = true
            /\ (Z.to_nat d <= Py.leading_zeros s)%nat)
         /\ (foundLocal = false -> exists t : nat, MPI.arrival T t = Some digest)
         /\ Forall (fun v =>
                      exists s : string,
                        v = Py.Str s
                        /\ Py.startswith s prefix = true
                        /\ (Z.to_nat d <= Py.leading_zeros s)%nat)
                   (announced (calls_since (length (trace st)) st'))
         /\ (announcements_meet T d ->
             exists s : string,
               digest = Py.Str s
               /\ Py.startswith s prefix = true
               /\ (Z.to_nat d <= Py.leading_zeros s)%nat))
      /\ (forall n : nat,
            Py.startswith (tested_digest P message (Z.of_nat n)) prefix = true ->
            (n < fuel)%nat ->
            exists r, MPI.mine T P fuel message d st = Py.Ok r)
      /\ ((exists (s : string) (j : Z),
             Dynamic.mine P message d = Py.Ok (Py.Str s)
             /\ 0 <= j < 10000
             /\ s = tested_digest P message j
             /\ no_nonce P message prefix 0 j
             /\ Py.startswith s prefix = true
             /\ (Z.to_nat d <= Py.leading_zeros s)%nat)
          \/ (Dynamic.mine P message d = Py.Ok Py.None_
              /\ no_nonce P message prefix 0 10000))
      /\ (64 < d -> Dynamic.mine P message d = Py.Ok Py.None_)).
Proof.
  unfold MPI.mine, Dynamic.mine. split.
  - intros Hd. assert (Hb : (d >=? 1) = false) by lia. rewrite Hb. split; reflexivity.
  - intros Hd. cbv zeta. assert (Hb : (d >=? 1) = true) by lia. rewrite Hb.
    set (prefix := Py.repeat_str "0" d).
    assert (Hsingle :
              (exists (s : string) (j : Z),
                  Dynamic.mine_for P (Z.to_nat 10000) message prefix 0 = Py.Str s
                  /\ 0 <= j < 10000
                  /\ s = tested_digest P message j
                  /\ no_nonce P message prefix 0 j
                  /\ Py.startswith s prefix = true)
              \/ (Dynamic.mine_for P (Z.to_nat 10000) message prefix 0 = Py.None_
                  /\ no_nonce P message prefix 0 10000)).
    { pose proof (mine_for_first P message prefix (Z.to_nat 10000) 0) as Hfirst.
      replace (0 + Z.of_nat (Z.to_nat 10000)) with 10000 in Hfirst by lia.
      destruct (Dynamic.mine_for P (Z.to_nat 10000) message prefix 0) as [s|z|];
        [| destruct Hfirst |].
      - destruct Hfirst as (j & Hj & Hs & Hgood & Hnone).
        left. exists s, j. split; [reflexivity|]. split; [lia|].
        split; [exact Hs|]. split; [exact Hnone|]. rewrite Hs. exact Hgood.
      - right. split; [reflexivity | exact Hfirst]. }
    split; [|split; [|split]].
    + intros digest foundLocal st' H.
      pose proof (mine_loop_trace T P _ _ _ _ _ _ _ _ H) as Htr.
      assert (Hcalls : calls_since (length (trace st)) st'
                       = if foundLocal
                         then MPI.send_to_others T NONCE_TAG (DigestMsg digest)
                         else [Recv None]).
      { unfold calls_since. rewrite Htr, skipn_app, skipn_all, Nat.sub_diag.
        reflexivity. }
      rewrite Hcalls. destruct foundLocal.
      * apply mine_loop_local in H as (j & _ & -> & Hs).
        assert (Hgood : exists s : string,
                   Py.Str (tested_digest P message j) = Py.Str s
                   /\ Py.startswith s prefix = true
                   /\ (Z.to_nat d <= Py.leading_zeros s)%nat).
        { eexists. split; [reflexivity|]. split; [exact Hs|].
          apply startswith_zeros. exact Hs. }
        split; [intros _; exact Hgood|]. split; [discriminate|].
        split; [|intros _; exact Hgood].
        eapply Forall_impl; [apply announced_digest|].
        intros v ->. exact Hgood.
      * apply mine_loop_remote in H as (t & Ht).
        split; [discriminate|]. split; [intros _; exists t; exact Ht|].
        split; [constructor|].
        intros Hmeet. destruct (Hmeet t digest Ht) as (s & -> & Hs).
        exists s. split; [reflexivity|]. split; [exact Hs|].
        apply startswith_zeros. exact Hs.
    + intros n Hgood Hfuel. apply (mine_loop_progress T P _ _ n); [|exact Hfuel].
      exact Hgood.
    + destruct Hsingle as [(s & j & -> & Hj & Hs & Hnone & Hgood) | [-> Hnone]].
      * left. exists s, j. split; [reflexivity|]. split; [exact Hj|].
        split; [exact Hs|]. split; [exact Hnone|]. split; [exact Hgood|].
        apply startswith_zeros. exact Hgood.
      * right. split; [reflexivity | exact Hnone].
    + intros Hbig. pose proof (mine_beyond_64 P message d Hbig) as Hnone.
      unfold Dynamic.mine in Hnone. rewrite Hb in Hnone. exact Hnone.
Qed.

(** The first candidate of the demonstration platform at difficulty 5: the
    digest is found locally at counter value 1 and has five leading zeros;
    difficulty 0 is rejected. *)
Lemma mined_digest_leading_zeros_witness :
  (exists r,
     MPI.mine solo demo_platform 10 (new_id demo_platform 0) 5
       (initial_process None) = Py.Ok r)
  /\ MPI.mine solo demo_platform 10 (new_id demo_platform 0) 0
       (initial_process None)
     = Py.Raise (Py.AssertionError "Difficulty is invalid").
Proof.
  split.
  - destruct (mined_digest_leading_zeros solo demo_platform 10
                (new_id demo_platform 0) 5 (initial_process None))
      as [_ H].
    destruct (H ltac:(lia)) as (_ & Hprogress & _).
    apply (Hprogress 1%nat); [vm_compute; reflexivity | lia].
  - destruct (mined_digest_leading_zeros solo demo_platform 10
                (new_id demo_platform 0) 0 (initial_process None))
      as [H _].
    exact (proj1 (H ltac:(lia))).
Defined.

(** C7, as stated, fails for the single-node miner: at difficulty 65 it
    runs through its 10000 counter values and returns [None], no digest
    having 65 characters. *)
Lemma mine_returns_digest_fails : ~ mine_returns_digest demo_platform.
Proof.
  intros H. destruct (H (new_id demo_platform 0) 65 ltac:(lia)) as (s & Hs & _).
  rewrite (mine_beyond_64 demo_platform (new_id demo_platform 0) 65) in Hs by lia.
  discriminate.
Qed.
